(** * tsjetdb: a shallow embedding of the JET3/JET4 (.mdb) reader

    The development follows [src/jetdb.ts] in its synchronous form (class
    [JetDb] with [databaseConfig], [parseOffsets], [readRowsForPage],
    [parseColumn], [parseText], [decompressUnicode], [columns], [rows]) and,
    for the header decoder, also the older asynchronous build
    ([databaseVersion]).

    Conventions.
    - A Node [Buffer] is a list of bytes, each byte a [Z] in [0, 256).
    - A JS string is the list of its UTF-16 code units.
    - A thrown JS value is an [Exn]; a function that may throw returns
      [Res A].
    - JS numbers that the code only uses as integers are [Z]; the byte
      counters of the decompression loop are [nat]. *)

From Stdlib Require Import ZArith Lia Bool String Ascii Sorted.
From stdpp Require Import base list strings sorting.

Local Open Scope Z_scope.

(** ** Thrown values and the result monad *)

Module Js.

(** The values the reader can throw.  [Error] messages built from a template
    keep the interpolated value as an argument. *)
Inductive Exn : Type :=
| RangeError                      (* out-of-range Buffer / DataView access *)
| TypeError (prop : string)       (* reading property [prop] of undefined *)
| AssertionError (field : string) (* binary-parser: assert on [field] failed *)
| ParserOptionError               (* binary-parser: Error thrown while a parser is built *)
| UnknownDatabaseVersion (v : Z)  (* Error(`Unknown database version ${v}`) *)
| Jetdb3NotSupported              (* Error('JETDB3 not supported') *)
| ErrorInTableNames.              (* Error('Error in table names') *)

Inductive Res (A : Type) : Type :=
| Ok (a : A)
| Throw (e : Exn).

Arguments Ok {A} a.
Arguments Throw {A} e.

#[global] Instance Res_bind : MBind Res := fun A B k m =>
  match m with
  | Ok a => k a
  | Throw e => Throw e
  end.

#[global] Instance Res_ret : MRet Res := fun A a => Ok a.

(** [arr.forEach((x, idx) => ...)] with a callback that may throw and whose
    results are collected: the first exception aborts the traversal.
    (Without the index this is stdpp's [mapM].) *)
Fixpoint mapMi_from {A B : Type} (f : nat -> A -> Res B) (i : nat) (l : list A)
  : Res (list B) :=
  match l with
  | [] => Ok []
  | x :: xs => y ← f i x; ys ← mapMi_from f (S i) xs; Ok (y :: ys)
  end.

Definition mapMi {A B : Type} (f : nat -> A -> Res B) (l : list A) : Res (list B) :=
  mapMi_from f 0%nat l.

End Js.

Export Js.

(** ** Buffers *)

Abbreviation Buffer := (list Z).

(** A JS string: its UTF-16 code units. *)
Abbreviation JsString := (list Z).

Definition codeUnits (s : string) : JsString :=
  map (fun c => Z.of_nat (nat_of_ascii c)) (list_ascii_of_string s).

(** [arr[i]] for an array or Buffer and an integer index: [None] stands for
    [undefined]. *)
Definition jsGet {A : Type} (arr : list A) (i : Z) : option A :=
  if i <? 0 then None else arr !! Z.to_nat i.

Module Buf.

(** [Buffer.alloc(n)] *)
Definition alloc (n : nat) : Buffer := replicate n 0.

(** [buf.readUInt8(off)]: a bounds error when [buf[off]] is undefined. *)
Definition readUInt8 (buf : Buffer) (off : Z) : Res Z :=
  match jsGet buf off with
  | Some v => Ok v
  | None => Throw RangeError
  end.

(** [buf.readInt8(off)]: the byte read as a two's-complement number,
    [val | (val & 2 ** 7) * 0x1fffffe]. *)
Definition int8 (v : Z) : Z := if v <? 128 then v else v - 256.

Definition readInt8 (buf : Buffer) (off : Z) : Res Z :=
  match jsGet buf off with
  | Some v => Ok (int8 v)
  | None => Throw RangeError
  end.

(** Little-endian value of a run of bytes. *)
Fixpoint le (bytes : list Z) : Z :=
  match bytes with
  | [] => 0
  | b :: bs => b + 256 * le bs
  end.

(** The [n] bytes at [off .. off+n), when they all exist. *)
Definition bytesAt (buf : Buffer) (off : Z) (n : nat) : option (list Z) :=
  if off <? 0 then None
  else
    let bs := take n (drop (Z.to_nat off) buf) in
    if (length bs =? n)%nat then Some bs else None.

Definition readLE (n : nat) (buf : Buffer) (off : Z) : Res Z :=
  match bytesAt buf off n with
  | Some bs => Ok (le bs)
  | None => Throw RangeError
  end.

Definition readUInt16LE : Buffer -> Z -> Res Z := readLE 2.
Definition readUInt32LE : Buffer -> Z -> Res Z := readLE 4.
(** [readBigUInt64LE] yields a bigint, [readDoubleLE] a double; both are
    kept as the 64-bit pattern that was read. *)
Definition readBigUInt64LE : Buffer -> Z -> Res Z := readLE 8.
Definition readDoubleLE : Buffer -> Z -> Res Z := readLE 8.

(** [buf.subarray(start, end)].  An index is [None] when it is NaN (taken
    as 0); a negative index counts from the end; both are clamped to the
    buffer. *)
Definition relIndex (len : Z) (i : option Z) : Z :=
  match i with
  | None => 0
  | Some k => if k <? 0 then Z.max (len + k) 0 else Z.min k len
  end.

Definition subarray (buf : Buffer) (start stop : option Z) : Buffer :=
  let len := Z.of_nat (length buf) in
  let b := relIndex len start in
  let e := relIndex len stop in
  take (Z.to_nat (Z.max (e - b) 0)) (drop (Z.to_nat b) buf).

(** [buf.toString('latin1')]: one code unit per byte. *)
Definition toLatin1 (buf : Buffer) : JsString := buf.

(** [buf.toString('utf16le')]: one code unit per byte pair; a trailing odd
    byte is dropped. *)
Fixpoint toUtf16le (buf : Buffer) : JsString :=
  match buf with
  | lo :: hi :: rest => (lo + 256 * hi) :: toUtf16le rest
  | _ => []
  end.

End Buf.

(** ** The page reader *)

(** [BufferReader.readBuffer(size, position)]: a zero-filled buffer of
    [size] bytes receives what the file holds from byte [size * position].
    [Buffer.alloc] rejects a negative size.  [fs.readSync] rejects a
    position below -1 and takes -1 for the current position of the
    descriptor, which stays at the start of the file since every read of
    the class is positional. *)
Definition readBuffer (file : Buffer) (size : Z) (position : Z) : Res Buffer :=
  if size <? 0 then Throw RangeError
  else if size * position <? -1 then Throw RangeError
  else
    let from := if size * position =? -1 then 0 else size * position in
    let got := take (Z.to_nat size) (drop (Z.to_nat from) file) in
    Ok (got ++ Buf.alloc (Z.to_nat size - length got)).

(** ** Header decoder *)

Inductive Version : Type :=
| JETDB3   (* = 0 *)
| JETDB4.  (* = 1 *)

Record DatabaseConfig : Type := mkConfig {
  pageSize : Z;
  version : Version
}.

(** [JetDb.databaseConfig] *)
Definition databaseConfig (buf : Buffer) : Res DatabaseConfig :=
  v ← Buf.readInt8 buf 0x14;
  if v =? 0 then Ok {| pageSize := 2048; version := JETDB3 |}
  else if v =? 1 then Ok {| pageSize := 4096; version := JETDB4 |}
  else Throw (UnknownDatabaseVersion v).

(** [JetDb.databaseVersion], the header decoder of the asynchronous build:
    it refuses JET3 files. *)
Definition databaseVersion (buf : Buffer) : Res DatabaseConfig :=
  v ← Buf.readInt8 buf 0x14;
  if v =? 0 then Throw Jetdb3NotSupported
  else if v =? 1 then Ok {| pageSize := 4096; version := JETDB4 |}
  else Throw (UnknownDatabaseVersion v).

(** The first step of the constructor:
    [this.config = this.databaseConfig(this.reader.readBuffer(2048, 0))]. *)
Definition openConfig (file : Buffer) : Res DatabaseConfig :=
  buf ← readBuffer file 2048 0;
  databaseConfig buf.

(** The first step of [init] in the asynchronous build:
    [this.databaseVersion(await this.reader.readBuffer(2048, 0))]. *)
Definition openVersion (file : Buffer) : Res DatabaseConfig :=
  buf ← readBuffer file 2048 0;
  databaseVersion buf.

(** ** UnicodeCodec *)

(** [dst[i] = v] on a Buffer: a write past the end is ignored, and
    [undefined] is stored as 0. *)
Definition bufSet (dst : Buffer) (i : nat) (v : option Z) : Buffer :=
  <[i := default 0 v]> dst.

(** The [while (slen > 0 && tlen < dlen)] loop of [decompressUnicode], with
    its mutable variables as arguments.  Every iteration that does not
    [break] lowers [slen] by one or by two. *)
Fixpoint decompressLoop (src : Buffer) (dlen : nat)
    (slen : nat) (compress : bool) (pos tlen : nat) (dst : Buffer) {struct slen}
  : nat * Buffer :=
  match slen with
  | O => (tlen, dst)
  | S slen1 =>
      if negb (tlen <? dlen)%nat then (tlen, dst)
      else if bool_decide (src !! pos = Some 0) then
        decompressLoop src dlen slen1 (negb compress) (pos + 1) tlen dst
      else if compress then
        decompressLoop src dlen slen1 compress (pos + 1) (tlen + 2)
          (bufSet (bufSet dst tlen (src !! pos)) (tlen + 1) (Some 0))
      else
        match slen1 with
        | S slen2 =>
            decompressLoop src dlen slen2 compress (pos + 2) (tlen + 2)
              (bufSet (bufSet dst tlen (src !! pos)) (tlen + 1) (src !! (pos + 1)%nat))
        | O => (tlen, dst)
        end
  end.

(** [JetDb.decompressUnicode(src, slen, dlen)] *)
Definition decompressUnicode (src : Buffer) (slen dlen : nat) : Buffer :=
  let '(tlen, dst) :=
    decompressLoop src dlen slen true 0 0 (Buf.alloc (slen * 2)) in
  take tlen dst.

(** [JetDb.parseText(buffer)] *)
Definition parseText (config : DatabaseConfig) (buffer : Buffer) : JsString :=
  match version config with
  | JETDB3 => Buf.toLatin1 buffer
  | JETDB4 =>
      if bool_decide (buffer !! 0%nat = Some 0xff)
         && bool_decide (buffer !! 1%nat = Some 0xfe)
      then
        let start := 2 in
        let slen := (length buffer - 2)%nat in
        let decompressed :=
          decompressUnicode
            (Buf.subarray buffer (Some start) (Some (Z.of_nat (length buffer))))
            slen (slen * 2) in
        Buf.toUtf16le decompressed
      else Buf.toUtf16le buffer
  end.

(** ** binary-parser

    A parser reads the buffer through a [DataView] from a running offset;
    a read outside the buffer throws a [RangeError]. *)

Definition Parser (A : Type) : Type := Buffer -> Z -> Res (A * Z).

Module P.

Definition ret {A} (a : A) : Parser A := fun _ off => Ok (a, off).

Definition bind {A B} (p : Parser A) (k : A -> Parser B) : Parser B :=
  fun buf off =>
    match p buf off with
    | Ok (a, off') => k a buf off'
    | Throw e => Throw e
    end.

(** [parser.parse(buffer)] *)
Definition parse {A} (p : Parser A) (buf : Buffer) : Res A :=
  match p buf 0 with
  | Ok (a, _) => Ok a
  | Throw e => Throw e
  end.

Definition lift (rd : Buffer -> Z -> Res Z) (size : Z) : Parser Z :=
  fun buf off =>
    match rd buf off with
    | Ok v => Ok (v, off + size)
    | Throw e => Throw e
    end.

Definition uint8 : Parser Z := lift Buf.readUInt8 1.
Definition uint16le : Parser Z := lift Buf.readUInt16LE 2.
Definition uint32le : Parser Z := lift Buf.readUInt32LE 4.

(** [.seek(n)] moves the offset and reads nothing. *)
Definition seek (n : Z) : Parser unit := fun _ off => Ok (tt, off + n).

(** The [assert] option of a field. *)
Definition assert (b : bool) (field : string) : Parser unit :=
  fun _ off => if b then Ok (tt, off) else Throw (AssertionError field).

(** [.array(name, { type, length })] *)
Fixpoint array {A} (p : Parser A) (n : nat) : Parser (list A) :=
  match n with
  | O => ret []
  | S n' => bind p (fun x => bind (array p n') (fun xs => ret (x :: xs)))
  end.

(** Eight [bit1] fields of a little-endian parser: one byte, least
    significant bit first. *)
Definition bitsOfByte (b : Z) : list Z :=
  map (fun k => Z.land (Z.shiftr b k) 1) [0; 1; 2; 3; 4; 5; 6; 7].

Definition bits8 : Parser (list Z) :=
  bind uint8 (fun b => ret (bitsOfByte b)).

(** [.buffer(name, { readUntil: 'eof' })]: [buffer.subarray(offset)] *)
Definition bufferEof : Parser Buffer :=
  fun buf off => Ok (Buf.subarray buf (Some off) (Some (Z.of_nat (length buf))), off).

End P.

Notation "x <~ p ;; k" := (P.bind p (fun x => k))
  (at level 100, p at next level, right associativity, only parsing).

(** ** Data model *)

Module TdefColumn.
Record t : Type := mk {
  type : Z;
  number : Z;
  offsetF : Z;
  offsetV : Z;
  length : Z;
  bitmask : Z
}.
End TdefColumn.

Module TdefColumnName.
Record t : Type := mk {
  length : Z;
  name : JsString
}.
End TdefColumnName.

Module Tdef.
Record t : Type := mk {
  numRows : Z;
  pagecode : Z;
  cols : list TdefColumn.t;
  colNames : list TdefColumnName.t;
  usedPagesPage : Z;
  nextPage : Z
}.
End Tdef.

Module DataPage.
Record t : Type := mk {
  pagecode : Z;
  freeSpaceInPage : Z;
  tdefPage : Z;
  numRows : Z;
  offsets : list Z
}.
End DataPage.

Module RowOffset.
Record t : Type := mk {
  lookupFlag : Z;
  delFlag : bool;
  offset : Z;
  next : Z
}.
End RowOffset.

(** [ColumnValue = number | bigint | string | Date | null]; no code path
    builds a [Date].  A double is kept as the 64 bits it was read from. *)
Inductive ColumnValue : Type :=
| VNull
| VNumber (n : Z)
| VDouble (bits : Z)
| VBigInt (n : Z)
| VString (s : JsString).

Module ColumnData.
Record t : Type := mk {
  position : Z;
  rawValue : Buffer;
  type : Z;
  name : JsString;
  isNull : bool;
  value : ColumnValue
}.
End ColumnData.

Module RowData.
Record t : Type := mk {
  number : nat;
  columns : list ColumnData.t
}.
End RowData.

(** What the development takes from outside the repository: choices of the
    JS runtime and of the binary-parser package that the reader's code does
    not fix. *)
Record Runtime : Type := mkRuntime {
  (** binary-parser checks [!options.length] when an [array] is added to a
      parser: is a numeric length 0 refused there? *)
  arrayRejectsZero : bool;
  (** [val == table] for a [val] that is a number, a double or a bigint and
      a string [table] (the runtime's StringToNumber / StringToBigInt). *)
  looseEqString : ColumnValue -> JsString -> bool
}.

(** [.array('', { type, length: n })] with [n] a number known when the
    parser is built. *)
Definition arrayLit {A} (rt : Runtime) (p : Parser A) (n : Z) : Parser (list A) :=
  if arrayRejectsZero rt && (n =? 0) then fun _ _ => Throw ParserOptionError
  else P.array p (Z.to_nat n).

(** The sentinel of the value decoder. *)
Definition unknownType : ColumnValue := VString (codeUnits "[unknown type]").

(** JS [x >> k] on a number: ToInt32, then an arithmetic shift. *)
Definition toInt32 (x : Z) : Z :=
  let m := x mod 2 ^ 32 in
  if m <? 2 ^ 31 then m else m - 2 ^ 32.

Definition sar (x k : Z) : Z := Z.shiftr (toInt32 x) k.

(** A number that may be NaN ([None]): [start] is one when
    [varOffsets[column.offsetV]] is undefined. *)
Abbreviation Num := (option Z).

Definition nadd (a : Num) (b : Z) : Num := (fun x => x + b) <$> a.

(** A Buffer read at a possibly-NaN offset: NaN is out of range. *)
Definition readAt (rd : Buffer -> Z -> Res Z) (buf : Buffer) (off : Num) : Res Z :=
  match off with
  | Some o => rd buf o
  | None => Throw RangeError
  end.

(** ** DataPageDecoder and ValueDecoder

    The private methods of [JetDb]; [rt], [config] and [file] stand for the
    environment, [this.config] and the file behind [this.reader]. *)

Section Decoder.

Variable rt : Runtime.
Variable config : DatabaseConfig.
Variable file : Buffer.

(** The parser built in [parseOffsets]. *)
Definition dataPageParser : Parser DataPage.t :=
  pagecode <~ P.uint8 ;;
  _ <~ P.assert (pagecode =? 0x01) "pagecode" ;;
  _ <~ P.seek 1 ;;
  freeSpaceInPage <~ P.uint16le ;;
  tdefPage <~ P.uint32le ;;
  _ <~ match version config with
       | JETDB4 => P.seek 4
       | JETDB3 => P.ret tt
       end ;;
  numRows <~ P.uint16le ;;
  offsets <~ P.array P.uint16le (Z.to_nat numRows) ;;
  P.ret (DataPage.mk pagecode freeSpaceInPage tdefPage numRows offsets).

(** The callback of [parsed.offsets.map((os, idx) => ...)]. *)
Definition rowOffset (offsets : list Z) (idx : nat) (os : Z) : RowOffset.t :=
  let next :=
    if (0 <? idx)%nat
    then Z.land (default 0 (offsets !! (idx - 1)%nat)) 0x1fff
    else pageSize config in
  let lookupFlag := Z.land os 0x8000 in
  let delFlag := negb (Z.land os 0x4000 =? 0) in
  let offset := Z.land os 0x1fff in
  RowOffset.mk lookupFlag delFlag offset next.

(** [JetDb.parseOffsets(buffer)] *)
Definition parseOffsets (buffer : Buffer) : Res (list RowOffset.t) :=
  parsed ← P.parse dataPageParser buffer;
  Ok (imap (rowOffset (DataPage.offsets parsed)) (DataPage.offsets parsed)).

(** [JetDb.parseColumn(buffer, column, start, length)] *)
Definition parseColumn (buffer : Buffer) (column : TdefColumn.t)
    (start : Num) (length : Z) : Res ColumnValue :=
  let ty := TdefColumn.type column in
  if ty =? 1 then
    v ← readAt Buf.readUInt8 buffer start;
    Ok (VNumber (if v =? 0 then 0 else 1))
  else if ty =? 2 then
    v ← readAt Buf.readUInt8 buffer start; Ok (VNumber v)
  else if ty =? 3 then
    v ← readAt Buf.readUInt16LE buffer start; Ok (VNumber v)
  else if ty =? 4 then
    v ← readAt Buf.readUInt32LE buffer start; Ok (VNumber v)
  else if ty =? 7 then
    v ← readAt Buf.readDoubleLE buffer start; Ok (VDouble v)
  else if ty =? 8 then
    v ← readAt Buf.readBigUInt64LE buffer start; Ok (VBigInt v)
  else if ty =? 10 then
    Ok (VString (parseText config (Buf.subarray buffer start (nadd start length))))
  else if ty =? 12 then
    memoLen0 ← readAt Buf.readUInt16LE buffer start;
    memoLen1 ← readAt Buf.readUInt8 buffer (nadd start 2);
    let memoLen := memoLen0 + memoLen1 in
    memoMask ← readAt Buf.readUInt8 buffer (nadd start 3);
    tmp ← readAt Buf.readUInt32LE buffer (nadd start 4);
    let memoPage := sar tmp 8 in
    let memoRow := Z.land tmp 0xff in
    if memoMask =? 0x80 then
      Ok (VString (parseText config
            (Buf.subarray buffer (nadd start 12) (nadd (nadd start 12) memoLen))))
    else if memoMask =? 0x40 then
      memoBuffer ← readBuffer file (pageSize config) memoPage;
      offsets ← parseOffsets memoBuffer;
      match offsets !! Z.to_nat memoRow with
      | Some slot =>
          Ok (VString (parseText config
                (Buf.subarray memoBuffer (Some (RowOffset.offset slot))
                   (Some (RowOffset.next slot)))))
      | None => Throw (TypeError "offset")
      end
    else if memoMask =? 0x00 then Ok unknownType
    else Ok unknownType
  else Ok unknownType.

(** Version-dependent widths of the row trailer. *)
Definition varLenSize : Z :=
  match version config with JETDB3 => 1 | JETDB4 => 2 end.

Definition readVar (buffer : Buffer) (off : Z) : Res Z :=
  match version config with
  | JETDB3 => Buf.readUInt8 buffer off
  | JETDB4 => Buf.readUInt16LE buffer off
  end.

Definition varLenType : Parser Z :=
  match version config with JETDB3 => P.uint8 | JETDB4 => P.uint16le end.

(** [nullMask[column.number] == 0] *)
Definition nullBitIsZero (nullMask : list Z) (column : TdefColumn.t) : bool :=
  bool_decide (jsGet nullMask (TdefColumn.number column) = Some 0).

(** [start] and [length] of a column inside a row slot. *)
Definition columnSlice (offset : RowOffset.t) (varOffsets : list Z)
    (column : TdefColumn.t) : Num * Z :=
  if Z.land (TdefColumn.bitmask column) 0x01 =? 1 then
    (Some (RowOffset.offset offset + TdefColumn.offsetF column + varLenSize),
     TdefColumn.length column)
  else
    let start :=
      (fun v => RowOffset.offset offset + v)
        <$> jsGet varOffsets (TdefColumn.offsetV column) in
    let length :=
      match jsGet varOffsets (TdefColumn.offsetV column + 1),
            jsGet varOffsets (TdefColumn.offsetV column) with
      | Some hi, Some lo => hi - lo
      | _, _ => 0
      end in
    (start, length).

(** The body of [schema.cols.forEach((column, idx) => ...)]. *)
Definition decodeColumn (buffer : Buffer) (schema : Tdef.t)
    (offset : RowOffset.t) (varOffsets nullMask : list Z)
    (idx : nat) (column : TdefColumn.t) : Res ColumnData.t :=
  let '(start, length) := columnSlice offset varOffsets column in
  let columnValue0 :=
    if nullBitIsZero nullMask column then VNull else VString [] in
  columnValue ←
    (if 0 <? length then parseColumn buffer column start length
     else Ok columnValue0);
  match Tdef.colNames schema !! idx with
  | None => Throw (TypeError "name")
  | Some colName =>
      Ok (ColumnData.mk
            (TdefColumn.number column)
            (Buf.subarray buffer start (nadd start length))
            (TdefColumn.type column)
            (TdefColumnName.name colName)
            (nullBitIsZero nullMask column)
            columnValue)
  end.

(** The trailer of a row slot: the variable-column offsets (natural order,
    followed by the end-of-data offset) and the null mask. *)
Definition rowTrailer (buffer : Buffer) (offset : RowOffset.t)
  : Res (list Z * list Z) :=
  let next := RowOffset.next offset in
  columnsInRow ← readVar buffer (RowOffset.offset offset);
  let nullMaskSize := (columnsInRow + 7) / 8 in
  varLen ← readVar buffer (next - varLenSize - nullMaskSize);
  varOffsets0 ←
    P.parse (_ <~ P.seek (next - varLenSize - nullMaskSize - varLen * varLenSize) ;;
             arrayLit rt varLenType varLen) buffer;
  let varOffsets := reverse varOffsets0 in
  eod ← readVar buffer
          (next - varLenSize - nullMaskSize - varLenSize * varLen - varLenSize);
  let varOffsets := varOffsets ++ [eod] in
  nullMask0 ←
    P.parse (_ <~ P.seek (next - nullMaskSize) ;;
             arrayLit rt P.bits8 nullMaskSize) buffer;
  Ok (varOffsets, concat nullMask0).

(** The body of [offsets.filter(...).forEach((offset, idx) => ...)]. *)
Definition decodeRow (buffer : Buffer) (schema : Tdef.t)
    (idx : nat) (offset : RowOffset.t) : Res RowData.t :=
  '(varOffsets, nullMask) ← rowTrailer buffer offset;
  columnData ←
    mapMi (decodeColumn buffer schema offset varOffsets nullMask)
      (Tdef.cols schema);
  Ok (RowData.mk idx columnData).

(** [JetDb.readRowsForPage(buffer, schema)] *)
Definition readRowsForPage (buffer : Buffer) (schema : Tdef.t) : Res (list RowData.t) :=
  offsets ← parseOffsets buffer;
  mapMi (decodeRow buffer schema)
    (filter (fun p => negb (RowOffset.delFlag p)) offsets).

End Decoder.

(** ** UsedPagesDecoder *)

(** The [forEach] of [readPageBitmap]: the page numbers, counted from [c],
    of the bits that are set. *)
Fixpoint pagesOfBits (c : Z) (bits : list Z) : list Z :=
  match bits with
  | [] => []
  | el :: rest =>
      if el =? 1 then c :: pagesOfBits (c + 1) rest
      else pagesOfBits (c + 1) rest
  end.

(** [JetDb.readPageBitmap(buf, pageStart)]; its parser reads one group of
    eight bits per byte until the end of the buffer. *)
Definition readPageBitmap (buf : Buffer) (pageStart : Z) : list Z :=
  pagesOfBits pageStart (concat (map P.bitsOfByte buf)).

(** [new Parser().array('', { type: uint32le, readUntil: 'eof' }).parse(b)] *)
Fixpoint uint32sEof (bytes : Buffer) : Res (list Z) :=
  match bytes with
  | [] => Ok []
  | b0 :: b1 :: b2 :: b3 :: rest =>
      vs ← uint32sEof rest; Ok (Buf.le [b0; b1; b2; b3] :: vs)
  | _ => Throw RangeError
  end.

Section UsedPages.

Variable config : DatabaseConfig.
Variable file : Buffer.

(** [JetDb.parseUsedPagesMap(buf)] *)
Definition parseUsedPagesMap (buf : Buffer) : Res (list Z) :=
  let skip := match version config with JETDB3 => 10 | JETDB4 => 14 end in
  '(mapType, bitmap) ←
    P.parse (_ <~ P.seek skip ;;
             firstPageApplies <~ P.uint16le ;;
             _ <~ P.seek (firstPageApplies - (skip + 2)) ;;
             mapType <~ P.uint8 ;;
             bitmap <~ P.bufferEof ;;
             P.ret (mapType, bitmap)) buf;
  if mapType =? 1 then
    pages ← uint32sEof bitmap;
    found ←
      mapMi (fun idx pageNumber =>
               let pagesInPage := (pageSize config - 4) * 8 in
               let pageStart := Z.of_nat idx * pagesInPage in
               if 0 <? pageNumber then
                 pageBuf ← readBuffer file (pageSize config) pageNumber;
                 page ← P.parse (_ <~ P.seek 4 ;; P.bufferEof) pageBuf;
                 Ok (readPageBitmap page pageStart)
               else Ok [])
            pages;
    Ok (concat found)
  else
    '(pageStart, pageBits) ←
      P.parse (pageStart <~ P.uint32le ;;
               pageBits <~ P.bufferEof ;;
               P.ret (pageStart, pageBits)) bitmap;
    Ok (readPageBitmap pageBits pageStart).

End UsedPages.

(** ** Facade *)

Module JetDb.
Record t : Type := mk {
  reader : Buffer;            (* the file behind the BufferReader *)
  userTables : list RowData.t;
  schema : list Tdef.t;
  config : DatabaseConfig
}.
End JetDb.

(** [arr.findIndex(f)] *)
Fixpoint findIndexFrom {A} (f : A -> bool) (i : Z) (l : list A) : Z :=
  match l with
  | [] => -1
  | x :: xs => if f x then i else findIndexFrom f (i + 1) xs
  end.

Definition findIndex {A} (f : A -> bool) (l : list A) : Z := findIndexFrom f 0 l.

(** [p.columns.find(c => c.name == name)?.value]; [None] is [undefined]. *)
Definition columnValueNamed (name : string) (p : RowData.t) : option ColumnValue :=
  ColumnData.value
    <$> List.find (fun c => bool_decide (ColumnData.name c = codeUnits name))
          (RowData.columns p).

Section Facade.

Variable rt : Runtime.

(** [val == table] with [table] a string. *)
Definition looseEq (val : option ColumnValue) (table : JsString) : bool :=
  match val with
  | None => false
  | Some VNull => false
  | Some (VString s) => bool_decide (s = table)
  | Some v => looseEqString rt v table
  end.

(** The [findIndex] call shared by [columns], [rows] and their siblings. *)
Definition tableIndex (this : JetDb.t) (table : JsString) : Z :=
  findIndex (fun p => looseEq (columnValueNamed "Name" p) table)
    (JetDb.userTables this).

(** [JetDb.readRows(usedPagesMap, reader, schema)] *)
Definition readRows (this : JetDb.t) (usedPagesMap : list Z) (schema : Tdef.t)
  : Res (list RowData.t) :=
  pages ←
    mapM (fun pageNumber =>
            buffer ← readBuffer (JetDb.reader this)
                       (pageSize (JetDb.config this)) pageNumber;
            readRowsForPage rt (JetDb.config this) (JetDb.reader this) buffer schema)
         usedPagesMap;
  Ok (concat pages).

(** [JetDb.tables()] *)
Definition tables (this : JetDb.t) : Res (list JsString) :=
  mapM (fun p =>
          match columnValueNamed "Name" p with
          | Some (VString val) => Ok val
          | _ => Throw ErrorInTableNames
          end)
       (JetDb.userTables this).

(** [JetDb.columns(table)] *)
Definition columns (this : JetDb.t) (table : JsString) : Res (list JsString) :=
  match jsGet (JetDb.schema this) (tableIndex this table) with
  | None => Throw (TypeError "colNames")
  | Some tdef => Ok (map TdefColumnName.name (Tdef.colNames tdef))
  end.

(** [JetDb.rows(table)] *)
Definition rows (this : JetDb.t) (table : JsString) : Res (list RowData.t) :=
  match jsGet (JetDb.schema this) (tableIndex this table) with
  | None => Throw (TypeError "usedPagesPage")
  | Some tdef =>
      buf ← readBuffer (JetDb.reader this) (pageSize (JetDb.config this))
              (Tdef.usedPagesPage tdef);
      usedPagesMap ←
        parseUsedPagesMap (JetDb.config this) (JetDb.reader this) buf;
      readRows this usedPagesMap tdef
  end.

End Facade.

(** ** The decompressor in the words of the specification

    Section 4.7: walk the source with a compression flag; a 0x00 byte
    toggles the flag and emits nothing; otherwise, with the flag on, the
    byte is emitted followed by 0x00; otherwise two bytes are copied when
    two remain, and decoding stops when only one does.  Decoding also stops
    when the source is exhausted or [dlen] bytes have been emitted.  It is
    compared with [decompressUnicode] below. *)
Fixpoint decompressSpec (dlen : nat) (flag : bool) (emitted : nat) (src : list Z)
  : list Z :=
  match src with
  | [] => []
  | b :: rest =>
      if (dlen <=? emitted)%nat then []
      else if b =? 0 then decompressSpec dlen (negb flag) emitted rest
      else if flag then b :: 0 :: decompressSpec dlen flag (emitted + 2) rest
      else
        match rest with
        | b' :: rest' => b :: b' :: decompressSpec dlen flag (emitted + 2) rest'
        | [] => []
        end
  end.

(** ** Derived positions *)

(** Where [parseOffsets] finds [numRows]: after [pagecode], one skipped
    byte, [freeSpaceInPage], [tdefPage] and, in JET4, four skipped bytes. *)
Definition numRowsAt (config : DatabaseConfig) : Z :=
  match version config with JETDB3 => 8 | JETDB4 => 12 end.

(** The rows that [readRowsForPage] decodes: [filter(p => !p.delFlag)]. *)
Definition liveSlots (slots : list RowOffset.t) : list RowOffset.t :=
  filter (fun p => negb (RowOffset.delFlag p)) slots.

(** ** A small JET4 page, for evaluating the decoder

    One table of two columns: column 0 a fixed-length long integer, column 1
    a variable-length text.  The page holds two slots; slot 0 is the row
    [(7, "hi")] whose null mask marks column 0 as null, slot 1 is flagged
    deleted. *)
Definition sampleRuntime : Runtime := mkRuntime true (fun _ _ => false).

Definition sampleConfig : DatabaseConfig := mkConfig 4096 JETDB4.

Definition sampleSchema : Tdef.t :=
  Tdef.mk 1 2
    [ TdefColumn.mk 4 0 0 0 4 1;
      TdefColumn.mk 10 1 0 0 0 0 ]
    [ TdefColumnName.mk 2 (codeUnits "A");
      TdefColumnName.mk 2 (codeUnits "B") ]
    1 0.

(** Row bytes: [columnsInRow = 2], the long integer 7, the compressed text
    "hi", the end-of-data offset 10, the offset 6 of the text, [varLen = 1]
    and the null mask 0b10. *)
Definition sampleRow : list Z :=
  [2; 0] ++ [7; 0; 0; 0] ++ [0xff; 0xfe; 104; 105]
  ++ [10; 0] ++ [6; 0] ++ [1; 0] ++ [2].

(** Header, [numRows = 2], the slot entries 0x0FEF and 0x4FE0 (deleted). *)
Definition samplePage : list Z :=
  [1; 0; 0; 0; 0; 0; 0; 0; 0; 0; 0; 0] ++ [2; 0] ++ [0xef; 0x0f] ++ [0xe0; 0x4f]
  ++ replicate (4079 - 18) 0 ++ sampleRow.

(** A three-page file around [samplePage]: the header page of a JET4 file,
    the used-pages map of the table (inline map from page 0 with the bit of
    page 2 set) and the data page. *)
Definition sampleFile : list Z :=
  (replicate 20 0 ++ [1] ++ replicate (4096 - 21) 0)
  ++ (replicate 14 0 ++ [16; 0] ++ [0] ++ [0; 0; 0; 0] ++ [4]
      ++ replicate (4096 - 22) 0)
  ++ samplePage.

(** A handle on [sampleFile] whose catalog lists the one table "T". *)
Definition sampleHandle : JetDb.t :=
  JetDb.mk sampleFile
    [ RowData.mk 0
        [ ColumnData.mk 0 [] 4 (codeUnits "Id") false (VNumber 3);
          ColumnData.mk 1 [] 10 (codeUnits "Name") false (VString (codeUnits "T")) ] ]
    [ sampleSchema ]
    sampleConfig.

(** [sampleSchema] with a currency column (type 5, which the value decoder
    does not decode) between its two columns, read over the same row
    bytes. *)
Definition sampleSchemaUnknown : Tdef.t :=
  Tdef.mk 1 2
    [ TdefColumn.mk 4 0 0 0 4 1;
      TdefColumn.mk 5 2 0 0 4 1;
      TdefColumn.mk 10 1 0 0 0 0 ]
    [ TdefColumnName.mk 2 (codeUnits "A");
      TdefColumnName.mk 2 (codeUnits "C");
      TdefColumnName.mk 2 (codeUnits "B") ]
    1 0.

(** ** Memo header

    The 24-bit little-endian length that the bytes at +0, +1 and +2 of a
    memo header spell, [lo16] being the halfword at +0 and [hi8] the byte at
    +2. *)
Definition memoLen24 (lo16 hi8 : Z) : Z := lo16 + 65536 * hi8.

(** A memo slice: length bytes 02 00 01, mask 0x80 (inline), eight more
    header bytes, then the compressed text "abcd". *)
Definition sampleMemo : list Z :=
  [2; 0; 1; 0x80; 0; 0; 0; 0; 0; 0; 0; 0] ++ [0xff; 0xfe; 97; 98; 99; 100].

Definition memoColumn : TdefColumn.t := TdefColumn.mk 12 0 0 0 0 0.

(** ** The rest of the facade *)

(** JS [a & b] on two numbers: both go through ToInt32. *)
Definition jsAnd (a b : Z) : Z := Z.land (toInt32 a) (toInt32 b).

Section Catalog.

(** ToInt32 of a double given by its 64 bits: the runtime's conversion,
    needed only when a catalog column named [Type] or [Flags] is a double. *)
Variable doubleToInt32 : Z -> Z.

(** [v & mask] for a [v] with [typeof v == 'number']; [None] when [v] is
    not a number. *)
Definition numberAnd (v : ColumnValue) (mask : Z) : option Z :=
  match v with
  | VNumber n => Some (jsAnd n mask)
  | VDouble bits => Some (Z.land (doubleToInt32 bits) (toInt32 mask))
  | _ => None
  end.

(** [JetDb.isUserTable(row)] *)
Definition isUserTable (row : RowData.t) : bool :=
  match columnValueNamed "Type" row, columnValueNamed "Flags" row with
  | Some type, Some flags =>
      match numberAnd type 0x00ffffff, numberAnd flags 0x80000002 with
      | Some t, Some f => (t =? 1) && (f =? 0)
      | _, _ => false
      end
  | _, _ => false
  end.

End Catalog.

Section Facade2.

Variable rt : Runtime.

(** [JetDb.columnsWithType(table)] *)
Definition columnsWithType (this : JetDb.t) (table : JsString)
  : Res (list (JsString * Z)) :=
  match jsGet (JetDb.schema this) (tableIndex rt this table) with
  | None => Throw (TypeError "cols")
  | Some tdef =>
      mapMi (fun index p =>
               match Tdef.colNames tdef !! index with
               | Some colName => Ok (TdefColumnName.name colName, TdefColumn.type p)
               | None => Throw (TypeError "name")
               end)
            (Tdef.cols tdef)
  end.

(** [JetDb.tablesWithRows()] *)
Definition tablesWithRows (this : JetDb.t) : Res (list (JsString * Z)) :=
  mapMi (fun index p =>
           match columnValueNamed "Name" p with
           | Some (VString val) =>
               match JetDb.schema this !! index with
               | Some tdef => Ok (val, Tdef.numRows tdef)
               | None => Throw (TypeError "numRows")
               end
           | _ => Throw ErrorInTableNames
           end)
        (JetDb.userTables this).

(** The chunks of [fs.createReadStream(filename, { highWaterMark: size })]:
    the file in pieces of [size] bytes, the last one possibly shorter. *)
Fixpoint chunksOf (fuel : nat) (size : nat) (file : Buffer) : list Buffer :=
  match fuel with
  | O => []
  | S fuel' =>
      match file with
      | [] => []
      | _ => take size file :: chunksOf fuel' size (drop size file)
      end
  end.

Definition fileChunks (size : Z) (file : Buffer) : list Buffer :=
  chunksOf (length file) (Z.to_nat size) file.

(** The transform of [pickPages(pages, pageSize)], run over the chunks it
    receives: the counter [p] goes up by one per chunk, and a chunk is
    pushed on when [pages.includes(p)]. *)
Fixpoint pickPagesFrom (pages : list Z) (p : Z) (chunks : list Buffer)
  : list Buffer :=
  match chunks with
  | [] => []
  | chunk :: rest =>
      if bool_decide (p ∈ pages)
      then chunk :: pickPagesFrom pages (p + 1) rest
      else pickPagesFrom pages (p + 1) rest
  end.

Definition pickPages (pages : list Z) (chunks : list Buffer) : list Buffer :=
  pickPagesFrom pages 0 chunks.

(** The transform of [transformPages(jetdb, schema)], run over the chunks
    it receives: one pushed array of rows per chunk.  [Throw] when a call of
    [readRowsForPage] throws. *)
Definition transformPages (this : JetDb.t) (schema : Tdef.t)
    (chunks : list Buffer) : Res (list (list RowData.t)) :=
  mapM (fun buffer =>
          readRowsForPage rt (JetDb.config this) (JetDb.reader this) buffer schema)
       chunks.

(** [JetDb.streamRows(table)]: the ['data'] events of the returned stream,
    in order.  [Throw] when [streamRows] itself throws or a transform
    does. *)
Definition streamRows (this : JetDb.t) (table : JsString)
  : Res (list (list RowData.t)) :=
  match jsGet (JetDb.schema this) (tableIndex rt this table) with
  | None => Throw (TypeError "usedPagesPage")
  | Some tdef =>
      buf ← readBuffer (JetDb.reader this) (pageSize (JetDb.config this))
              (Tdef.usedPagesPage tdef);
      usedPagesMap ←
        parseUsedPagesMap (JetDb.config this) (JetDb.reader this) buf;
      transformPages this tdef
        (pickPages usedPagesMap
           (fileChunks (pageSize (JetDb.config this)) (JetDb.reader this)))
  end.

End Facade2.

(** ** Text encodings, for round trips

    [Buffer.from(s, 'utf16le')]: the two bytes of each code unit, low byte
    first. *)
Definition utf16leBytes (s : JsString) : Buffer :=
  flat_map (fun c => [c mod 256; c / 256]) s.

(** ** A paged used-pages map, for evaluation

    A JET4 map page with [firstPageApplies = 19], map type 1 and the single
    entry 1, and a file whose page 1 is the bitmap page: four header bytes,
    then a bitmap with the bit of page 2 set. *)
Definition samplePagedMap : list Z :=
  replicate 14 0 ++ [19; 0] ++ [0; 0; 0] ++ [1] ++ [1; 0; 0; 0]
  ++ replicate (4096 - 24) 0.

Definition samplePagedFile : list Z :=
  replicate 4096 0 ++ ([0; 0; 0; 0] ++ [4] ++ replicate (4096 - 5) 0).

(** * Properties *)

(** ** Header decoder *)

Lemma readBuffer_header (file : Buffer) (i : nat) (v : Z) :
  (i < 2048)%nat -> file !! i = Some v ->
  exists buf, readBuffer file 2048 0 = Ok buf /\ buf !! i = Some v.
Proof.
  intros Hi Hv. unfold readBuffer. simpl.
  eexists. split; [reflexivity|].
  rewrite drop_0. apply lookup_app_l_Some.
  rewrite lookup_take_lt by lia. exact Hv.
Qed.

Lemma readInt8_at (buf : Buffer) (i : nat) (v : Z) :
  buf !! i = Some v -> Buf.readInt8 buf (Z.of_nat i) = Ok (Buf.int8 v).
Proof.
  intros Hv. unfold Buf.readInt8, jsGet.
  destruct (Z.ltb_spec (Z.of_nat i) 0) as [?|_]; [lia|].
  rewrite Nat2Z.id, Hv. reflexivity.
Qed.

(** C1 (as the code has it): the byte [v] at offset 0x14 selects JET3 / 2048
    for 0 and JET4 / 4096 for 1; any other byte makes the open throw
    "Unknown database version" with the byte read as a signed 8-bit number
    ([v] below 128, [v - 256] from 128 on).  The asynchronous build differs
    only in refusing 0 with "JETDB3 not supported". *)
Theorem open_header_byte (file : Buffer) (v : Z) :
  0 <= v < 256 -> file !! 20%nat = Some v ->
  openConfig file =
    (if v =? 0 then Ok (mkConfig 2048 JETDB3)
     else if v =? 1 then Ok (mkConfig 4096 JETDB4)
     else Throw (UnknownDatabaseVersion (Buf.int8 v)))
  /\ openVersion file =
    (if v =? 0 then Throw Jetdb3NotSupported
     else if v =? 1 then Ok (mkConfig 4096 JETDB4)
     else Throw (UnknownDatabaseVersion (Buf.int8 v))).
Proof.
  intros Hr Hv.
  destruct (readBuffer_header file 20 v ltac:(lia) Hv) as (buf & Hbuf & Hb).
  unfold openConfig, openVersion. rewrite Hbuf. simpl.
  unfold databaseConfig, databaseVersion.
  change 20 with (Z.of_nat 20). rewrite (readInt8_at _ _ _ Hb). simpl.
  unfold Buf.int8.
  destruct (Z.ltb_spec v 128).
  - split; reflexivity.
  - assert ((v - 256 =? 0) = false) as -> by lia.
    assert ((v - 256 =? 1) = false) as -> by lia.
    assert ((v =? 0) = false) as -> by lia.
    assert ((v =? 1) = false) as -> by lia.
    split; reflexivity.
Qed.

Lemma open_header_byte_witness :
  openConfig (replicate 20 0 ++ [2]) = Throw (UnknownDatabaseVersion 2)
  /\ openVersion (replicate 20 0 ++ [2]) = Throw (UnknownDatabaseVersion 2).
Proof.
  exact (open_header_byte (replicate 20 0 ++ [2]) 2 ltac:(lia) eq_refl).
Defined.

(** C1 as stated fails: a header byte 0xFF is reported as version -1, not
    255, and the asynchronous build does not accept the byte 0. *)
Lemma open_header_byte_counterexample :
  (replicate 20 0 ++ [255]) !! 20%nat = Some 255
  /\ openConfig (replicate 20 0 ++ [255]) = Throw (UnknownDatabaseVersion (-1))
  /\ openConfig (replicate 20 0 ++ [255]) <> Throw (UnknownDatabaseVersion 255)
  /\ openVersion (replicate 21 0) <> Ok (mkConfig 2048 JETDB3).
Proof.
  repeat split; vm_compute; congruence.
Qed.

(** ** UnicodeCodec *)

Lemma take_write2 (dst : list Z) (t : nat) (x y : Z) :
  (t + 2 <= length dst)%nat ->
  take (t + 2) (<[(t + 1)%nat := y]> (<[t := x]> dst)) = take t dst ++ [x; y].
Proof.
  revert dst. induction t as [|t IH]; intros dst Hlen.
  - destruct dst as [|a [|b dst]]; simpl in *; try lia. reflexivity.
  - destruct dst as [|a dst]; simpl in *; [lia|].
    f_equal. apply IH. lia.
Qed.

Lemma drop_cons_lookup (src : list Z) (pos : nat) (b : Z) (rest : list Z) :
  drop pos src = b :: rest ->
  src !! pos = Some b /\ drop (pos + 1) src = rest.
Proof.
  intros H. split.
  - rewrite <- (Nat.add_0_r pos), <- lookup_drop, H. reflexivity.
  - rewrite <- drop_drop, H. reflexivity.
Qed.

(** The loop, started anywhere, extends what it has emitted by what the
    specification's walk emits from there. *)
Lemma decompressLoop_spec (src : list Z) (dlen : nat) :
  forall (slen : nat) (compress : bool) (pos tlen : nat) (dst : list Z),
    length (drop pos src) = slen ->
    (tlen + 2 * slen <= length dst)%nat ->
    let '(tlen', dst') := decompressLoop src dlen slen compress pos tlen dst in
    take tlen' dst' = take tlen dst ++ decompressSpec dlen compress tlen (drop pos src).
Proof.
  induction slen as [slen IH] using lt_wf_ind.
  intros compress pos tlen dst Hlen Hroom.
  destruct slen as [|slen1].
  - apply nil_length_inv in Hlen. rewrite Hlen. cbn.
    by rewrite app_nil_r.
  - destruct (drop pos src) as [|b rest] eqn:Hdrop; [discriminate|].
    destruct (drop_cons_lookup _ _ _ _ Hdrop) as [Hb Hrest].
    simpl in Hlen. injection Hlen as Hlen.
    cbn [decompressLoop decompressSpec].
    rewrite Hb.
    destruct (Nat.leb_spec dlen tlen) as [Hd|Hd].
    + assert ((tlen <? dlen)%nat = false) as -> by (apply Nat.ltb_ge; lia).
      simpl. by rewrite app_nil_r.
    + assert ((tlen <? dlen)%nat = true) as -> by (apply Nat.ltb_lt; lia).
      cbn [negb].
      destruct (Z.eqb_spec b 0) as [->|Hnz].
      * rewrite bool_decide_eq_true_2 by reflexivity.
        specialize (IH slen1 ltac:(lia) (negb compress) (pos + 1)%nat tlen dst).
        rewrite Hrest in IH. apply IH; [exact Hlen | lia].
      * rewrite bool_decide_eq_false_2 by congruence.
        destruct compress.
        -- specialize (IH slen1 ltac:(lia) true (pos + 1)%nat (tlen + 2)%nat
                         (bufSet (bufSet dst tlen (Some b)) (tlen + 1) (Some 0))).
           rewrite Hrest in IH.
           destruct (decompressLoop _ _ _ _ _ _ _) as [tlen' dst'].
           rewrite IH; [| exact Hlen | unfold bufSet; rewrite !length_insert; lia].
           unfold bufSet. simpl. rewrite take_write2 by lia.
           by rewrite <- app_assoc.
        -- destruct slen1 as [|slen2].
           ++ apply nil_length_inv in Hlen. rewrite Hlen. simpl.
              by rewrite app_nil_r.
           ++ destruct rest as [|b' rest']; [discriminate|].
              simpl in Hlen. injection Hlen as Hlen.
              rewrite <- Hrest in *.
              destruct (drop_cons_lookup _ _ _ _ Hrest) as [Hb' Hrest'].
              rewrite Hb'.
              replace (pos + 1 + 1)%nat with (pos + 2)%nat in Hrest' by lia.
              specialize (IH slen2 ltac:(lia) false (pos + 2)%nat (tlen + 2)%nat
                         (bufSet (bufSet dst tlen (Some b)) (tlen + 1) (Some b'))).
              rewrite Hrest' in IH.
              destruct (decompressLoop _ _ _ _ _ _ _) as [tlen' dst'].
              rewrite IH; [| exact Hlen | unfold bufSet; rewrite !length_insert; lia].
              unfold bufSet. simpl. rewrite take_write2 by lia.
              by rewrite <- app_assoc.
Qed.

(** The decompressor against the walk of the specification, for every
    budget. *)
Lemma decompressUnicode_walk (src : list Z) (dlen : nat) :
  decompressUnicode src (length src) dlen = decompressSpec dlen true 0 src.
Proof.
  unfold decompressUnicode.
  pose proof (decompressLoop_spec src dlen (length src) true 0 0
                (Buf.alloc (length src * 2))) as H.
  rewrite drop_0 in H.
  destruct (decompressLoop _ _ _ _ _ _ _) as [tlen dst].
  apply H; [reflexivity|].
  unfold Buf.alloc. rewrite length_replicate. lia.
Qed.

(** C4: on a source of [slen] bytes, with the budget [dlen = 2 * slen] and
    the flag initially on, the decompressor does exactly what the
    specification's walk does: a 0x00 byte toggles the flag and emits
    nothing; with the flag on a byte [b] is emitted as [b, 0x00]; with the
    flag off two bytes are copied when two remain and decoding stops when
    one does; decoding stops when the input is exhausted or [dlen] bytes are
    out. *)
Theorem decompressUnicode_refines_spec (src : list Z) (slen : nat) :
  slen = length src ->
  decompressUnicode src slen (2 * slen) = decompressSpec (2 * slen) true 0 src.
Proof.
  intros ->. apply decompressUnicode_walk.
Qed.

Lemma decompressUnicode_refines_spec_witness :
  decompressUnicode [97; 0; 98; 99; 100; 0; 101] 7 (2 * 7)
  = [97; 0; 98; 99; 100; 0].
Proof.
  exact (decompressUnicode_refines_spec [97; 0; 98; 99; 100; 0; 101] 7 eq_refl).
Defined.

(** What the loop keeps true: an even number of bytes is out, no more than
    two per source byte, and the destination keeps its size. *)
Lemma decompressLoop_bounds (src : list Z) (dlen : nat) :
  forall (slen : nat) (compress : bool) (pos tlen : nat) (dst : list Z),
    Nat.Even tlen ->
    let '(tlen', dst') := decompressLoop src dlen slen compress pos tlen dst in
    Nat.Even tlen' /\ (tlen <= tlen' <= tlen + 2 * slen)%nat
    /\ length dst' = length dst.
Proof.
  induction slen as [slen IH] using lt_wf_ind.
  intros compress pos tlen dst Hev.
  assert (Hev2 : Nat.Even (tlen + 2)).
  { destruct Hev as [k ->]. exists (S k). lia. }
  destruct slen as [|slen1]; cbn [decompressLoop].
  - repeat split; (assumption || lia).
  - destruct (tlen <? dlen)%nat; cbn [negb];
      [| repeat split; (assumption || lia)].
    destruct (bool_decide _).
    + specialize (IH slen1 ltac:(lia) (negb compress) (pos + 1)%nat tlen dst Hev).
      destruct (decompressLoop _ _ _ _ _ _ _) as [t' d'].
      destruct IH as (? & ? & ?). repeat split; (assumption || lia).
    + destruct compress.
      * specialize (IH slen1 ltac:(lia) true (pos + 1)%nat (tlen + 2)%nat
                      (bufSet (bufSet dst tlen (src !! pos)) (tlen + 1) (Some 0)) Hev2).
        destruct (decompressLoop _ _ _ _ _ _ _) as [t' d'].
        destruct IH as (? & ? & Hl). unfold bufSet in Hl.
        rewrite !length_insert in Hl. repeat split; (assumption || lia).
      * destruct slen1 as [|slen2]; [repeat split; (assumption || lia)|].
        specialize (IH slen2 ltac:(lia) false (pos + 2)%nat (tlen + 2)%nat
                      (bufSet (bufSet dst tlen (src !! pos)) (tlen + 1)
                         (src !! (pos + 1)%nat)) Hev2).
        destruct (decompressLoop _ _ _ _ _ _ _) as [t' d'].
        destruct IH as (? & ? & Hl). unfold bufSet in Hl.
        rewrite !length_insert in Hl. repeat split; (assumption || lia).
Qed.

Lemma decompressUnicode_length_any (src : list Z) (slen dlen : nat) :
  Nat.Even (length (decompressUnicode src slen dlen))
  /\ (length (decompressUnicode src slen dlen) <= 2 * slen)%nat.
Proof.
  unfold decompressUnicode.
  pose proof (decompressLoop_bounds src dlen slen true 0 0
                (Buf.alloc (slen * 2)) ltac:(exists 0%nat; lia)) as H.
  destruct (decompressLoop _ _ _ _ _ _ _) as [tlen dst].
  destruct H as (Hev & Hle & Hlen).
  unfold Buf.alloc in Hlen. rewrite length_replicate in Hlen.
  rewrite length_take, Nat.min_l by lia.
  split; [assumption | lia].
Qed.

(** C10: [decompressUnicode] is a total function (its loop recurses on
    [slen], which every iteration lowers), and with [slen <= |src|] and
    [dlen = 2 * slen] the buffer it returns has an even length of at most
    [2 * slen]: whole UTF-16 code units, inside the allocated destination. *)
Theorem decompressUnicode_length (src : list Z) (slen : nat) :
  (slen <= length src)%nat ->
  exists out : list Z,
    decompressUnicode src slen (2 * slen) = out
    /\ Nat.Even (length out) /\ (length out <= 2 * slen)%nat.
Proof.
  intros _. eexists. split; [reflexivity|].
  apply decompressUnicode_length_any.
Qed.

Lemma decompressUnicode_length_witness :
  exists out : list Z,
    decompressUnicode [97; 0; 98; 99; 100] 5 (2 * 5) = out
    /\ Nat.Even (length out) /\ (length out <= 2 * 5)%nat.
Proof.
  apply (decompressUnicode_length [97; 0; 98; 99; 100] 5). simpl. lia.
Defined.

Lemma subarray_to_end (buf : list Z) (k : Z) :
  0 <= k ->
  Buf.subarray buf (Some k) (Some (Z.of_nat (length buf))) = drop (Z.to_nat k) buf.
Proof.
  intros Hk. unfold Buf.subarray, Buf.relIndex.
  destruct (Z.ltb_spec k 0) as [?|_]; [lia|].
  destruct (Z.ltb_spec (Z.of_nat (length buf)) 0) as [?|_]; [lia|].
  rewrite Z.min_id.
  destruct (Z.le_gt_cases k (Z.of_nat (length buf))) as [Hle|Hgt].
  - rewrite Z.min_l by lia. apply take_ge. rewrite length_drop. lia.
  - rewrite Z.min_r by lia. rewrite Z.sub_diag. simpl.
    rewrite Nat2Z.id. rewrite drop_all. symmetry. apply drop_ge. lia.
Qed.

(** Without a 0x00 byte the flag stays on and every byte comes out followed
    by 0x00, as long as the budget lasts. *)
Lemma decompressSpec_no_toggle (dlen : nat) (s : list Z) :
  forall emitted : nat,
    Forall (fun b => b <> 0) s ->
    (emitted + 2 * length s <= dlen)%nat ->
    decompressSpec dlen true emitted s = flat_map (fun b => [b; 0]) s.
Proof.
  induction s as [|b s IH]; intros emitted Hnz Hroom; [reflexivity|].
  inversion Hnz as [|? ? Hb Hs]; subst.
  cbn [decompressSpec flat_map length] in *.
  destruct (Nat.leb_spec dlen emitted); [lia|].
  destruct (Z.eqb_spec b 0); [contradiction|].
  simpl. do 2 f_equal. apply IH; [assumption | lia].
Qed.

Lemma toUtf16le_widened (s : list Z) :
  Buf.toUtf16le (flat_map (fun b => [b; 0]) s) = s.
Proof.
  induction s as [|b s IH]; [reflexivity|].
  cbn [flat_map app Buf.toUtf16le]. rewrite IH. f_equal. lia.
Qed.

Lemma parseText_compressed (config : DatabaseConfig) (s : list Z) :
  version config = JETDB4 ->
  Forall (fun b => b <> 0) s ->
  parseText config ([0xff; 0xfe] ++ s) = s.
Proof.
  intros Hv Hnz. unfold parseText. rewrite Hv.
  cbn [app lookup list_lookup].
  rewrite !bool_decide_eq_true_2 by reflexivity. cbn [andb].
  rewrite subarray_to_end by lia.
  change (drop (Z.to_nat 2) (255 :: 254 :: s)) with s.
  set (slen := (length _ - 2)%nat).
  assert (slen = length s) as -> by (subst slen; simpl; lia).
  rewrite decompressUnicode_walk.
  rewrite decompressSpec_no_toggle by (assumption || lia).
  apply toUtf16le_widened.
Qed.

(** C5: for an ASCII string [s] (code units below 128) of at most 65535
    characters whose bytes hold no toggle (no 0x00), the JET4 text path
    applied to 0xFF 0xFE followed by the bytes of [s] (decompression with
    the flag on, then UTF-16LE) gives back exactly [s]. *)
Theorem parseText_roundtrip (config : DatabaseConfig) (s : list Z) :
  version config = JETDB4 ->
  Forall (fun c => 0 <= c < 128) s ->
  Forall (fun c => c <> 0) s ->
  Z.of_nat (length s) <= 65535 ->
  parseText config ([0xff; 0xfe] ++ s) = s.
Proof.
  intros Hv _ Hnz _. by apply parseText_compressed.
Qed.

Lemma parseText_roundtrip_witness :
  parseText (mkConfig 4096 JETDB4) ([0xff; 0xfe] ++ codeUnits "abcdefg")
  = codeUnits "abcdefg".
Proof.
  apply parseText_roundtrip.
  - reflexivity.
  - vm_compute. repeat (constructor; [split; [discriminate|reflexivity]|]). constructor.
  - vm_compute. repeat (constructor; [discriminate|]). constructor.
  - cbn. lia.
Defined.

(** ** Buffer reads and parsers *)

Lemma bytesAt_Some (buf : list Z) (off : Z) (n : nat) :
  0 <= off -> off + Z.of_nat n <= Z.of_nat (length buf) ->
  Buf.bytesAt buf off n = Some (take n (drop (Z.to_nat off) buf)).
Proof.
  intros H0 Hn. unfold Buf.bytesAt.
  destruct (Z.ltb_spec off 0) as [?|_]; [lia|].
  assert (Hl : length (take n (drop (Z.to_nat off) buf)) = n).
  { rewrite length_take, length_drop. lia. }
  rewrite Hl, Nat.eqb_refl. reflexivity.
Qed.

Lemma bytesAt_inv (buf : list Z) (off : Z) (n : nat) (bs : list Z) :
  (0 < n)%nat ->
  Buf.bytesAt buf off n = Some bs ->
  0 <= off /\ off + Z.of_nat n <= Z.of_nat (length buf).
Proof.
  intros Hpos. unfold Buf.bytesAt.
  destruct (Z.ltb_spec off 0) as [?|H0]; [discriminate|].
  destruct (Nat.eqb_spec (length (take n (drop (Z.to_nat off) buf))) n) as [Hl|?];
    [|discriminate].
  intros _. rewrite length_take, length_drop in Hl. lia.
Qed.

Lemma readLE_ok (n : nat) (buf : list Z) (off : Z) :
  0 <= off -> off + Z.of_nat n <= Z.of_nat (length buf) ->
  exists v, Buf.readLE n buf off = Ok v.
Proof.
  intros H0 Hn. unfold Buf.readLE. rewrite bytesAt_Some by assumption. eauto.
Qed.

Lemma readLE_inv (n : nat) (buf : list Z) (off v : Z) :
  (0 < n)%nat ->
  Buf.readLE n buf off = Ok v ->
  0 <= off /\ off + Z.of_nat n <= Z.of_nat (length buf).
Proof.
  intros Hpos. unfold Buf.readLE.
  destruct (Buf.bytesAt buf off n) eqn:E; [|discriminate].
  intros _. eapply bytesAt_inv; eassumption.
Qed.

Lemma lift_Ok (rd : list Z -> Z -> Res Z) (size : Z) (buf : list Z) (off v : Z) :
  rd buf off = Ok v -> P.lift rd size buf off = Ok (v, off + size).
Proof. intros H. unfold P.lift. by rewrite H. Qed.

(** A counted array of [uint16le]: it fits iff it succeeds, and element [i]
    is the halfword at [off + 2 i]. *)
Lemma array_uint16le_ok (buf : list Z) :
  forall (n : nat) (off : Z),
    0 <= off -> off + 2 * Z.of_nat n <= Z.of_nat (length buf) ->
    exists l : list Z,
      P.array P.uint16le n buf off = Ok (l, off + 2 * Z.of_nat n)
      /\ length l = n
      /\ forall (i : nat) (os : Z), l !! i = Some os ->
           Buf.readUInt16LE buf (off + 2 * Z.of_nat i) = Ok os.
Proof.
  induction n as [|n IH]; intros off H0 Hfit.
  - exists []. cbn. rewrite Z.add_0_r. repeat split. intros i os Hi.
    rewrite lookup_nil in Hi. discriminate.
  - destruct (readLE_ok 2 buf off H0 ltac:(lia)) as [v Hv].
    destruct (IH (off + 2) ltac:(lia) ltac:(lia)) as (l & Hl & Hlen & Hnth).
    exists (v :: l). cbn [P.array]. unfold P.bind at 1.
    unfold P.uint16le at 1. rewrite (lift_Ok _ _ _ _ _ Hv).
    unfold P.bind at 1. rewrite Hl. unfold P.ret.
    repeat split.
    + do 2 f_equal. lia.
    + simpl. by rewrite Hlen.
    + intros [|i] os Hi; simpl in Hi.
      * injection Hi as <-. rewrite Z.add_0_r. exact Hv.
      * replace (off + 2 * Z.of_nat (S i)) with (off + 2 + 2 * Z.of_nat i) by lia.
        by apply Hnth.
Qed.

Lemma mapMi_from_Ok {A B : Type} (f : nat -> A -> Res B) :
  forall (l : list A) (i : nat) (rs : list B),
    mapMi_from f i l = Ok rs ->
    length rs = length l
    /\ forall (k : nat) (r : B), rs !! k = Some r ->
         exists x, l !! k = Some x /\ f (i + k)%nat x = Ok r.
Proof.
  induction l as [|x l IH]; intros i rs H.
  - injection H as <-. split; [reflexivity|]. intros k r Hk.
    rewrite lookup_nil in Hk. discriminate.
  - cbn [mapMi_from] in H.
    destruct (f i x) as [y|e] eqn:Hy; [|discriminate].
    cbn in H.
    destruct (mapMi_from f (S i) l) as [ys|e] eqn:Hys; [|discriminate].
    cbn in H. injection H as <-.
    destruct (IH _ _ Hys) as [Hlen Hnth].
    split; [simpl; by rewrite Hlen|].
    intros [|k] r Hk; simpl in Hk.
    + injection Hk as <-. exists x. rewrite Nat.add_0_r. by split.
    + destruct (Hnth k r Hk) as (x' & Hx' & Hf).
      exists x'. split; [exact Hx'|].
      by replace (i + S k)%nat with (S i + k)%nat by lia.
Qed.

(** ** DataPageDecoder: the slot table *)

Lemma readUInt8_at (buf : list Z) (i : nat) (v : Z) :
  buf !! i = Some v -> Buf.readUInt8 buf (Z.of_nat i) = Ok v.
Proof.
  intros Hv. unfold Buf.readUInt8, jsGet.
  destruct (Z.ltb_spec (Z.of_nat i) 0) as [?|_]; [lia|].
  by rewrite Nat2Z.id, Hv.
Qed.

Lemma dataPageParser_ok (config : DatabaseConfig) (buffer : list Z) (numRows : Z) :
  buffer !! 0%nat = Some 1 ->
  Buf.readUInt16LE buffer (numRowsAt config) = Ok numRows ->
  numRowsAt config + 2 + 2 * numRows <= Z.of_nat (length buffer) ->
  exists (fs tp : Z) (offsets : list Z),
    P.parse (dataPageParser config) buffer
      = Ok (DataPage.mk 1 fs tp numRows offsets)
    /\ length offsets = Z.to_nat numRows
    /\ forall (i : nat) (os : Z), offsets !! i = Some os ->
         Buf.readUInt16LE buffer (numRowsAt config + 2 + 2 * Z.of_nat i) = Ok os.
Proof.
  intros Hcode Hnum Hfit.
  destruct (readLE_inv 2 _ _ _ ltac:(lia) Hnum) as [Hh0 Hh2].
  assert (Hhdr : 8 <= numRowsAt config) by (unfold numRowsAt; destruct (version config); lia).
  destruct (readLE_ok 2 buffer 2 ltac:(lia) ltac:(lia)) as [fs Hfs].
  destruct (readLE_ok 4 buffer 4 ltac:(lia) ltac:(lia)) as [tp Htp].
  destruct (array_uint16le_ok buffer (Z.to_nat numRows) (numRowsAt config + 2)
              ltac:(lia) ltac:(lia)) as (offsets & Harr & Hlen & Hnth).
  exists fs, tp, offsets. split; [|split; [exact Hlen|]].
  - unfold P.parse, dataPageParser.
    unfold P.bind at 1. unfold P.uint8 at 1.
    rewrite (lift_Ok _ _ _ _ _ (readUInt8_at buffer 0 1 Hcode)).
    unfold P.bind at 1. unfold P.assert at 1. simpl.
    unfold P.bind at 1. unfold P.seek at 1. simpl.
    unfold P.bind at 1. unfold P.uint16le at 1. rewrite (lift_Ok _ _ _ _ _ Hfs).
    unfold P.bind at 1. unfold P.uint32le at 1. rewrite (lift_Ok _ _ _ _ _ Htp).
    unfold P.bind at 1.
    assert (Hseek : (match version config with
                     | JETDB4 => P.seek 4
                     | JETDB3 => P.ret tt
                     end) buffer (4 + 4) = Ok (tt, numRowsAt config)).
    { unfold numRowsAt. destruct (version config); reflexivity. }
    rewrite Hseek.
    unfold P.bind at 1. unfold P.uint16le at 1. rewrite (lift_Ok _ _ _ _ _ Hnum).
    unfold P.bind at 1. rewrite Harr. reflexivity.
  - intros i os Hi. rewrite <- Z.add_assoc. rewrite Z.add_assoc. by apply Hnth.
Qed.

(** C2: on a data page whose slot table fits, [parseOffsets] returns one
    slot per table entry, with [offset = os & 0x1FFF],
    [delFlag = (os & 0x4000) <> 0], [lookupFlag = os & 0x8000] and [next]
    the page size for the first slot and the previous entry [& 0x1FFF] for
    the others, whether or not that entry is flagged deleted;
    [readRowsForPage] decodes the slots that are not flagged deleted, in
    order, each with the bounds it has in the full table. *)
Theorem parseOffsets_slots (rt : Runtime) (config : DatabaseConfig)
    (file buffer : list Z) (schema : Tdef.t) (numRows : Z) :
  buffer !! 0%nat = Some 1 ->
  Buf.readUInt16LE buffer (numRowsAt config) = Ok numRows ->
  numRowsAt config + 2 + 2 * numRows <= Z.of_nat (length buffer) ->
  exists slots : list RowOffset.t,
    parseOffsets config buffer = Ok slots
    /\ length slots = Z.to_nat numRows
    /\ (forall i : nat, (i < Z.to_nat numRows)%nat ->
          exists (os : Z) (slot : RowOffset.t),
            Buf.readUInt16LE buffer (numRowsAt config + 2 + 2 * Z.of_nat i) = Ok os
            /\ slots !! i = Some slot
            /\ RowOffset.offset slot = Z.land os 0x1FFF
            /\ RowOffset.delFlag slot = negb (Z.land os 0x4000 =? 0)
            /\ RowOffset.lookupFlag slot = Z.land os 0x8000
            /\ match i with
               | O => RowOffset.next slot = pageSize config
               | S j =>
                   exists prev : Z,
                     Buf.readUInt16LE buffer
                       (numRowsAt config + 2 + 2 * Z.of_nat j) = Ok prev
                     /\ RowOffset.next slot = Z.land prev 0x1FFF
               end)
    /\ readRowsForPage rt config file buffer schema
       = mapMi (decodeRow rt config file buffer schema) (liveSlots slots)
    /\ (forall rows : list RowData.t,
          readRowsForPage rt config file buffer schema = Ok rows ->
          length rows = length (liveSlots slots)
          /\ forall (k : nat) (row : RowData.t), rows !! k = Some row ->
               exists slot : RowOffset.t,
                 liveSlots slots !! k = Some slot
                 /\ slot ∈ slots
                 /\ RowOffset.delFlag slot = false
                 /\ decodeRow rt config file buffer schema k slot = Ok row).
Proof.
  intros Hcode Hnum Hfit.
  destruct (dataPageParser_ok config buffer numRows Hcode Hnum Hfit)
    as (fs & tp & offsets & Hparse & Hlen & Hnth).
  assert (Hpo : parseOffsets config buffer
                = Ok (imap (rowOffset config offsets) offsets)).
  { unfold parseOffsets. rewrite Hparse. reflexivity. }
  assert (Hrows : readRowsForPage rt config file buffer schema
                  = mapMi (decodeRow rt config file buffer schema)
                      (liveSlots (imap (rowOffset config offsets) offsets))).
  { unfold readRowsForPage. rewrite Hpo. reflexivity. }
  eexists. split; [exact Hpo|].
  split; [by rewrite length_imap|].
  split; [|split; [exact Hrows|]].
  - intros i Hi.
    destruct (lookup_lt_is_Some_2 offsets i ltac:(lia)) as [os Hos].
    exists os, (rowOffset config offsets i os).
    split; [by apply Hnth|].
    split; [by rewrite list_lookup_imap, Hos|].
    do 3 (split; [reflexivity|]).
    destruct i as [|j]; [reflexivity|].
    destruct (lookup_lt_is_Some_2 offsets j ltac:(lia)) as [prev Hprev].
    exists prev. split; [by apply Hnth|].
    unfold rowOffset. cbn [RowOffset.next].
    replace (S j - 1)%nat with j by lia. rewrite Hprev. reflexivity.
  - intros rows Hok. rewrite Hrows in Hok.
    destruct (mapMi_from_Ok _ _ _ _ Hok) as [Hl Hk].
    split; [exact Hl|].
    intros k row Hrow. destruct (Hk k row Hrow) as (slot & Hslot & Hdec).
    exists slot. split; [exact Hslot|].
    assert (Hin : slot ∈ liveSlots (imap (rowOffset config offsets) offsets)).
    { eapply list_elem_of_lookup_2. exact Hslot. }
    unfold liveSlots in Hin. apply list_elem_of_filter in Hin as [Hlive Hin].
    split; [exact Hin|].
    split; [by destruct (RowOffset.delFlag slot)|exact Hdec].
Qed.

(** ** DataPageDecoder: rows and columns *)

Lemma mapMi_from_app {A B : Type} (f : nat -> A -> Res B) :
  forall (l1 l2 : list A) (i : nat),
    mapMi_from f i (l1 ++ l2)
    = (r1 ← mapMi_from f i l1;
       r2 ← mapMi_from f (i + length l1)%nat l2;
       Ok (r1 ++ r2)).
Proof.
  induction l1 as [|x l1 IH]; intros l2 i.
  - cbn. rewrite Nat.add_0_r. by destruct (mapMi_from f i l2).
  - replace (i + length (x :: l1))%nat with (S i + length l1)%nat by (simpl; lia).
    cbn [app mapMi_from]. destruct (f i x) as [y|e]; [|reflexivity].
    rewrite IH. destruct (mapMi_from f (S i) l1) as [r1|e]; [|reflexivity].
    by destruct (mapMi_from f (S i + length l1) l2).
Qed.

(** What a successfully decoded row is made of. *)
Lemma decodeRow_columns (rt : Runtime) (config : DatabaseConfig)
    (file buffer : list Z) (schema : Tdef.t) (k : nat) (offset : RowOffset.t)
    (row : RowData.t) :
  decodeRow rt config file buffer schema k offset = Ok row ->
  exists varOffsets nullMask : list Z,
    rowTrailer rt config buffer offset = Ok (varOffsets, nullMask)
    /\ RowData.number row = k
    /\ length (RowData.columns row) = length (Tdef.cols schema)
    /\ forall (j : nat) (cd : ColumnData.t),
         RowData.columns row !! j = Some cd ->
         exists column : TdefColumn.t,
           Tdef.cols schema !! j = Some column
           /\ decodeColumn config file buffer schema offset varOffsets nullMask
                j column = Ok cd.
Proof.
  unfold decodeRow. intros H.
  destruct (rowTrailer rt config buffer offset) as [[varOffsets nullMask]|e];
    [|discriminate].
  cbn in H.
  destruct (mapMi _ (Tdef.cols schema)) as [cds|e] eqn:Hcds; [|discriminate].
  cbn in H. injection H as <-.
  exists varOffsets, nullMask. split; [reflexivity|]. split; [reflexivity|].
  destruct (mapMi_from_Ok _ _ _ _ Hcds) as [Hlen Hnth].
  split; [exact Hlen|]. intros j cd Hj.
  destruct (Hnth j cd Hj) as (column & Hcol & Hdec). eauto.
Qed.

(** What a successfully decoded column is made of. *)
Lemma decodeColumn_inv (config : DatabaseConfig) (file buffer : list Z)
    (schema : Tdef.t) (offset : RowOffset.t) (varOffsets nullMask : list Z)
    (idx : nat) (column : TdefColumn.t) (cd : ColumnData.t) :
  decodeColumn config file buffer schema offset varOffsets nullMask idx column
    = Ok cd ->
  exists (start : option Z) (length : Z) (value : ColumnValue)
         (colName : TdefColumnName.t),
    columnSlice config offset varOffsets column = (start, length)
    /\ Tdef.colNames schema !! idx = Some colName
    /\ (if 0 <? length
        then parseColumn config file buffer column start length = Ok value
        else value = if nullBitIsZero nullMask column then VNull else VString [])
    /\ cd = ColumnData.mk (TdefColumn.number column)
              (Buf.subarray buffer start (nadd start length))
              (TdefColumn.type column) (TdefColumnName.name colName)
              (nullBitIsZero nullMask column) value.
Proof.
  unfold decodeColumn.
  destruct (columnSlice config offset varOffsets column) as [start length].
  intros H. exists start, length.
  destruct (0 <? length).
  - destruct (parseColumn config file buffer column start length) as [v|e];
      [|discriminate].
    cbn in H. destruct (Tdef.colNames schema !! idx) as [colName|]; [|discriminate].
    injection H as <-. by exists v, colName.
  - cbn in H. destruct (Tdef.colNames schema !! idx) as [colName|]; [|discriminate].
    injection H as <-. by eexists _, colName.
Qed.

Lemma jsGet_Some_lt {A : Type} (l : list A) (i : Z) :
  0 <= i -> (is_Some (jsGet l i) <-> i < Z.of_nat (length l)).
Proof.
  intros Hi. unfold jsGet. destruct (Z.ltb_spec i 0) as [?|_]; [lia|].
  rewrite lookup_lt_is_Some. lia.
Qed.

(** The slice of a variable-length column. *)
Lemma columnSlice_variable (config : DatabaseConfig) (offset : RowOffset.t)
    (varOffsets : list Z) (column : TdefColumn.t) :
  Z.land (TdefColumn.bitmask column) 0x01 = 0 ->
  0 <= TdefColumn.offsetV column ->
  let v := TdefColumn.offsetV column in
  exists (start : option Z) (length : Z),
    columnSlice config offset varOffsets column = (start, length)
    /\ start = (fun lo => RowOffset.offset offset + lo) <$> jsGet varOffsets v
    /\ (v + 1 < Z.of_nat (List.length varOffsets) ->
          exists lo hi : Z,
            jsGet varOffsets v = Some lo /\ jsGet varOffsets (v + 1) = Some hi
            /\ start = Some (RowOffset.offset offset + lo)
            /\ length = hi - lo)
    /\ (~ v + 1 < Z.of_nat (List.length varOffsets) -> length = 0).
Proof.
  intros Hbit Hv v. unfold columnSlice. rewrite Hbit. cbn [Z.eqb].
  eexists _, _. split; [reflexivity|]. split; [reflexivity|]. split.
  - intros Hlt.
    destruct (proj2 (jsGet_Some_lt varOffsets v Hv) ltac:(lia)) as [lo Hlo].
    destruct (proj2 (jsGet_Some_lt varOffsets (v + 1) ltac:(lia)) Hlt) as [hi Hhi].
    exists lo, hi. fold v. rewrite Hlo, Hhi. auto.
  - intros Hge. fold v.
    destruct (jsGet varOffsets (v + 1)) as [hi|] eqn:Hhi; [|reflexivity].
    exfalso. apply Hge. apply jsGet_Some_lt; [lia|]. rewrite Hhi. eauto.
Qed.

(** The variable-length columns of one decoded row: each of them has its
    entry in the row. *)
Lemma decodeRow_variable_slice (rt : Runtime) (config : DatabaseConfig)
    (file buffer : list Z) (schema : Tdef.t) (k : nat) (offset : RowOffset.t)
    (row : RowData.t) :
  decodeRow rt config file buffer schema k offset = Ok row ->
  exists varOffsets nullMask : list Z,
    rowTrailer rt config buffer offset = Ok (varOffsets, nullMask)
    /\ forall (j : nat) (column : TdefColumn.t),
         Tdef.cols schema !! j = Some column ->
         Z.land (TdefColumn.bitmask column) 0x01 = 0 ->
         0 <= TdefColumn.offsetV column ->
         let v := TdefColumn.offsetV column in
         exists (cd : ColumnData.t) (start : option Z) (length : Z),
           RowData.columns row !! j = Some cd
           /\ ColumnData.position cd = TdefColumn.number column
           /\ ColumnData.rawValue cd = Buf.subarray buffer start (nadd start length)
           /\ start = (fun lo => RowOffset.offset offset + lo) <$> jsGet varOffsets v
           /\ (v + 1 < Z.of_nat (List.length varOffsets) ->
                 exists lo hi : Z,
                   jsGet varOffsets v = Some lo
                   /\ jsGet varOffsets (v + 1) = Some hi
                   /\ start = Some (RowOffset.offset offset + lo)
                   /\ length = hi - lo)
           /\ (~ v + 1 < Z.of_nat (List.length varOffsets) -> length = 0)
           /\ (length = 0 ->
                 ColumnData.value cd
                 = if bool_decide (jsGet nullMask (TdefColumn.number column) = Some 0)
                   then VNull else VString []).
Proof.
  intros Hrow.
  destruct (decodeRow_columns _ _ _ _ _ _ _ _ Hrow)
    as (varOffsets & nullMask & Htr & _ & Hlen & Hcols).
  exists varOffsets, nullMask. split; [exact Htr|].
  intros j column Hcol Hbit Hv v.
  destruct (lookup_lt_is_Some_2 (RowData.columns row) j) as [cd Hcd].
  { rewrite Hlen. eapply lookup_lt_Some. exact Hcol. }
  destruct (Hcols j cd Hcd) as (column' & Hcol' & Hdec).
  assert (column' = column) as -> by congruence.
  destruct (decodeColumn_inv _ _ _ _ _ _ _ _ _ _ Hdec)
    as (start & length & value & colName & Hslice & _ & Hval & ->).
  destruct (columnSlice_variable config offset varOffsets column Hbit Hv)
    as (start' & length' & Hslice' & Hstart & Hin & Hout).
  rewrite Hslice in Hslice'. injection Hslice' as <- <-.
  eexists _, start, length.
  cbn [ColumnData.rawValue ColumnData.value ColumnData.position].
  split; [exact Hcd|]. repeat split; try assumption.
  intros ->. cbn in Hval. exact Hval.
Qed.

(** The rows of a page are the decoded live slots of its slot table. *)
Lemma readRowsForPage_rows (rt : Runtime) (config : DatabaseConfig)
    (file buffer : list Z) (schema : Tdef.t) (rows : list RowData.t) :
  readRowsForPage rt config file buffer schema = Ok rows ->
  exists slots : list RowOffset.t,
    parseOffsets config buffer = Ok slots
    /\ length rows = length (liveSlots slots)
    /\ forall (k : nat) (row : RowData.t), rows !! k = Some row ->
         exists slot : RowOffset.t,
           liveSlots slots !! k = Some slot
           /\ RowOffset.delFlag slot = false
           /\ decodeRow rt config file buffer schema k slot = Ok row.
Proof.
  unfold readRowsForPage. intros H.
  destruct (parseOffsets config buffer) as [slots|e]; [|discriminate].
  cbn in H. exists slots. split; [reflexivity|].
  destruct (mapMi_from_Ok _ _ _ _ H) as [Hl Hk].
  split; [exact Hl|].
  intros k row Hrow. destruct (Hk k row Hrow) as (slot & Hslot & Hdec).
  exists slot. split; [exact Hslot|]. split; [|exact Hdec].
  assert (Hin : slot ∈ liveSlots slots) by (eapply list_elem_of_lookup_2; exact Hslot).
  unfold liveSlots in Hin. apply list_elem_of_filter in Hin as [Hlive _].
  by destruct (RowOffset.delFlag slot).
Qed.

(** C3: when [readRowsForPage] returns, every slot that is not flagged
    deleted has its row, and in that row every column whose bitmask has
    bit 0 clear has its entry: it is sliced at
    [offset + varOffsets[offsetV]] with length
    [varOffsets[offsetV+1] - varOffsets[offsetV]] when [offsetV + 1] indexes
    [varOffsets], and with length 0 otherwise; when the length is 0 the
    value is null if the null-mask bit of the column is 0 and the empty
    string otherwise. *)
Theorem variable_column_slice (rt : Runtime) (config : DatabaseConfig)
    (file buffer : list Z) (schema : Tdef.t) (rows : list RowData.t) :
  readRowsForPage rt config file buffer schema = Ok rows ->
  exists slots : list RowOffset.t,
    parseOffsets config buffer = Ok slots
    /\ length rows = length (liveSlots slots)
    /\ forall (k : nat) (slot : RowOffset.t),
         liveSlots slots !! k = Some slot ->
         RowOffset.delFlag slot = false
         /\ exists (row : RowData.t) (varOffsets nullMask : list Z),
              rows !! k = Some row
              /\ rowTrailer rt config buffer slot = Ok (varOffsets, nullMask)
              /\ forall (j : nat) (column : TdefColumn.t),
                   Tdef.cols schema !! j = Some column ->
                   Z.land (TdefColumn.bitmask column) 0x01 = 0 ->
                   0 <= TdefColumn.offsetV column ->
                   let v := TdefColumn.offsetV column in
                   exists (cd : ColumnData.t) (start : option Z) (length : Z),
                     RowData.columns row !! j = Some cd
                     /\ ColumnData.position cd = TdefColumn.number column
                     /\ ColumnData.rawValue cd
                        = Buf.subarray buffer start (nadd start length)
                     /\ start
                        = (fun lo => RowOffset.offset slot + lo)
                            <$> jsGet varOffsets v
                     /\ (v + 1 < Z.of_nat (List.length varOffsets) ->
                           exists lo hi : Z,
                             jsGet varOffsets v = Some lo
                             /\ jsGet varOffsets (v + 1) = Some hi
                             /\ start = Some (RowOffset.offset slot + lo)
                             /\ length = hi - lo)
                     /\ (~ v + 1 < Z.of_nat (List.length varOffsets) ->
                           length = 0)
                     /\ (length = 0 ->
                           ColumnData.value cd
                           = if bool_decide
                                  (jsGet nullMask (TdefColumn.number column)
                                   = Some 0)
                             then VNull else VString []).
Proof.
  intros Hrows.
  destruct (readRowsForPage_rows _ _ _ _ _ _ Hrows) as (slots & Hslots & Hlen & Hk).
  exists slots. split; [exact Hslots|]. split; [exact Hlen|].
  intros k slot Hslot.
  destruct (lookup_lt_is_Some_2 rows k) as [row Hrow].
  { rewrite Hlen. eapply lookup_lt_Some. exact Hslot. }
  destruct (Hk k row Hrow) as (slot' & Hslot' & Hlive & Hdec).
  assert (slot' = slot) as -> by congruence.
  split; [exact Hlive|].
  destruct (decodeRow_variable_slice _ _ _ _ _ _ _ _ Hdec)
    as (varOffsets & nullMask & Htr & Hcols).
  exists row, varOffsets, nullMask. auto.
Qed.

Lemma parseOffsets_slots_witness :
  exists slots : list RowOffset.t,
    parseOffsets sampleConfig samplePage = Ok slots
    /\ length slots = 2%nat
    /\ readRowsForPage sampleRuntime sampleConfig [] samplePage sampleSchema
       = mapMi (decodeRow sampleRuntime sampleConfig [] samplePage sampleSchema)
           (liveSlots slots).
Proof.
  destruct (parseOffsets_slots sampleRuntime sampleConfig [] samplePage
              sampleSchema 2)
    as (slots & Hp & Hl & _ & Hr & _).
  - reflexivity.
  - reflexivity.
  - vm_compute. discriminate.
  - exists slots. repeat split; assumption.
Defined.

Lemma variable_column_slice_witness :
  exists (row : RowData.t) (cd : ColumnData.t),
    readRowsForPage sampleRuntime sampleConfig [] samplePage sampleSchema
      = Ok [row]
    /\ RowData.columns row !! 1%nat = Some cd
    /\ ColumnData.position cd = 1
    /\ ColumnData.rawValue cd
       = Buf.subarray samplePage (Some (4079 + 6)) (Some (4079 + 6 + (10 - 6))).
Proof.
  assert (Hrows : readRowsForPage sampleRuntime sampleConfig [] samplePage
                    sampleSchema
                  = Ok [ RowData.mk 0
                           [ ColumnData.mk 0 [7; 0; 0; 0] 4 [65] true (VNumber 7);
                             ColumnData.mk 1 [255; 254; 104; 105] 10 [66] false
                               (VString [104; 105]) ] ])
    by (vm_compute; reflexivity).
  assert (Hpage : parseOffsets sampleConfig samplePage
                  = Ok [RowOffset.mk 0 false 4079 4096;
                        RowOffset.mk 0 true 4064 4079])
    by (vm_compute; reflexivity).
  assert (Htrailer : rowTrailer sampleRuntime sampleConfig samplePage
                       (RowOffset.mk 0 false 4079 4096)
                     = Ok ([6; 10], [0; 1; 0; 0; 0; 0; 0; 0]))
    by (vm_compute; reflexivity).
  destruct (variable_column_slice _ _ _ _ _ _ Hrows) as (slots & Hslots & _ & Hk).
  rewrite Hpage in Hslots. injection Hslots as <-.
  destruct (Hk 0%nat (RowOffset.mk 0 false 4079 4096) eq_refl)
    as (_ & row & varOffsets & nullMask & Hrow & Htr & Hcols).
  injection Hrow as <-.
  rewrite Htrailer in Htr. injection Htr as <- <-.
  destruct (Hcols 1%nat (TdefColumn.mk 10 1 0 0 0 0) eq_refl eq_refl
              ltac:(cbn; lia))
    as (cd & start & len & Hcd & Hpos & Hraw & _ & Hin & _).
  destruct (Hin ltac:(cbn; lia)) as (lo & hi & Hlo & Hhi & -> & ->).
  injection Hlo as <-. injection Hhi as <-.
  eexists _, cd. split; [exact Hrows|]. split; [exact Hcd|].
  split; [exact Hpos|]. exact Hraw.
Defined.

(** ** ValueDecoder *)

Lemma parseColumn_unsupported (config : DatabaseConfig) (file buffer : list Z)
    (column : TdefColumn.t) (start : option Z) (length : Z) :
  ~ In (TdefColumn.type column) [1; 2; 3; 4; 7; 8; 10; 12] ->
  parseColumn config file buffer column start length = Ok unknownType.
Proof.
  intros Hty. unfold parseColumn.
  repeat match goal with
  | |- context [TdefColumn.type column =? ?k] =>
      destruct (Z.eqb_spec (TdefColumn.type column) k) as [E|_];
      [exfalso; apply Hty; rewrite E; simpl; tauto|]
  end.
  reflexivity.
Qed.

(** What [parseColumn] returns for the types read straight from the
    buffer and for text. *)
Lemma parseColumn_by_type (config : DatabaseConfig) (file buffer : list Z)
    (column : TdefColumn.t) (start : option Z) (length : Z) (v : ColumnValue) :
  parseColumn config file buffer column start length = Ok v ->
  (TdefColumn.type column = 1 ->
     exists b, readAt Buf.readUInt8 buffer start = Ok b
               /\ v = VNumber (if b =? 0 then 0 else 1))
  /\ (TdefColumn.type column = 2 ->
       exists n, readAt Buf.readUInt8 buffer start = Ok n /\ v = VNumber n)
  /\ (TdefColumn.type column = 3 ->
       exists n, readAt Buf.readUInt16LE buffer start = Ok n /\ v = VNumber n)
  /\ (TdefColumn.type column = 4 ->
       exists n, readAt Buf.readUInt32LE buffer start = Ok n /\ v = VNumber n)
  /\ (TdefColumn.type column = 7 ->
       exists n, readAt Buf.readDoubleLE buffer start = Ok n /\ v = VDouble n)
  /\ (TdefColumn.type column = 8 ->
       exists n, readAt Buf.readBigUInt64LE buffer start = Ok n /\ v = VBigInt n)
  /\ (TdefColumn.type column = 10 ->
       v = VString (parseText config
                      (Buf.subarray buffer start (nadd start length)))).
Proof.
  intros H.
  repeat split; intros Hty; unfold parseColumn in H; rewrite Hty in H;
    cbn [Z.eqb Pos.eqb] in H;
    try (injection H as <-; reflexivity);
    match type of H with
    | context [readAt ?rd buffer start] =>
        destruct (readAt rd buffer start) as [n|e]; [|discriminate]
    end;
    cbn [mbind Res_bind] in H; injection H as <-; eauto.
Qed.

(** C7: a column whose type is none of 1, 2, 3, 4, 7, 8, 10, 12 never makes
    the value decoder throw: [parseColumn] returns "[unknown type]".  In a
    row whose schema holds such a column with a positive slice length, the
    column's value is that string, the row is decoded exactly when its
    other columns are, and every other column has its entry in the row:
    sliced as its descriptor says, null or empty on an empty slice, and
    otherwise decoded by type (Boolean, Byte, Int, LongInt, Double,
    DateTime read from the buffer, Text through [parseText]). *)
Theorem unsupported_type_sentinel (config : DatabaseConfig) (file buffer : list Z)
    (column : TdefColumn.t) :
  ~ In (TdefColumn.type column) [1; 2; 3; 4; 7; 8; 10; 12] ->
  (forall (start : option Z) (length : Z),
     parseColumn config file buffer column start length = Ok unknownType)
  /\ forall (rt : Runtime) (schema : Tdef.t) (k : nat) (offset : RowOffset.t)
       (varOffsets nullMask : list Z) (before after : list TdefColumn.t)
       (colName : TdefColumnName.t),
       Tdef.cols schema = before ++ column :: after ->
       rowTrailer rt config buffer offset = Ok (varOffsets, nullMask) ->
       Tdef.colNames schema !! length before = Some colName ->
       0 < (columnSlice config offset varOffsets column).2 ->
       let f := decodeColumn config file buffer schema offset varOffsets nullMask in
       exists cd : ColumnData.t,
         f (length before) column = Ok cd
         /\ ColumnData.value cd = unknownType
         /\ decodeRow rt config file buffer schema k offset
            = (r1 ← mapMi f before;
               r2 ← mapMi_from f (S (length before)) after;
               Ok (RowData.mk k (r1 ++ cd :: r2)))
         /\ forall row : RowData.t,
              decodeRow rt config file buffer schema k offset = Ok row ->
              RowData.columns row !! length before = Some cd
              /\ forall (i : nat) (other : TdefColumn.t),
                   i <> length before ->
                   Tdef.cols schema !! i = Some other ->
                   exists (cd' : ColumnData.t) (start : option Z) (len : Z),
                     RowData.columns row !! i = Some cd'
                     /\ columnSlice config offset varOffsets other = (start, len)
                     /\ ColumnData.position cd' = TdefColumn.number other
                     /\ ColumnData.rawValue cd'
                        = Buf.subarray buffer start (nadd start len)
                     /\ (len <= 0 ->
                         ColumnData.value cd'
                         = if nullBitIsZero nullMask other
                           then VNull else VString [])
                     /\ (0 < len ->
                         let v := ColumnData.value cd' in
                         parseColumn config file buffer other start len = Ok v
                         /\ (TdefColumn.type other = 1 ->
                              exists b, readAt Buf.readUInt8 buffer start = Ok b
                                        /\ v = VNumber (if b =? 0 then 0 else 1))
                         /\ (TdefColumn.type other = 2 ->
                              exists n, readAt Buf.readUInt8 buffer start = Ok n
                                        /\ v = VNumber n)
                         /\ (TdefColumn.type other = 3 ->
                              exists n, readAt Buf.readUInt16LE buffer start = Ok n
                                        /\ v = VNumber n)
                         /\ (TdefColumn.type other = 4 ->
                              exists n, readAt Buf.readUInt32LE buffer start = Ok n
                                        /\ v = VNumber n)
                         /\ (TdefColumn.type other = 7 ->
                              exists n, readAt Buf.readDoubleLE buffer start = Ok n
                                        /\ v = VDouble n)
                         /\ (TdefColumn.type other = 8 ->
                              exists n, readAt Buf.readBigUInt64LE buffer start = Ok n
                                        /\ v = VBigInt n)
                         /\ (TdefColumn.type other = 10 ->
                              v = VString
                                    (parseText config
                                       (Buf.subarray buffer start
                                          (nadd start len))))).
Proof.
  intros Hty. split; [intros; by apply parseColumn_unsupported|].
  intros rt schema k offset varOffsets nullMask before after colName
    Hcols Htr Hname Hlen f.
  assert (Hf : exists cd, f (length before) column = Ok cd
                          /\ ColumnData.value cd = unknownType).
  { unfold f, decodeColumn.
    destruct (columnSlice config offset varOffsets column) as [start len].
    cbn [snd] in Hlen.
    assert ((0 <? len) = true) as -> by lia.
    rewrite parseColumn_unsupported by assumption. cbn.
    rewrite Hname. eexists. split; reflexivity. }
  destruct Hf as (cd & Hcd & Hval). exists cd.
  split; [exact Hcd|]. split; [exact Hval|]. split.
  { unfold decodeRow. rewrite Htr. cbn [mbind Res_bind]. rewrite Hcols.
    fold f. unfold mapMi. rewrite mapMi_from_app. cbn [mapMi_from].
    rewrite Nat.add_0_l, Hcd.
    destruct (mapMi_from f 0 before) as [r1|e]; [|reflexivity].
    cbn. by destruct (mapMi_from f (S (length before)) after). }
  intros row Hrow.
  destruct (decodeRow_columns _ _ _ _ _ _ _ _ Hrow)
    as (varOffsets' & nullMask' & Htr' & _ & Hlength & Hnth).
  rewrite Htr in Htr'. injection Htr' as <- <-.
  assert (Hentry : forall (i : nat) (c : TdefColumn.t),
             Tdef.cols schema !! i = Some c ->
             exists cd', RowData.columns row !! i = Some cd' /\ f i c = Ok cd').
  { intros i c Hc.
    destruct (lookup_lt_is_Some_2 (RowData.columns row) i) as [cd' Hcd'].
    { rewrite Hlength. eapply lookup_lt_Some. exact Hc. }
    destruct (Hnth i cd' Hcd') as (c' & Hc' & Hdec).
    assert (c' = c) as -> by congruence. eauto. }
  split.
  - destruct (Hentry (length before) column) as (cd' & Hcd' & Hdec).
    { rewrite Hcols. by rewrite list_lookup_middle. }
    rewrite Hcd in Hdec. injection Hdec as <-. exact Hcd'.
  - intros i other _ Hother.
    destruct (Hentry i other Hother) as (cd' & Hcd' & Hdec).
    destruct (decodeColumn_inv _ _ _ _ _ _ _ _ _ _ Hdec)
      as (start & len & value & colName' & Hslice & _ & Hvalue & ->).
    eexists _, start, len.
    split; [exact Hcd'|].
    cbn [ColumnData.rawValue ColumnData.value ColumnData.position].
    split; [exact Hslice|].
    split; [reflexivity|]. split; [reflexivity|]. split.
    + intros Hle. assert ((0 <? len) = false) as Hb by lia.
      rewrite Hb in Hvalue. exact Hvalue.
    + intros Hpos. assert ((0 <? len) = true) as Hb by lia.
      rewrite Hb in Hvalue. split; [exact Hvalue|].
      exact (parseColumn_by_type _ _ _ _ _ _ _ Hvalue).
Qed.

Lemma unsupported_type_sentinel_witness :
  exists (row : RowData.t) (cdA cdC cdB : ColumnData.t),
    decodeRow sampleRuntime sampleConfig [] samplePage sampleSchemaUnknown 0
      (RowOffset.mk 0 false 4079 4096) = Ok row
    /\ RowData.columns row !! 0%nat = Some cdA
    /\ RowData.columns row !! 1%nat = Some cdC
    /\ RowData.columns row !! 2%nat = Some cdB
    /\ ColumnData.value cdC = unknownType
    /\ (exists n : Z,
          Buf.readUInt32LE samplePage 4081 = Ok n
          /\ ColumnData.value cdA = VNumber n)
    /\ ColumnData.value cdB
       = VString (parseText sampleConfig
                    (Buf.subarray samplePage (Some 4085) (Some 4089))).
Proof.
  destruct (unsupported_type_sentinel sampleConfig [] samplePage
              (TdefColumn.mk 5 2 0 0 4 1)) as [_ Hrow].
  { cbn. lia. }
  destruct (Hrow sampleRuntime sampleSchemaUnknown 0%nat
              (RowOffset.mk 0 false 4079 4096) [6; 10] [0; 1; 0; 0; 0; 0; 0; 0]
              [TdefColumn.mk 4 0 0 0 4 1] [TdefColumn.mk 10 1 0 0 0 0]
              (TdefColumnName.mk 2 (codeUnits "C")))
    as (cdC & _ & Hsent & Heq & Hothers).
  - reflexivity.
  - vm_compute. reflexivity.
  - reflexivity.
  - vm_compute. reflexivity.
  - assert (Hdec : exists row,
               decodeRow sampleRuntime sampleConfig [] samplePage
                 sampleSchemaUnknown 0 (RowOffset.mk 0 false 4079 4096) = Ok row).
    { eexists. vm_compute. reflexivity. }
    destruct Hdec as [row Hdec].
    destruct (Hothers row Hdec) as [HC Hrest].
    destruct (Hrest 0%nat (TdefColumn.mk 4 0 0 0 4 1) ltac:(cbn; lia) eq_refl)
      as (cdA & startA & lenA & HA & HsliceA & _ & _ & _ & HvalA).
    destruct (Hrest 2%nat (TdefColumn.mk 10 1 0 0 0 0) ltac:(cbn; lia) eq_refl)
      as (cdB & startB & lenB & HB & HsliceB & _ & _ & _ & HvalB).
    injection HsliceA as <- <-. injection HsliceB as <- <-.
    destruct (HvalA ltac:(cbn; lia)) as (_ & _ & _ & _ & H4 & _).
    destruct (HvalB ltac:(cbn; lia)) as (_ & _ & _ & _ & _ & _ & _ & H10).
    exists row, cdA, cdC, cdB.
    split; [exact Hdec|]. split; [exact HA|]. split; [exact HC|].
    split; [exact HB|]. split; [exact Hsent|].
    split; [exact (H4 eq_refl) | exact (H10 eq_refl)].
Defined.

Lemma parseColumn_not_null (config : DatabaseConfig) (file buffer : list Z)
    (column : TdefColumn.t) (start : option Z) (length : Z) (v : ColumnValue) :
  parseColumn config file buffer column start length = Ok v -> v <> VNull.
Proof.
  unfold parseColumn, unknownType. intros H.
  repeat match type of H with
  | context [if ?b then _ else _] => destruct b
  | context [mbind _ ?m] => destruct m; cbn in H
  | context [match ?x with _ => _ end] => destruct x
  end; try discriminate; injection H as <-; discriminate.
Qed.

(** The null flag and the value of the columns of one decoded row. *)
Lemma decodeRow_null_flag (rt : Runtime) (config : DatabaseConfig)
    (file buffer : list Z) (schema : Tdef.t) (k : nat) (offset : RowOffset.t)
    (row : RowData.t) :
  decodeRow rt config file buffer schema k offset = Ok row ->
  exists varOffsets nullMask : list Z,
    rowTrailer rt config buffer offset = Ok (varOffsets, nullMask)
    /\ forall (j : nat) (column : TdefColumn.t) (cd : ColumnData.t),
         Tdef.cols schema !! j = Some column ->
         RowData.columns row !! j = Some cd ->
         (ColumnData.isNull cd = true
          <-> jsGet nullMask (TdefColumn.number column) = Some 0)
         /\ (ColumnData.value cd = VNull
             <-> jsGet nullMask (TdefColumn.number column) = Some 0
                 /\ (columnSlice config offset varOffsets column).2 <= 0).
Proof.
  intros Hrow.
  destruct (decodeRow_columns _ _ _ _ _ _ _ _ Hrow)
    as (varOffsets & nullMask & Htr & _ & _ & Hcols).
  exists varOffsets, nullMask. split; [exact Htr|].
  intros j column cd Hcol Hcd.
  destruct (Hcols j cd Hcd) as (column' & Hcol' & Hdec).
  assert (column' = column) as -> by congruence.
  destruct (decodeColumn_inv _ _ _ _ _ _ _ _ _ _ Hdec)
    as (start & length & value & colName & Hslice & _ & Hval & ->).
  rewrite Hslice. cbn [ColumnData.isNull ColumnData.value snd].
  unfold nullBitIsZero in *. split.
  - apply bool_decide_eq_true.
  - destruct (Z.ltb_spec 0 length) as [Hpos|Hnpos].
    + split.
      * intros ->. by apply parseColumn_not_null in Hval.
      * intros [_ ?]. lia.
    + subst value. case_bool_decide as Hbit.
      * split; [intros _; by split | reflexivity].
      * split; [discriminate | intros [? _]; contradiction].
Qed.

(** C8 (as the code has it): in every row that [readRowsForPage] returns,
    a column's [isNull] flag is set exactly when the null-mask bit of the
    column's number is 0; its value is null exactly when that bit is 0 and
    the column's slice length is not positive.  A column with a positive
    slice length carries the decoded value whatever the bit says. *)
Theorem null_flag_and_value (rt : Runtime) (config : DatabaseConfig)
    (file buffer : list Z) (schema : Tdef.t) (rows : list RowData.t)
    (k : nat) (row : RowData.t) :
  readRowsForPage rt config file buffer schema = Ok rows ->
  rows !! k = Some row ->
  exists (slots : list RowOffset.t) (slot : RowOffset.t)
         (varOffsets nullMask : list Z),
    parseOffsets config buffer = Ok slots
    /\ liveSlots slots !! k = Some slot
    /\ rowTrailer rt config buffer slot = Ok (varOffsets, nullMask)
    /\ forall (j : nat) (column : TdefColumn.t) (cd : ColumnData.t),
         Tdef.cols schema !! j = Some column ->
         RowData.columns row !! j = Some cd ->
         (ColumnData.isNull cd = true
          <-> jsGet nullMask (TdefColumn.number column) = Some 0)
         /\ (ColumnData.value cd = VNull
             <-> jsGet nullMask (TdefColumn.number column) = Some 0
                 /\ (columnSlice config slot varOffsets column).2 <= 0).
Proof.
  intros Hrows Hrow.
  destruct (readRowsForPage_rows _ _ _ _ _ _ Hrows) as (slots & Hslots & _ & Hk).
  destruct (Hk k row Hrow) as (slot & Hslot & _ & Hdec).
  destruct (decodeRow_null_flag _ _ _ _ _ _ _ _ Hdec)
    as (varOffsets & nullMask & Htr & Hcols).
  exists slots, slot, varOffsets, nullMask. auto.
Qed.

Lemma null_flag_and_value_witness :
  exists (slot : RowOffset.t) (varOffsets nullMask : list Z),
    rowTrailer sampleRuntime sampleConfig samplePage slot
    = Ok (varOffsets, nullMask).
Proof.
  destruct (null_flag_and_value sampleRuntime sampleConfig [] samplePage
              sampleSchema
              [ RowData.mk 0
                  [ ColumnData.mk 0 [7; 0; 0; 0] 4 [65] true (VNumber 7);
                    ColumnData.mk 1 [255; 254; 104; 105] 10 [66] false
                      (VString [104; 105]) ] ]
              0
              (RowData.mk 0
                 [ ColumnData.mk 0 [7; 0; 0; 0] 4 [65] true (VNumber 7);
                   ColumnData.mk 1 [255; 254; 104; 105] 10 [66] false
                     (VString [104; 105]) ]))
    as (slots & slot & varOffsets & nullMask & _ & _ & Htr & _).
  - vm_compute. reflexivity.
  - reflexivity.
  - exists slot, varOffsets, nullMask. exact Htr.
Defined.

(** C8 as stated fails: in the sample page the null-mask bit of column 0 is
    0, yet the row carries the value 7 for it (and flags it [isNull]). *)
Lemma null_value_counterexample :
  exists (row : RowData.t) (cd : ColumnData.t),
    readRowsForPage sampleRuntime sampleConfig [] samplePage sampleSchema
      = Ok [row]
    /\ rowTrailer sampleRuntime sampleConfig samplePage
         (RowOffset.mk 0 false 4079 4096)
       = Ok ([6; 10], [0; 1; 0; 0; 0; 0; 0; 0])
    /\ RowData.columns row !! 0%nat = Some cd
    /\ ColumnData.position cd = 0
    /\ jsGet [0; 1; 0; 0; 0; 0; 0; 0] (ColumnData.position cd) = Some 0
    /\ ColumnData.isNull cd = true
    /\ ColumnData.value cd = VNumber 7
    /\ ColumnData.value cd <> VNull.
Proof.
  eexists _, _. split; [vm_compute; reflexivity|].
  split; [vm_compute; reflexivity|].
  cbn. repeat split. discriminate.
Qed.

(** ** Facade *)

Lemma findIndexFrom_none {A : Type} (f : A -> bool) (l : list A) :
  forall i : Z, Forall (fun x => f x = false) l -> findIndexFrom f i l = -1.
Proof.
  induction l as [|x l IH]; intros i Hall; [reflexivity|].
  inversion Hall as [|? ? Hx Hl]; subst. cbn [findIndexFrom].
  rewrite Hx. by apply IH.
Qed.

(** C9 (as the code has it): for a table name that no catalog user row
    matches, [columns] and [rows] both fail, with the [TypeError] of reading
    a property ([colNames], [usedPagesPage]) of the undefined
    [this.schema[-1]]; the code has no error that names the table. *)
Theorem unknown_table_fails (rt : Runtime) (this : JetDb.t) (table : list Z) :
  Forall (fun p => looseEq rt (columnValueNamed "Name" p) table = false)
    (JetDb.userTables this) ->
  tableIndex rt this table = -1
  /\ columns rt this table = Throw (TypeError "colNames")
  /\ rows rt this table = Throw (TypeError "usedPagesPage").
Proof.
  intros Hnone.
  assert (Hidx : tableIndex rt this table = -1).
  { unfold tableIndex, findIndex. by apply findIndexFrom_none. }
  split; [exact Hidx|].
  unfold columns, rows. rewrite Hidx. split; reflexivity.
Qed.

Lemma unknown_table_fails_witness :
  tableIndex sampleRuntime sampleHandle (codeUnits "Nope") = -1
  /\ columns sampleRuntime sampleHandle (codeUnits "Nope")
     = Throw (TypeError "colNames")
  /\ rows sampleRuntime sampleHandle (codeUnits "Nope")
     = Throw (TypeError "usedPagesPage").
Proof.
  apply (unknown_table_fails sampleRuntime sampleHandle (codeUnits "Nope")).
  repeat constructor.
Defined.

(** C9 as stated fails: on the sample handle the requests for two unknown
    tables fail with one and the same value, which therefore carries neither
    name, and [columns] and [rows] do not fail with the same error. *)
Lemma unknown_table_counterexample :
  columns sampleRuntime sampleHandle (codeUnits "Nope")
    = Throw (TypeError "colNames")
  /\ rows sampleRuntime sampleHandle (codeUnits "Nope")
     = Throw (TypeError "usedPagesPage")
  /\ columns sampleRuntime sampleHandle (codeUnits "Other")
     = columns sampleRuntime sampleHandle (codeUnits "Nope")
  /\ ~ (exists UnknownTable : list Z -> Exn,
          (forall a b, UnknownTable a = UnknownTable b -> a = b)
          /\ forall table : list Z,
               tableIndex sampleRuntime sampleHandle table = -1 ->
               columns sampleRuntime sampleHandle table
               = Throw (UnknownTable table))
  /\ ~ (exists e : Exn,
          columns sampleRuntime sampleHandle (codeUnits "Nope") = Throw e
          /\ rows sampleRuntime sampleHandle (codeUnits "Nope") = Throw e).
Proof.
  split; [reflexivity|]. split; [reflexivity|]. split; [reflexivity|]. split.
  - intros (UnknownTable & Hinj & Hall).
    pose proof (Hall (codeUnits "Nope") eq_refl) as H1.
    pose proof (Hall (codeUnits "Other") eq_refl) as H2.
    change (columns sampleRuntime sampleHandle (codeUnits "Other"))
      with (columns sampleRuntime sampleHandle (codeUnits "Nope")) in H2.
    rewrite H1 in H2. injection H2 as H2. apply Hinj in H2. discriminate.
  - intros (e & H1 & H2).
    change (columns sampleRuntime sampleHandle (codeUnits "Nope"))
      with (@Throw (list (list Z)) (TypeError "colNames")) in H1.
    change (rows sampleRuntime sampleHandle (codeUnits "Nope"))
      with (@Throw (list RowData.t) (TypeError "usedPagesPage")) in H2.
    injection H1 as <-. discriminate.
Qed.

(** The sample table itself is served. *)
Example sample_table_served :
  tables sampleHandle = Ok [codeUnits "T"]
  /\ columns sampleRuntime sampleHandle (codeUnits "T")
     = Ok [codeUnits "A"; codeUnits "B"]
  /\ exists row : RowData.t,
       rows sampleRuntime sampleHandle (codeUnits "T") = Ok [row]
       /\ ColumnData.value <$> RowData.columns row
          = [VNumber 7; VString (codeUnits "hi")].
Proof.
  split; [vm_compute; reflexivity|]. split; [vm_compute; reflexivity|].
  eexists. split; vm_compute; reflexivity.
Qed.

(** ** Memo columns *)

Lemma sar_small (x k : Z) : 0 <= x < 2 ^ 31 -> sar x k = Z.shiftr x k.
Proof.
  intros Hx. unfold sar, toInt32.
  rewrite Z.mod_small by lia.
  destruct (Z.ltb_spec x (2 ^ 31)); [reflexivity | lia].
Qed.

(** What [parseColumn] does with a memo header it can read: the length it
    uses is the halfword at +0 plus the byte at +2, the mask is the byte at
    +3, page and row come from the word at +4. *)
Lemma parseColumn_memo (config : DatabaseConfig) (file buffer : list Z)
    (column : TdefColumn.t) (start length lenLow lenHigh memoMask tmp : Z) :
  TdefColumn.type column = 12 ->
  Buf.readUInt16LE buffer start = Ok lenLow ->
  Buf.readUInt8 buffer (start + 2) = Ok lenHigh ->
  Buf.readUInt8 buffer (start + 3) = Ok memoMask ->
  Buf.readUInt32LE buffer (start + 4) = Ok tmp ->
  let memoLen := lenLow + lenHigh in
  let memoPage := sar tmp 8 in
  let memoRow := Z.land tmp 0xff in
  parseColumn config file buffer column (Some start) length
  = if memoMask =? 0x80 then
      Ok (VString (parseText config
            (Buf.subarray buffer (Some (start + 12)) (Some (start + 12 + memoLen)))))
    else if memoMask =? 0x40 then
      memoBuffer ← readBuffer file (pageSize config) memoPage;
      offsets ← parseOffsets config memoBuffer;
      match offsets !! Z.to_nat memoRow with
      | Some slot =>
          Ok (VString (parseText config
                (Buf.subarray memoBuffer (Some (RowOffset.offset slot))
                   (Some (RowOffset.next slot)))))
      | None => Throw (TypeError "offset")
      end
    else Ok unknownType.
Proof.
  intros Hty H0 H2 H3 H4. unfold parseColumn. rewrite Hty.
  cbn [Z.eqb Pos.eqb readAt nadd fmap option_fmap option_map].
  rewrite H0, H2, H3, H4. cbn [mbind Res_bind].
  destruct (memoMask =? 128); [reflexivity|].
  destruct (memoMask =? 64); [reflexivity|].
  by destruct (memoMask =? 0).
Qed.

(** C6, the memo length: on a header whose length bytes are 02 00 01 the
    24-bit length is 65538, but the decoder adds the byte at +2 to the
    halfword at +0 without shifting it and takes 3 bytes of inline text.  It
    returns "a" where the text of the 24-bit length (cut at the end of the
    buffer) is "abcd". *)
Theorem memo_length_unshifted :
  Buf.readUInt16LE sampleMemo 0 = Ok 2
  /\ Buf.readUInt8 sampleMemo 2 = Ok 1
  /\ Buf.readUInt8 sampleMemo 3 = Ok 0x80
  /\ memoLen24 2 1 = 65538
  /\ parseColumn sampleConfig [] sampleMemo memoColumn (Some 0) 18
     = Ok (VString (parseText sampleConfig
                      (Buf.subarray sampleMemo (Some 12) (Some (12 + (2 + 1))))))
  /\ parseColumn sampleConfig [] sampleMemo memoColumn (Some 0) 18
     = Ok (VString (codeUnits "a"))
  /\ parseText sampleConfig
       (Buf.subarray sampleMemo (Some 12) (Some (12 + memoLen24 2 1)))
     = codeUnits "abcd".
Proof.
  repeat split; vm_compute; reflexivity.
Qed.

(** ** The deleted flag and the bounds of the other slots *)

Lemma land_deleted_flag (os : Z) :
  Z.land (Z.lor os 0x4000) 0x1fff = Z.land os 0x1fff
  /\ Z.land (Z.lor os 0x4000) 0x8000 = Z.land os 0x8000.
Proof.
  rewrite !Z.land_lor_distr_l.
  change (Z.land 0x4000 0x1fff) with 0. change (Z.land 0x4000 0x8000) with 0.
  by rewrite !Z.lor_0_r.
Qed.

(** Flagging entry [j] of the slot table as deleted changes the [offset],
    [next] and [lookupFlag] of no slot: the bounds of the rows that remain
    are those they have in the full table. *)
Lemma deleted_flag_keeps_bounds (config : DatabaseConfig) (offsets : list Z)
    (j : nat) (os : Z) :
  offsets !! j = Some os ->
  let offsets' := <[j := Z.lor os 0x4000]> offsets in
  forall (i : nat) (slot : RowOffset.t),
    imap (rowOffset config offsets) offsets !! i = Some slot ->
    exists slot' : RowOffset.t,
      imap (rowOffset config offsets') offsets' !! i = Some slot'
      /\ RowOffset.offset slot' = RowOffset.offset slot
      /\ RowOffset.next slot' = RowOffset.next slot
      /\ RowOffset.lookupFlag slot' = RowOffset.lookupFlag slot
      /\ (i <> j -> RowOffset.delFlag slot' = RowOffset.delFlag slot).
Proof.
  intros Hj offsets' i slot Hslot.
  rewrite list_lookup_imap in Hslot.
  destruct (offsets !! i) as [osi|] eqn:Hi; [|discriminate].
  cbn in Hslot. injection Hslot as <-.
  assert (Hprev : forall k : nat,
            Z.land (default 0 (offsets' !! k)) 0x1fff
            = Z.land (default 0 (offsets !! k)) 0x1fff).
  { intros k. unfold offsets'. destruct (decide (k = j)) as [->|Hne].
    - rewrite list_lookup_insert_eq by (eapply lookup_lt_Some; eassumption).
      rewrite Hj. cbn. apply land_deleted_flag.
    - by rewrite list_lookup_insert_ne by congruence. }
  rewrite list_lookup_imap. unfold offsets' at 2.
  destruct (decide (i = j)) as [->|Hne].
  - rewrite list_lookup_insert_eq by (eapply lookup_lt_Some; eassumption).
    assert (osi = os) as -> by congruence.
    eexists. split; [reflexivity|].
    unfold rowOffset. cbn [RowOffset.offset RowOffset.next RowOffset.lookupFlag].
    rewrite Hprev. destruct (land_deleted_flag os) as [-> ->].
    repeat split. intros Hc. by destruct Hc.
  - rewrite list_lookup_insert_ne by congruence. rewrite Hi.
    eexists. split; [reflexivity|].
    unfold rowOffset. cbn [RowOffset.offset RowOffset.next RowOffset.lookupFlag
                             RowOffset.delFlag].
    rewrite Hprev. repeat split.
Qed.

(** * Further properties *)

Lemma readBuffer_nonneg (file : list Z) (size position : Z) :
  0 <= size -> 0 <= size * position ->
  readBuffer file size position
  = Ok (take (Z.to_nat size) (drop (Z.to_nat (size * position)) file)
        ++ Buf.alloc
             (Z.to_nat size
              - length (take (Z.to_nat size)
                          (drop (Z.to_nat (size * position)) file)))).
Proof.
  intros Hs Hp. unfold readBuffer.
  destruct (Z.ltb_spec size 0) as [?|_]; [lia|].
  destruct (Z.ltb_spec (size * position) (-1)) as [?|_]; [lia|].
  destruct (Z.eqb_spec (size * position) (-1)) as [?|_]; [lia|].
  reflexivity.
Qed.

Lemma readBuffer_Ok_bounds (file : list Z) (size position : Z) (buf : list Z) :
  readBuffer file size position = Ok buf -> 0 <= size /\ -1 <= size * position.
Proof.
  unfold readBuffer.
  destruct (Z.ltb_spec size 0); [discriminate|].
  destruct (Z.ltb_spec (size * position) (-1)); [discriminate|]. lia.
Qed.

(** ** The page reader *)

Lemma readBuffer_lookup (file : list Z) (size position : Z) :
  0 <= size -> 0 <= position ->
  exists buf : list Z,
    readBuffer file size position = Ok buf
    /\ Z.of_nat (length buf) = size
    /\ forall i : nat, Z.of_nat i < size ->
         buf !! i
         = Some (default 0 (file !! (Z.to_nat (size * position) + i)%nat)).
Proof.
  intros Hs Hp. rewrite readBuffer_nonneg by nia.
  eexists. split; [reflexivity|].
  set (off := Z.to_nat (size * position)).
  set (got := take (Z.to_nat size) (drop off file)).
  assert (Hgot : (length got <= Z.to_nat size)%nat).
  { unfold got. rewrite length_take. lia. }
  split.
  - rewrite length_app. unfold Buf.alloc. rewrite length_replicate. lia.
  - intros i Hi.
    destruct (decide (i < length got)%nat) as [Hlt|Hge].
    + rewrite lookup_app_l by exact Hlt.
      unfold got. rewrite lookup_take_lt by lia. rewrite lookup_drop.
      unfold got in Hlt. rewrite length_take, length_drop in Hlt.
      destruct (lookup_lt_is_Some_2 file (off + i) ltac:(lia)) as [x Hx].
      by rewrite Hx.
    + rewrite lookup_app_r by lia. unfold Buf.alloc.
      rewrite lookup_replicate_2 by lia.
      unfold got in Hge. rewrite length_take, length_drop in Hge.
      rewrite (lookup_ge_None_2 file (off + i)) by lia. reflexivity.
Qed.

(** X1: [readBuffer] with a non-negative position always returns exactly
    [size] bytes: the bytes of the file from [size * position] on, and 0
    for every position past the end of the file (a short read is not an
    error). *)
Theorem readBuffer_page (file : list Z) (size position : Z) :
  0 <= size -> 0 <= position ->
  exists buf : list Z,
    readBuffer file size position = Ok buf
    /\ Z.of_nat (length buf) = size
    /\ forall i : nat, Z.of_nat i < size ->
         buf !! i
         = Some (default 0 (file !! (Z.to_nat (size * position) + i)%nat)).
Proof. apply readBuffer_lookup. Qed.

Lemma readBuffer_page_witness :
  exists buf : list Z,
    readBuffer [1; 2; 3; 4; 5] 4 1 = Ok buf /\ Z.of_nat (length buf) = 4.
Proof.
  destruct (readBuffer_page [1; 2; 3; 4; 5] 4 1 ltac:(lia) ltac:(lia))
    as (buf & Hb & Hl & _).
  exists buf. split; assumption.
Defined.

(** X2: a file of at most 20 bytes (the empty file included) opens as a
    JET3 database: the header read is zero-filled, so the version byte
    reads 0. *)
Theorem open_short_file (file : list Z) :
  (length file <= 20)%nat ->
  openConfig file = Ok (mkConfig 2048 JETDB3).
Proof.
  intros Hlen.
  destruct (readBuffer_lookup file 2048 0 ltac:(lia) ltac:(lia))
    as (buf & Hbuf & _ & Hnth).
  specialize (Hnth 20%nat ltac:(lia)).
  rewrite (lookup_ge_None_2 file) in Hnth by (simpl; lia). cbn in Hnth.
  unfold openConfig. rewrite Hbuf. cbn [mbind Res_bind].
  unfold databaseConfig. change 20 with (Z.of_nat 20).
  rewrite (readInt8_at _ _ _ Hnth). reflexivity.
Qed.

Lemma open_short_file_witness : openConfig [] = Ok (mkConfig 2048 JETDB3).
Proof. apply open_short_file. simpl. lia. Defined.

(** ** The slot table: failures and shape *)

Lemma readLE_cases (n : nat) (buf : list Z) (off : Z) :
  (exists v, Buf.readLE n buf off = Ok v) \/ Buf.readLE n buf off = Throw RangeError.
Proof.
  unfold Buf.readLE. destruct (Buf.bytesAt buf off n); eauto.
Qed.

Lemma lift_Throw (rd : list Z -> Z -> Res Z) (size : Z) (buf : list Z) (off : Z)
    (e : Exn) :
  rd buf off = Throw e -> P.lift rd size buf off = Throw e.
Proof. intros H. unfold P.lift. by rewrite H. Qed.

(** A counted array of halfwords that does not fit the buffer throws. *)
Lemma array_uint16le_overrun (buf : list Z) :
  forall (n : nat) (off : Z),
    0 <= off -> (0 < n)%nat -> Z.of_nat (length buf) < off + 2 * Z.of_nat n ->
    P.array P.uint16le n buf off = Throw RangeError.
Proof.
  induction n as [|n IH]; intros off H0 Hn Hover; [lia|].
  cbn [P.array]. unfold P.bind at 1. unfold P.uint16le at 1.
  destruct (readLE_cases 2 buf off) as [[v Hv]|Hv].
  - rewrite (lift_Ok _ _ _ _ _ Hv).
    destruct (readLE_inv 2 _ _ _ ltac:(lia) Hv) as [_ Hfit].
    unfold P.bind at 1. rewrite (IH (off + 2)) by lia. reflexivity.
  - by rewrite (lift_Throw _ _ _ _ _ Hv).
Qed.

Lemma parseOffsets_wrong_code (config : DatabaseConfig) (buffer : list Z) (c : Z) :
  buffer !! 0%nat = Some c -> c <> 1 ->
  parseOffsets config buffer = Throw (AssertionError "pagecode").
Proof.
  intros Hc Hne. unfold parseOffsets, P.parse, dataPageParser.
  unfold P.bind at 1. unfold P.uint8 at 1.
  rewrite (lift_Ok _ _ _ _ _ (readUInt8_at buffer 0 c Hc)).
  unfold P.bind at 1, P.assert at 1.
  destruct (Z.eqb_spec c 1); [contradiction | reflexivity].
Qed.

(** X3: how [parseOffsets] fails.  An empty buffer gives a [RangeError]; a
    page whose first byte is not 0x01 (a tdef page, or the all-zero page
    read past the end of the file) fails the [pagecode] assertion whatever
    follows; a data page whose header or slot table runs past the buffer
    gives a [RangeError]. *)
Theorem parseOffsets_failures (config : DatabaseConfig) (buffer : list Z) :
  (buffer = [] -> parseOffsets config buffer = Throw RangeError)
  /\ (forall c : Z, buffer !! 0%nat = Some c -> c <> 1 ->
        parseOffsets config buffer = Throw (AssertionError "pagecode"))
  /\ (buffer !! 0%nat = Some 1 ->
      (forall numRows : Z,
         Buf.readUInt16LE buffer (numRowsAt config) = Ok numRows ->
         Z.of_nat (length buffer) < numRowsAt config + 2 + 2 * numRows) ->
      parseOffsets config buffer = Throw RangeError).
Proof.
  split; [|split].
  - intros ->. reflexivity.
  - apply parseOffsets_wrong_code.
  - intros Hcode Hover. unfold parseOffsets, P.parse, dataPageParser.
    unfold P.bind at 1. unfold P.uint8 at 1.
    rewrite (lift_Ok _ _ _ _ _ (readUInt8_at buffer 0 1 Hcode)).
    unfold P.bind at 1. unfold P.assert at 1. cbn [Z.eqb Pos.eqb].
    unfold P.bind at 1. unfold P.seek at 1. cbn [Z.add Pos.add].
    unfold P.bind at 1. unfold P.uint16le at 1.
    destruct (readLE_cases 2 buffer 2) as [[fs Hfs]|Hfs];
      [|by rewrite (lift_Throw _ _ _ _ _ Hfs)].
    rewrite (lift_Ok _ _ _ _ _ Hfs).
    unfold P.bind at 1. unfold P.uint32le at 1.
    destruct (readLE_cases 4 buffer (2 + 2)) as [[tp Htp]|Htp];
      [|by rewrite (lift_Throw _ _ _ _ _ Htp)].
    rewrite (lift_Ok _ _ _ _ _ Htp).
    unfold P.bind at 1.
    assert (Hseek : (match version config with
                     | JETDB4 => P.seek 4
                     | JETDB3 => P.ret tt
                     end) buffer (2 + 2 + 4) = Ok (tt, numRowsAt config)).
    { unfold numRowsAt. destruct (version config); reflexivity. }
    rewrite Hseek.
    unfold P.bind at 1. unfold P.uint16le at 1.
    destruct (readLE_cases 2 buffer (numRowsAt config)) as [[numRows Hnum]|Hnum];
      [|by rewrite (lift_Throw _ _ _ _ _ Hnum)].
    rewrite (lift_Ok _ _ _ _ _ Hnum).
    specialize (Hover numRows Hnum).
    destruct (readLE_inv 2 _ _ _ ltac:(lia) Hnum) as [Hh0 Hh2].
    unfold P.bind at 1.
    rewrite array_uint16le_overrun by lia. reflexivity.
Qed.

Lemma parseOffsets_failures_witness :
  parseOffsets sampleConfig (replicate 4096 0) = Throw (AssertionError "pagecode")
  /\ parseOffsets sampleConfig [1; 0; 0; 0; 0; 0; 0; 0; 0; 0; 0; 0; 3; 0; 9; 9]
     = Throw RangeError.
Proof.
  destruct (parseOffsets_failures sampleConfig (replicate 4096 0)) as (_ & Hcode & _).
  destruct (parseOffsets_failures sampleConfig
              [1; 0; 0; 0; 0; 0; 0; 0; 0; 0; 0; 0; 3; 0; 9; 9]) as (_ & _ & Hover).
  split.
  - apply (Hcode 0); [reflexivity | discriminate].
  - apply Hover; [reflexivity|]. intros numRows Hnum.
    vm_compute in Hnum. injection Hnum as <-. vm_compute. reflexivity.
Defined.

Lemma parseOffsets_inv (config : DatabaseConfig) (buffer : list Z)
    (slots : list RowOffset.t) :
  parseOffsets config buffer = Ok slots ->
  exists offsets : list Z, slots = imap (rowOffset config offsets) offsets.
Proof.
  unfold parseOffsets. intros H.
  destruct (P.parse (dataPageParser config) buffer) as [parsed|e]; [|discriminate].
  cbn in H. injection H as <-. eauto.
Qed.

Lemma land_low13 (os : Z) : 0 <= Z.land os 0x1fff <= 0x1fff.
Proof.
  change 0x1fff with (Z.ones 13). rewrite Z.land_ones by lia.
  pose proof (Z.mod_pos_bound os (2 ^ 13) ltac:(lia)).
  change (Z.ones 13) with (2 ^ 13 - 1). lia.
Qed.

(** X4: the slots that [parseOffsets] returns tile the page from its end:
    the first slot ends at the page size, every other slot ends where the
    slot before it starts, and every start lies in [0, 0x1FFF]. *)
Theorem parseOffsets_chain (config : DatabaseConfig) (buffer : list Z)
    (slots : list RowOffset.t) :
  parseOffsets config buffer = Ok slots ->
  (forall first : RowOffset.t, slots !! 0%nat = Some first ->
     RowOffset.next first = pageSize config)
  /\ (forall (i : nat) (prev slot : RowOffset.t),
        slots !! i = Some prev -> slots !! S i = Some slot ->
        RowOffset.next slot = RowOffset.offset prev)
  /\ (forall (i : nat) (slot : RowOffset.t), slots !! i = Some slot ->
        0 <= RowOffset.offset slot <= 0x1FFF).
Proof.
  intros H. destruct (parseOffsets_inv _ _ _ H) as [offsets ->].
  split; [|split].
  - intros first Hf. rewrite list_lookup_imap in Hf.
    destruct (offsets !! 0%nat); [|discriminate]. cbn in Hf.
    by injection Hf as <-.
  - intros i prev slot Hp Hs. rewrite list_lookup_imap in Hp, Hs.
    destruct (offsets !! i) as [osp|] eqn:Hosp; [|discriminate].
    destruct (offsets !! S i) as [os|]; [|discriminate].
    cbn in Hp, Hs. injection Hp as <-. injection Hs as <-.
    unfold rowOffset. cbn [RowOffset.next RowOffset.offset].
    replace (S i - 1)%nat with i by lia. rewrite Hosp. reflexivity.
  - intros i slot Hs. rewrite list_lookup_imap in Hs.
    destruct (offsets !! i) as [os|]; [|discriminate].
    cbn in Hs. injection Hs as <-. apply land_low13.
Qed.

Lemma parseOffsets_chain_witness :
  parseOffsets sampleConfig samplePage
  = Ok [RowOffset.mk 0 false 4079 4096; RowOffset.mk 0 true 4064 4079]
  /\ RowOffset.next (RowOffset.mk 0 true 4064 4079)
     = RowOffset.offset (RowOffset.mk 0 false 4079 4096)
  /\ 0 <= RowOffset.offset (RowOffset.mk 0 true 4064 4079) <= 0x1FFF.
Proof.
  assert (Hpage : parseOffsets sampleConfig samplePage
                  = Ok [RowOffset.mk 0 false 4079 4096;
                        RowOffset.mk 0 true 4064 4079])
    by (vm_compute; reflexivity).
  destruct (parseOffsets_chain sampleConfig samplePage _ Hpage)
    as (_ & Hnext & Hrange).
  split; [exact Hpage|]. split.
  - apply (Hnext 0%nat); reflexivity.
  - apply (Hrange 1%nat); reflexivity.
Defined.

(** X5: the shape of what [readRowsForPage] returns: no more rows than
    slots; row [k] is numbered [k]; every row has one entry per column of
    the schema, in schema order, carrying that column's number, type and
    name. *)
Theorem readRowsForPage_shape (rt : Runtime) (config : DatabaseConfig)
    (file buffer : list Z) (schema : Tdef.t) (rows : list RowData.t) :
  readRowsForPage rt config file buffer schema = Ok rows ->
  (exists slots : list RowOffset.t,
     parseOffsets config buffer = Ok slots
     /\ (length rows <= length slots)%nat)
  /\ forall (k : nat) (row : RowData.t), rows !! k = Some row ->
       RowData.number row = k
       /\ length (RowData.columns row) = length (Tdef.cols schema)
       /\ forall (j : nat) (cd : ColumnData.t),
            RowData.columns row !! j = Some cd ->
            exists (column : TdefColumn.t) (colName : TdefColumnName.t),
              Tdef.cols schema !! j = Some column
              /\ Tdef.colNames schema !! j = Some colName
              /\ ColumnData.position cd = TdefColumn.number column
              /\ ColumnData.type cd = TdefColumn.type column
              /\ ColumnData.name cd = TdefColumnName.name colName.
Proof.
  intros Hrows.
  destruct (readRowsForPage_rows _ _ _ _ _ _ Hrows) as (slots & Hslots & Hlen & Hk).
  split.
  - exists slots. split; [exact Hslots|].
    rewrite Hlen. unfold liveSlots. apply length_filter.
  - intros k row Hrow.
    destruct (Hk k row Hrow) as (slot & _ & _ & Hdec).
    destruct (decodeRow_columns _ _ _ _ _ _ _ _ Hdec)
      as (varOffsets & nullMask & _ & Hnum & Hcount & Hcols).
    split; [exact Hnum|]. split; [exact Hcount|].
    intros j cd Hcd.
    destruct (Hcols j cd Hcd) as (column & Hcol & Hcdec).
    destruct (decodeColumn_inv _ _ _ _ _ _ _ _ _ _ Hcdec)
      as (start & len & value & colName & _ & Hname & _ & ->).
    exists column, colName. auto.
Qed.

Lemma readRowsForPage_shape_witness :
  exists slots : list RowOffset.t,
    parseOffsets sampleConfig samplePage = Ok slots
    /\ (1 <= length slots)%nat.
Proof.
  destruct (readRowsForPage_shape sampleRuntime sampleConfig [] samplePage
              sampleSchema
              [ RowData.mk 0
                  [ ColumnData.mk 0 [7; 0; 0; 0] 4 [65] true (VNumber 7);
                    ColumnData.mk 1 [255; 254; 104; 105] 10 [66] false
                      (VString [104; 105]) ] ])
    as [(slots & Hs & Hl) _].
  - vm_compute. reflexivity.
  - exists slots. split; [exact Hs | exact Hl].
Defined.

Lemma liveSlots_none (slots : list RowOffset.t) :
  Forall (fun s => RowOffset.delFlag s = true) slots -> liveSlots slots = [].
Proof.
  unfold liveSlots. induction 1 as [|s slots Hs _ IH]; [reflexivity|].
  rewrite filter_cons_False; [exact IH|]. rewrite Hs. cbn. tauto.
Qed.

(** X6: a data page all of whose slot entries carry the deleted flag (an
    empty slot table included) yields no rows, for every schema, and the
    row bytes are never looked at. *)
Theorem readRowsForPage_all_deleted (rt : Runtime) (config : DatabaseConfig)
    (file buffer : list Z) (schema : Tdef.t) (numRows : Z) :
  buffer !! 0%nat = Some 1 ->
  Buf.readUInt16LE buffer (numRowsAt config) = Ok numRows ->
  numRowsAt config + 2 + 2 * numRows <= Z.of_nat (length buffer) ->
  (forall (i : nat) (os : Z), (i < Z.to_nat numRows)%nat ->
     Buf.readUInt16LE buffer (numRowsAt config + 2 + 2 * Z.of_nat i) = Ok os ->
     Z.land os 0x4000 <> 0) ->
  readRowsForPage rt config file buffer schema = Ok [].
Proof.
  intros Hcode Hnum Hfit Hdel.
  destruct (dataPageParser_ok config buffer numRows Hcode Hnum Hfit)
    as (fs & tp & offsets & Hparse & Hlen & Hnth).
  unfold readRowsForPage, parseOffsets. rewrite Hparse. cbn [mbind Res_bind].
  cbn [DataPage.offsets].
  assert (Hnone : filter (fun p => negb (RowOffset.delFlag p))
                    (imap (rowOffset config offsets) offsets) = []).
  { apply liveSlots_none. apply Forall_forall. intros slot Hin.
    apply list_elem_of_lookup in Hin as [i Hi].
    rewrite list_lookup_imap in Hi.
    destruct (offsets !! i) as [os|] eqn:Hos; [|discriminate].
    cbn in Hi. injection Hi as <-.
    unfold rowOffset. cbn [RowOffset.delFlag].
    assert (Hi : (i < Z.to_nat numRows)%nat).
    { rewrite <- Hlen. eapply lookup_lt_Some. exact Hos. }
    specialize (Hdel i os Hi (Hnth i os Hos)).
    by destruct (Z.eqb_spec (Z.land os 0x4000) 0). }
  rewrite Hnone. reflexivity.
Qed.

Lemma readRowsForPage_all_deleted_witness :
  readRowsForPage sampleRuntime sampleConfig []
    ([1; 0; 0; 0; 0; 0; 0; 0; 0; 0; 0; 0] ++ [1; 0] ++ [0xe0; 0x4f])
    sampleSchema = Ok [].
Proof.
  apply (readRowsForPage_all_deleted sampleRuntime sampleConfig []
           ([1; 0; 0; 0; 0; 0; 0; 0; 0; 0; 0; 0] ++ [1; 0] ++ [0xe0; 0x4f])
           sampleSchema 1).
  - reflexivity.
  - reflexivity.
  - vm_compute. discriminate.
  - intros i os Hi Hos. assert (i = 0%nat) as -> by (vm_compute in Hi; lia).
    vm_compute in Hos. injection Hos as <-. vm_compute. discriminate.
Defined.

(** ** The row trailer *)

Lemma array_lift_inv (rd : list Z -> Z -> Res Z) (size : Z) (buf : list Z) :
  forall (n : nat) (off : Z) (l : list Z) (off' : Z),
    P.array (P.lift rd size) n buf off = Ok (l, off') ->
    length l = n
    /\ forall (i : nat) (x : Z), l !! i = Some x ->
         rd buf (off + size * Z.of_nat i) = Ok x.
Proof.
  induction n as [|n IH]; intros off l off' H.
  - cbn in H. injection H as <- <-. split; [reflexivity|].
    intros i x Hi. rewrite lookup_nil in Hi. discriminate.
  - cbn [P.array] in H. unfold P.bind at 1 in H. unfold P.lift at 1 in H.
    destruct (rd buf off) as [v|e] eqn:Hv; [|discriminate].
    unfold P.bind at 1 in H.
    destruct (P.array (P.lift rd size) n buf (off + size)) as [[l' o']|e] eqn:Hl;
      [|discriminate].
    cbn in H. injection H as <- <-.
    destruct (IH _ _ _ Hl) as [Hlen Hnth].
    split; [simpl; by rewrite Hlen|].
    intros [|i] x Hi; simpl in Hi.
    + injection Hi as <-. by rewrite Z.mul_0_r, Z.add_0_r.
    + replace (off + size * Z.of_nat (S i)) with (off + size + size * Z.of_nat i)
        by lia.
      by apply Hnth.
Qed.

Lemma array_bits8_inv (buf : list Z) :
  forall (n : nat) (off : Z) (l : list (list Z)) (off' : Z),
    P.array P.bits8 n buf off = Ok (l, off') ->
    length l = n
    /\ forall (i : nat) (bits : list Z), l !! i = Some bits ->
         exists b : Z,
           Buf.readUInt8 buf (off + Z.of_nat i) = Ok b /\ bits = P.bitsOfByte b.
Proof.
  induction n as [|n IH]; intros off l off' H.
  - cbn in H. injection H as <- <-. split; [reflexivity|].
    intros i x Hi. rewrite lookup_nil in Hi. discriminate.
  - cbn [P.array] in H. unfold P.bind at 1 in H. unfold P.bits8 at 1 in H.
    unfold P.bind at 1 in H. unfold P.uint8 at 1, P.lift at 1 in H.
    destruct (Buf.readUInt8 buf off) as [b|e] eqn:Hb; [|discriminate].
    unfold P.ret at 1 in H. unfold P.bind at 1 in H.
    destruct (P.array P.bits8 n buf (off + 1)) as [[l' o']|e] eqn:Hl;
      [|discriminate].
    cbn in H. injection H as <- <-.
    destruct (IH _ _ _ Hl) as [Hlen Hnth].
    split; [simpl; by rewrite Hlen|].
    intros [|i] bits Hi; simpl in Hi.
    + injection Hi as <-. exists b. by rewrite Z.add_0_r.
    + replace (off + Z.of_nat (S i)) with (off + 1 + Z.of_nat i) by lia.
      by apply Hnth.
Qed.

Lemma arrayLit_inv {A : Type} (rt : Runtime) (p : Parser A) (n : Z)
    (buf : list Z) (off : Z) (r : list A * Z) :
  arrayLit rt p n buf off = Ok r -> P.array p (Z.to_nat n) buf off = Ok r.
Proof.
  unfold arrayLit. destruct (arrayRejectsZero rt && (n =? 0)); [discriminate|].
  auto.
Qed.

Lemma parse_seek {A : Type} (k : Z) (q : Parser A) (buf : list Z) :
  P.parse (P.bind (P.seek k) (fun _ => q)) buf
  = match q buf k with
    | Ok (a, _) => Ok a
    | Throw e => Throw e
    end.
Proof. reflexivity. Qed.

Lemma varLenType_lift (config : DatabaseConfig) :
  varLenType config = P.lift (readVar config) (varLenSize config).
Proof. unfold varLenType, readVar, varLenSize. by destruct (version config). Qed.

Lemma concat_length8 (groups : list (list Z)) :
  Forall (fun g => length g = 8%nat) groups ->
  length (concat groups) = (8 * length groups)%nat.
Proof.
  induction 1 as [|g groups Hg _ IH]; [reflexivity|].
  change (concat (g :: groups)) with (g ++ concat groups).
  rewrite length_app, Hg, IH. simpl. lia.
Qed.

(** Looking up bit [k] of a concatenation of groups of eight. *)
Lemma concat_lookup8 (groups : list (list Z)) :
  Forall (fun g => length g = 8%nat) groups ->
  forall (k : nat) (x : Z),
    concat groups !! k = Some x ->
    exists g : list Z, groups !! (k / 8)%nat = Some g /\ g !! (k mod 8)%nat = Some x.
Proof.
  induction 1 as [|g groups Hg _ IH]; intros k x Hk.
  - cbn in Hk. rewrite lookup_nil in Hk. discriminate.
  - cbn [concat] in Hk.
    destruct (decide (k < 8)%nat) as [Hlt|Hge].
    + rewrite lookup_app_l in Hk by lia.
      exists g. rewrite Nat.div_small, Nat.mod_small by lia. by split.
    + rewrite lookup_app_r in Hk by lia. rewrite Hg in Hk.
      destruct (IH _ _ Hk) as (g' & Hg' & Hx).
      exists g'.
      replace k with (k - 8 + 1 * 8)%nat at 1 2 by lia.
      rewrite Nat.div_add, Nat.Div0.mod_add by lia.
      replace ((k - 8) / 8 + 1)%nat with (S ((k - 8) / 8)) by lia.
      by split.
Qed.

(** X7: the layout of a row trailer as [readRowsForPage] reads it.  With
    [nullMaskSize = floor((columnsInRow + 7) / 8)]: the null mask is the
    last [nullMaskSize] bytes of the slot, bit [k] being bit [k mod 8] of
    byte [k / 8]; before it comes [varLen]; and [varOffsets[i]], for [i]
    from 0 to [varLen], is the entry stored at
    [next - nullMaskSize - varLenSize * (i + 2)], so that [varOffsets] has
    [varLen + 1] entries, the last one the end-of-data offset. *)
Theorem rowTrailer_layout (rt : Runtime) (config : DatabaseConfig)
    (buffer : list Z) (slot : RowOffset.t) (varOffsets nullMask : list Z) :
  rowTrailer rt config buffer slot = Ok (varOffsets, nullMask) ->
  exists columnsInRow varLen : Z,
    let nullMaskSize := (columnsInRow + 7) / 8 in
    let next := RowOffset.next slot in
    readVar config buffer (RowOffset.offset slot) = Ok columnsInRow
    /\ readVar config buffer (next - varLenSize config - nullMaskSize) = Ok varLen
    /\ length varOffsets = S (Z.to_nat varLen)
    /\ (0 <= varLen ->
        forall (i : nat) (x : Z), varOffsets !! i = Some x ->
          readVar config buffer
            (next - nullMaskSize - varLenSize config * (Z.of_nat i + 2)) = Ok x)
    /\ length nullMask = (8 * Z.to_nat nullMaskSize)%nat
    /\ forall (k : nat) (bit : Z), nullMask !! k = Some bit ->
         exists b : Z,
           Buf.readUInt8 buffer (next - nullMaskSize + Z.of_nat (k / 8)) = Ok b
           /\ bit = Z.land (Z.shiftr b (Z.of_nat (k mod 8))) 1.
Proof.
  unfold rowTrailer. intros H.
  destruct (readVar config buffer (RowOffset.offset slot)) as [columnsInRow|e]
    eqn:Hcols; [|discriminate].
  cbn [mbind Res_bind] in H.
  set (nms := (columnsInRow + 7) / 8) in *.
  set (next := RowOffset.next slot) in *.
  set (vls := varLenSize config) in *.
  destruct (readVar config buffer (next - vls - nms)) as [varLen|e] eqn:Hvl;
    [|discriminate].
  cbn [mbind Res_bind] in H. rewrite !parse_seek in H.
  destruct (arrayLit rt (varLenType config) varLen buffer
              (next - vls - nms - varLen * vls)) as [[vo0 o1]|e] eqn:Hvo;
    cbn [mbind Res_bind] in H; [|discriminate].
  destruct (readVar config buffer (next - vls - nms - vls * varLen - vls))
    as [eod|e] eqn:Heod; [|discriminate].
  cbn [mbind Res_bind] in H.
  destruct (arrayLit rt P.bits8 nms buffer (next - nms)) as [[nm0 o2]|e]
    eqn:Hnm; cbn [mbind Res_bind] in H; [|discriminate].
  injection H as <- <-.
  apply arrayLit_inv in Hvo, Hnm.
  rewrite varLenType_lift in Hvo.
  destruct (array_lift_inv _ _ _ _ _ _ _ Hvo) as [Hvolen Hvonth].
  destruct (array_bits8_inv _ _ _ _ _ Hnm) as [Hnmlen Hnmnth].
  exists columnsInRow, varLen. cbn zeta. fold nms next vls.
  split; [reflexivity|]. split; [exact Hvl|].
  split; [rewrite length_app, length_reverse, Hvolen; simpl; lia|].
  split; [|split].
  - intros Hpos i x Hi.
    destruct (decide (i < Z.to_nat varLen)%nat) as [Hlt|Hge].
    + rewrite lookup_app_l in Hi by (rewrite length_reverse; lia).
      rewrite reverse_lookup in Hi by lia.
      apply Hvonth in Hi. rewrite <- Hi. f_equal. rewrite Hvolen.
      replace (Z.of_nat (Z.to_nat varLen - S i)) with (varLen - Z.of_nat i - 1)
        by lia.
      unfold vls. ring.
    + rewrite lookup_app_r in Hi by (rewrite length_reverse; lia).
      rewrite length_reverse, Hvolen in Hi.
      destruct (i - Z.to_nat varLen)%nat as [|j] eqn:Hj; [|discriminate].
      cbn in Hi. injection Hi as <-. rewrite <- Heod. f_equal.
      replace (Z.of_nat i) with varLen by lia. unfold vls. ring.
  - assert (Hall : Forall (fun g => length g = 8%nat) nm0).
    { apply Forall_forall. intros g Hg.
      apply list_elem_of_lookup in Hg as [i Hi].
      destruct (Hnmnth i g Hi) as (b & _ & ->). reflexivity. }
    rewrite <- Hnmlen. by apply concat_length8.
  - intros k bit Hk.
    assert (Hall : Forall (fun g => length g = 8%nat) nm0).
    { apply Forall_forall. intros g Hg.
      apply list_elem_of_lookup in Hg as [i Hi].
      destruct (Hnmnth i g Hi) as (b & _ & ->). reflexivity. }
    destruct (concat_lookup8 nm0 Hall k bit Hk) as (g & Hg & Hbit).
    destruct (Hnmnth _ _ Hg) as (b & Hb & ->).
    exists b. split; [exact Hb|].
    unfold P.bitsOfByte in Hbit. rewrite list_lookup_fmap in Hbit.
    assert (Hm : (k mod 8 < 8)%nat) by (apply Nat.mod_upper_bound; lia).
    destruct (k mod 8)%nat as [|[|[|[|[|[|[|[|m]]]]]]]]; try lia;
      cbn in Hbit; by injection Hbit as <-.
Qed.

Lemma rowTrailer_layout_witness :
  exists columnsInRow varLen : Z,
    readVar sampleConfig samplePage 4079 = Ok columnsInRow
    /\ readVar sampleConfig samplePage
         (4096 - varLenSize sampleConfig - (columnsInRow + 7) / 8) = Ok varLen.
Proof.
  destruct (rowTrailer_layout sampleRuntime sampleConfig samplePage
              (RowOffset.mk 0 false 4079 4096) [6; 10] [0; 1; 0; 0; 0; 0; 0; 0])
    as (columnsInRow & varLen & Hc & Hv & _).
  - vm_compute. reflexivity.
  - exists columnsInRow, varLen. split; [exact Hc | exact Hv].
Defined.

(** ** Fixed-length columns and scalar values *)

(** X8: in every row that [readRowsForPage] returns, a column whose bitmask
    has bit 0 set is sliced at [offset + offsetF + varLenSize] with the
    length of its descriptor, and when that length is positive its value
    is what [parseColumn] decodes there. *)
Theorem fixed_column_slice (rt : Runtime) (config : DatabaseConfig)
    (file buffer : list Z) (schema : Tdef.t) (rows : list RowData.t)
    (k : nat) (row : RowData.t) :
  readRowsForPage rt config file buffer schema = Ok rows ->
  rows !! k = Some row ->
  exists (slots : list RowOffset.t) (slot : RowOffset.t),
    parseOffsets config buffer = Ok slots
    /\ liveSlots slots !! k = Some slot
    /\ forall (j : nat) (column : TdefColumn.t) (cd : ColumnData.t),
         Tdef.cols schema !! j = Some column ->
         RowData.columns row !! j = Some cd ->
         Z.land (TdefColumn.bitmask column) 0x01 = 1 ->
         let start :=
           RowOffset.offset slot + TdefColumn.offsetF column + varLenSize config in
         ColumnData.rawValue cd
         = Buf.subarray buffer (Some start)
             (Some (start + TdefColumn.length column))
         /\ (0 < TdefColumn.length column ->
             parseColumn config file buffer column (Some start)
               (TdefColumn.length column) = Ok (ColumnData.value cd)).
Proof.
  intros Hrows Hrow.
  destruct (readRowsForPage_rows _ _ _ _ _ _ Hrows) as (slots & Hslots & _ & Hk).
  destruct (Hk k row Hrow) as (slot & Hslot & _ & Hdec).
  exists slots, slot. split; [exact Hslots|]. split; [exact Hslot|].
  destruct (decodeRow_columns _ _ _ _ _ _ _ _ Hdec)
    as (varOffsets & nullMask & _ & _ & _ & Hcols).
  intros j column cd Hcol Hcd Hbit start.
  destruct (Hcols j cd Hcd) as (column' & Hcol' & Hcdec).
  assert (column' = column) as -> by congruence.
  destruct (decodeColumn_inv _ _ _ _ _ _ _ _ _ _ Hcdec)
    as (st & len & value & colName & Hslice & _ & Hval & ->).
  unfold columnSlice in Hslice. rewrite Hbit in Hslice. cbn [Z.eqb Pos.eqb] in Hslice.
  injection Hslice as <- <-. cbn [ColumnData.rawValue ColumnData.value nadd].
  split; [reflexivity|].
  intros Hpos. fold start in Hval.
  destruct (Z.ltb_spec 0 (TdefColumn.length column)); [exact Hval | lia].
Qed.

Lemma fixed_column_slice_witness :
  exists (slots : list RowOffset.t) (slot : RowOffset.t),
    parseOffsets sampleConfig samplePage = Ok slots
    /\ liveSlots slots !! 0%nat = Some slot.
Proof.
  destruct (fixed_column_slice sampleRuntime sampleConfig [] samplePage
              sampleSchema
              [ RowData.mk 0
                  [ ColumnData.mk 0 [7; 0; 0; 0] 4 [65] true (VNumber 7);
                    ColumnData.mk 1 [255; 254; 104; 105] 10 [66] false
                      (VString [104; 105]) ] ]
              0
              (RowData.mk 0
                 [ ColumnData.mk 0 [7; 0; 0; 0] 4 [65] true (VNumber 7);
                   ColumnData.mk 1 [255; 254; 104; 105] 10 [66] false
                     (VString [104; 105]) ]))
    as (slots & slot & Hs & Hl & _).
  - vm_compute. reflexivity.
  - reflexivity.
  - exists slots, slot. split; assumption.
Defined.

Lemma le_range (bs : list Z) :
  Forall (fun b => 0 <= b < 256) bs -> 0 <= Buf.le bs < 256 ^ Z.of_nat (length bs).
Proof.
  induction 1 as [|b bs Hb _ IH]; [cbn; lia|].
  cbn [Buf.le length]. rewrite Nat2Z.inj_succ, Z.pow_succ_r by lia. lia.
Qed.

Lemma readLE_range (n : nat) (buf : list Z) (off v : Z) :
  Forall (fun b => 0 <= b < 256) buf ->
  Buf.readLE n buf off = Ok v -> 0 <= v < 256 ^ Z.of_nat n.
Proof.
  intros Hbuf. unfold Buf.readLE, Buf.bytesAt.
  destruct (off <? 0); [discriminate|].
  destruct (Nat.eqb_spec (length (take n (drop (Z.to_nat off) buf))) n) as [Hl|?];
    [|discriminate].
  intros H. injection H as <-.
  pose proof (le_range (take n (drop (Z.to_nat off) buf))
                ltac:(by apply Forall_take, Forall_drop)) as Hr.
  by rewrite Hl in Hr.
Qed.

Lemma readUInt8_range (buf : list Z) (off v : Z) :
  Forall (fun b => 0 <= b < 256) buf ->
  Buf.readUInt8 buf off = Ok v -> 0 <= v < 256.
Proof.
  intros Hbuf. unfold Buf.readUInt8, jsGet.
  destruct (off <? 0); [discriminate|].
  destruct (buf !! Z.to_nat off) as [x|] eqn:Hx; [|discriminate].
  intros H. injection H as <-.
  eapply (proj1 (Forall_lookup _ _) Hbuf). exact Hx.
Qed.

(** X9: the values of [parseColumn] by type, on a buffer of bytes: a
    Boolean is 0 or 1, a Byte is below 2^8, an Int below 2^16, a LongInt
    below 2^32, the raw Double and DateTime patterns below 2^64, and every
    other type, decoded or not, gives a string. *)
Theorem parseColumn_value_range (config : DatabaseConfig) (file buffer : list Z)
    (column : TdefColumn.t) (start : option Z) (length : Z) (v : ColumnValue) :
  Forall (fun b => 0 <= b < 256) buffer ->
  parseColumn config file buffer column start length = Ok v ->
  (TdefColumn.type column = 1 -> v = VNumber 0 \/ v = VNumber 1)
  /\ (TdefColumn.type column = 2 -> exists n, v = VNumber n /\ 0 <= n < 2 ^ 8)
  /\ (TdefColumn.type column = 3 -> exists n, v = VNumber n /\ 0 <= n < 2 ^ 16)
  /\ (TdefColumn.type column = 4 -> exists n, v = VNumber n /\ 0 <= n < 2 ^ 32)
  /\ (TdefColumn.type column = 7 -> exists n, v = VDouble n /\ 0 <= n < 2 ^ 64)
  /\ (TdefColumn.type column = 8 -> exists n, v = VBigInt n /\ 0 <= n < 2 ^ 64)
  /\ (~ In (TdefColumn.type column) [1; 2; 3; 4; 7; 8] -> exists s, v = VString s).
Proof.
  intros Hbuf H.
  assert (Hrd : forall n x, readAt (Buf.readLE n) buffer start = Ok x ->
                            0 <= x < 256 ^ Z.of_nat n).
  { intros n x Hx. destruct start as [s|]; [|discriminate].
    eapply readLE_range; eassumption. }
  assert (Hrd8 : forall x, readAt Buf.readUInt8 buffer start = Ok x -> 0 <= x < 256).
  { intros x Hx. destruct start as [s|]; [|discriminate].
    eapply readUInt8_range; eassumption. }
  unfold parseColumn in H.
  repeat split; intros Hty; try rewrite Hty in H; cbn [Z.eqb Pos.eqb] in H.
  - destruct (readAt Buf.readUInt8 buffer start) as [x|]; [|discriminate].
    cbn in H. injection H as <-. destruct (x =? 0); auto.
  - destruct (readAt Buf.readUInt8 buffer start) as [x|] eqn:Hx; [|discriminate].
    cbn in H. injection H as <-. exists x. split; [reflexivity|].
    pose proof (Hrd8 x eq_refl). lia.
  - destruct (readAt Buf.readUInt16LE buffer start) as [x|] eqn:Hx; [|discriminate].
    cbn in H. injection H as <-. exists x. split; [reflexivity|].
    apply (Hrd 2%nat) in Hx. exact Hx.
  - destruct (readAt Buf.readUInt32LE buffer start) as [x|] eqn:Hx; [|discriminate].
    cbn in H. injection H as <-. exists x. split; [reflexivity|].
    apply (Hrd 4%nat) in Hx. exact Hx.
  - destruct (readAt Buf.readDoubleLE buffer start) as [x|] eqn:Hx; [|discriminate].
    cbn in H. injection H as <-. exists x. split; [reflexivity|].
    apply (Hrd 8%nat) in Hx. exact Hx.
  - destruct (readAt Buf.readBigUInt64LE buffer start) as [x|] eqn:Hx; [|discriminate].
    cbn in H. injection H as <-. exists x. split; [reflexivity|].
    apply (Hrd 8%nat) in Hx. exact Hx.
  - repeat match type of H with
    | context [TdefColumn.type column =? ?k] =>
        destruct (Z.eqb_spec (TdefColumn.type column) k) as [E|_];
        [try (exfalso; apply Hty; rewrite E; simpl; tauto)|]
    end.
    + injection H as <-. eauto.
    + unfold unknownType in H.
      repeat match type of H with
      | context [if ?b then _ else _] => destruct b
      | context [mbind _ ?m] => destruct m; cbn in H
      | context [match ?x with _ => _ end] => destruct x
      end; try discriminate; injection H as <-; eauto.
    + injection H as <-. unfold unknownType. eauto.
Qed.

Lemma parseColumn_value_range_witness :
  exists n : Z,
    VNumber 7 = VNumber n /\ 0 <= n < 2 ^ 32.
Proof.
  destruct (parseColumn_value_range sampleConfig [] [7; 0; 0; 0]
              (TdefColumn.mk 4 0 0 0 4 1) (Some 0) 4 (VNumber 7))
    as (_ & _ & _ & H4 & _).
  - repeat (constructor; [lia|]). constructor.
  - reflexivity.
  - apply H4. reflexivity.
Defined.

(** ** Used-pages maps *)

Lemma bit_of_byte (b : Z) (j : nat) :
  Z.land (Z.shiftr b (Z.of_nat j)) 1 = if Z.testbit b (Z.of_nat j) then 1 else 0.
Proof.
  change 1 with (Z.ones 1) at 1. rewrite Z.land_ones by lia.
  change (2 ^ 1) with 2. rewrite <- Z.bit0_mod.
  rewrite Z.shiftr_spec by lia. rewrite Z.add_0_l.
  by destruct (Z.testbit b (Z.of_nat j)).
Qed.

Lemma bitsOfByte_lookup (b : Z) (j : nat) :
  (j < 8)%nat ->
  P.bitsOfByte b !! j = Some (if Z.testbit b (Z.of_nat j) then 1 else 0).
Proof.
  intros Hj. unfold P.bitsOfByte. rewrite list_lookup_fmap.
  destruct j as [|[|[|[|[|[|[|[|j]]]]]]]]; try lia;
    cbn [lookup list_lookup fmap option_fmap option_map]; f_equal.
  - exact (bit_of_byte b 0%nat).
  - exact (bit_of_byte b 1%nat).
  - exact (bit_of_byte b 2%nat).
  - exact (bit_of_byte b 3%nat).
  - exact (bit_of_byte b 4%nat).
  - exact (bit_of_byte b 5%nat).
  - exact (bit_of_byte b 6%nat).
  - exact (bit_of_byte b 7%nat).
Qed.

Lemma bits_lookup (buf : list Z) (k : nat) (x : Z) :
  concat (map P.bitsOfByte buf) !! k = Some x <->
  exists b : Z,
    buf !! (k / 8)%nat = Some b
    /\ x = if Z.testbit b (Z.of_nat (k mod 8)) then 1 else 0.
Proof.
  assert (Hm : (k mod 8 < 8)%nat) by (apply Nat.mod_upper_bound; lia).
  revert k x Hm. induction buf as [|b0 buf IH]; intros k x Hm.
  - cbn. rewrite lookup_nil. split; [discriminate|].
    intros (b & Hb & _). rewrite lookup_nil in Hb. discriminate.
  - cbn [map concat].
    destruct (decide (k < 8)%nat) as [Hlt|Hge].
    + rewrite lookup_app_l by (cbn; lia).
      rewrite Nat.div_small, Nat.mod_small by lia.
      rewrite bitsOfByte_lookup by lia. cbn [lookup list_lookup].
      split.
      * intros H. injection H as <-. eauto.
      * intros (b & Hb & ->). by injection Hb as <-.
    + destruct (Nat.le_exists_sub 8 k ltac:(lia)) as (k' & Hk' & _).
      assert (k = (k' + 1 * 8)%nat) as -> by lia. clear Hk' Hge.
      rewrite lookup_app_r by (cbn; lia).
      change (length (P.bitsOfByte b0)) with 8%nat.
      replace (k' + 1 * 8 - 8)%nat with k' by lia.
      rewrite Nat.Div0.mod_add in Hm.
      rewrite (IH k' x Hm).
      rewrite Nat.div_add, Nat.Div0.mod_add by lia.
      replace (k' / 8 + 1)%nat with (S (k' / 8)) by lia.
      reflexivity.
Qed.

Lemma pagesOfBits_elem (bits : list Z) :
  forall (c p : Z),
    p ∈ pagesOfBits c bits <->
    exists k : nat, bits !! k = Some 1 /\ p = c + Z.of_nat k.
Proof.
  induction bits as [|el bits IH]; intros c p.
  - cbn. split.
    + intros H. by apply elem_of_nil in H.
    + intros (k & Hk & _). rewrite lookup_nil in Hk. discriminate.
  - cbn [pagesOfBits].
    assert (Hrest : (exists k : nat, bits !! k = Some 1 /\ p = c + 1 + Z.of_nat k)
                    -> exists k : nat, (el :: bits) !! k = Some 1 /\ p = c + Z.of_nat k).
    { intros (k & Hk & ->). exists (S k). split; [exact Hk | lia]. }
    destruct (Z.eqb_spec el 1) as [->|Hne].
    + rewrite elem_of_cons, IH. split.
      * intros [->|H]; [exists 0%nat; split; [reflexivity | lia] | by apply Hrest].
      * intros ([|k] & Hk & ->); [left; lia|].
        right. exists k. split; [exact Hk | lia].
    + rewrite IH. split; [exact Hrest|].
      intros ([|k] & Hk & ->).
      * cbn in Hk. congruence.
      * exists k. split; [exact Hk | lia].
Qed.

Lemma pagesOfBits_sorted (bits : list Z) :
  forall c : Z, StronglySorted Z.lt (pagesOfBits c bits).
Proof.
  induction bits as [|el bits IH]; intros c; [constructor|].
  cbn [pagesOfBits]. destruct (el =? 1); [|apply IH].
  constructor; [apply IH|].
  apply Forall_forall. intros p Hp.
  apply pagesOfBits_elem in Hp as (k & _ & ->). lia.
Qed.

Lemma readPageBitmap_elem (buf : list Z) (pageStart p : Z) :
  p ∈ readPageBitmap buf pageStart <->
  exists (i : nat) (b : Z) (j : nat),
    buf !! i = Some b /\ (j < 8)%nat /\ Z.testbit b (Z.of_nat j) = true
    /\ p = pageStart + 8 * Z.of_nat i + Z.of_nat j.
Proof.
  unfold readPageBitmap. rewrite pagesOfBits_elem. split.
  - intros (k & Hk & ->). apply bits_lookup in Hk as (b & Hb & Hbit).
    exists (k / 8)%nat, b, (k mod 8)%nat.
    split; [exact Hb|]. split; [apply Nat.mod_upper_bound; lia|].
    split; [by destruct (Z.testbit b (Z.of_nat (k mod 8)))|].
    pose proof (Nat.div_mod_eq k 8). lia.
  - intros (i & b & j & Hb & Hj & Hbit & ->).
    exists (8 * i + j)%nat. split; [|lia].
    apply bits_lookup. exists b.
    replace (8 * i + j)%nat with (j + i * 8)%nat by lia.
    rewrite Nat.div_add, Nat.Div0.mod_add, Nat.div_small, Nat.mod_small by lia.
    split; [exact Hb|]. by rewrite Hbit.
Qed.

(** X10: [readPageBitmap] returns, in strictly increasing order, exactly
    the page numbers [pageStart + 8 i + j] for which bit [j] of byte [i] of
    the bitmap is set. *)
Theorem readPageBitmap_pages (buf : list Z) (pageStart : Z) :
  StronglySorted Z.lt (readPageBitmap buf pageStart)
  /\ forall p : Z,
       p ∈ readPageBitmap buf pageStart <->
       exists (i : nat) (b : Z) (j : nat),
         buf !! i = Some b /\ (j < 8)%nat /\ Z.testbit b (Z.of_nat j) = true
         /\ p = pageStart + 8 * Z.of_nat i + Z.of_nat j.
Proof.
  split; [apply pagesOfBits_sorted | apply readPageBitmap_elem].
Qed.

Lemma readPageBitmap_bounds (buf : list Z) (pageStart p : Z) :
  p ∈ readPageBitmap buf pageStart ->
  pageStart <= p < pageStart + 8 * Z.of_nat (length buf).
Proof.
  intros Hp. apply readPageBitmap_elem in Hp as (i & b & j & Hb & Hj & _ & ->).
  apply lookup_lt_Some in Hb. lia.
Qed.

(** Lists that are sorted and lie in consecutive windows of width [w]
    concatenate to a sorted list. *)
Lemma concat_windows_sorted (w : Z) (ls : list (list Z)) :
  0 <= w ->
  forall i : nat,
    (forall (k : nat) (l : list Z), ls !! k = Some l ->
       StronglySorted Z.lt l
       /\ Forall (fun p => Z.of_nat (i + k) * w <= p < Z.of_nat (i + k) * w + w) l) ->
    StronglySorted Z.lt (concat ls)
    /\ Forall (fun p => Z.of_nat i * w <= p) (concat ls).
Proof.
  intros Hw. induction ls as [|l ls IH]; intros i Hall.
  - cbn. split; constructor.
  - destruct (Hall 0%nat l eq_refl) as [Hl Hbl]. rewrite Nat.add_0_r in Hbl.
    destruct (IH (S i)) as [Hs Hb].
    { intros k l' Hk. specialize (Hall (S k) l' Hk).
      by replace (i + S k)%nat with (S i + k)%nat in Hall by lia. }
    cbn [concat]. split.
    + apply StronglySorted_app_2; [|exact Hl|exact Hs].
      intros x1 x2 H1 H2.
      apply (proj1 (Forall_forall _ _) Hbl) in H1.
      apply (proj1 (Forall_forall _ _) Hb) in H2. nia.
    + apply Forall_app. split.
      * eapply Forall_impl; [exact Hbl|]. cbn. intros; lia.
      * eapply Forall_impl; [exact Hb|]. cbn. intros; nia.
Qed.

Lemma parse_bitmap_page (pageBuf : list Z) :
  P.parse (P.bind (P.seek 4) (fun _ => P.bufferEof)) pageBuf = Ok (drop 4 pageBuf).
Proof.
  rewrite parse_seek. unfold P.bufferEof.
  by rewrite subarray_to_end by lia.
Qed.

Lemma parseUsedPagesMap_increasing (config : DatabaseConfig) (file buf : list Z)
    (pages : list Z) :
  4 <= pageSize config ->
  parseUsedPagesMap config file buf = Ok pages ->
  StronglySorted Z.lt pages.
Proof.
  intros Hps. unfold parseUsedPagesMap.
  destruct (P.parse _ buf) as [[mapType bitmap]|e]; [|discriminate].
  cbn [mbind Res_bind].
  destruct (mapType =? 1).
  - destruct (uint32sEof bitmap) as [entries|e]; [|discriminate].
    cbn [mbind Res_bind].
    destruct (mapMi _ entries) as [found|e] eqn:Hfound; [|discriminate].
    cbn [mbind Res_bind]. intros H. injection H as <-.
    destruct (mapMi_from_Ok _ _ _ _ Hfound) as [_ Hnth].
    apply (concat_windows_sorted ((pageSize config - 4) * 8) found ltac:(lia) 0%nat).
    intros k l Hk. destruct (Hnth k l Hk) as (pageNumber & _ & Hl).
    cbn beta in Hl.
    destruct (Z.ltb_spec 0 pageNumber) as [Hpos|_];
      [|injection Hl as <-; split; constructor].
    destruct (readBuffer_lookup file (pageSize config) pageNumber
                ltac:(lia) ltac:(lia)) as (pageBuf & Hbuf & Hlen & _).
    rewrite Hbuf in Hl. cbn [mbind Res_bind] in Hl.
    rewrite parse_bitmap_page in Hl. cbn [mbind Res_bind] in Hl.
    injection Hl as <-. split; [apply pagesOfBits_sorted|].
    apply Forall_forall. intros p Hp.
    apply readPageBitmap_bounds in Hp. rewrite length_drop in Hp. lia.
  - destruct (P.parse _ bitmap) as [[pageStart pageBits]|e]; [|discriminate].
    cbn [mbind Res_bind]. intros H. injection H as <-.
    apply pagesOfBits_sorted.
Qed.

(** X11: on a database whose page size is at least 4, the list of pages
    that [parseUsedPagesMap] returns is strictly increasing, for both map
    encodings: no page is listed twice and the pages come in file order. *)
Theorem parseUsedPagesMap_sorted (config : DatabaseConfig) (file buf : list Z)
    (pages : list Z) :
  4 <= pageSize config ->
  parseUsedPagesMap config file buf = Ok pages ->
  StronglySorted Z.lt pages.
Proof. apply parseUsedPagesMap_increasing. Qed.

Lemma parseUsedPagesMap_sorted_witness : StronglySorted Z.lt [2].
Proof.
  apply (parseUsedPagesMap_sorted sampleConfig sampleFile
           (replicate 14 0 ++ [16; 0] ++ [0] ++ [0; 0; 0; 0] ++ [4]
            ++ replicate (4096 - 22) 0)).
  - cbn. lia.
  - vm_compute. reflexivity.
Defined.

Lemma readLE_drop (n : nat) (buf : list Z) (k : nat) :
  Buf.readLE n (drop k buf) 0 = Buf.readLE n buf (Z.of_nat k).
Proof.
  unfold Buf.readLE, Buf.bytesAt.
  destruct (Z.ltb_spec (Z.of_nat k) 0) as [?|_]; [lia|].
  cbn [Z.ltb Z.compare Z.to_nat]. by rewrite drop_0, Nat2Z.id.
Qed.

Lemma usedPagesHeader_ok (skip : Z) (buf : list Z) (fpa mapType : Z) :
  0 <= fpa ->
  Buf.readUInt16LE buf skip = Ok fpa ->
  Buf.readUInt8 buf fpa = Ok mapType ->
  P.parse (P.bind (P.seek skip) (fun _ =>
           P.bind P.uint16le (fun firstPageApplies =>
           P.bind (P.seek (firstPageApplies - (skip + 2))) (fun _ =>
           P.bind P.uint8 (fun mapType =>
           P.bind P.bufferEof (fun bitmap => P.ret (mapType, bitmap))))))) buf
  = Ok (mapType, drop (Z.to_nat (fpa + 1)) buf).
Proof.
  intros Hfpa Hrd Hmt. rewrite parse_seek.
  unfold P.bind at 1. unfold P.uint16le at 1. rewrite (lift_Ok _ _ _ _ _ Hrd).
  unfold P.bind at 1. unfold P.seek at 1.
  replace (skip + 2 + (fpa - (skip + 2))) with fpa by ring.
  unfold P.bind at 1. unfold P.uint8 at 1. rewrite (lift_Ok _ _ _ _ _ Hmt).
  unfold P.bind at 1. unfold P.bufferEof at 1. unfold P.ret.
  by rewrite subarray_to_end by lia.
Qed.

(** X12: the inline used-pages map.  With [firstPageApplies] the halfword
    at offset 10 (JET3) or 14 (JET4): the map type is the byte at
    [firstPageApplies]; for every map type other than 1, [pageStart] is the
    word after it and the bitmap starts 5 bytes after [firstPageApplies];
    the pages returned are exactly [pageStart + 8 i + j] for the set bits
    [j] of the bitmap bytes [i]. *)
Theorem parseUsedPagesMap_inline (config : DatabaseConfig) (file buf : list Z)
    (fpa mapType pageStart : Z) :
  Buf.readUInt16LE buf (match version config with JETDB3 => 10 | JETDB4 => 14 end)
    = Ok fpa ->
  0 <= fpa ->
  Buf.readUInt8 buf fpa = Ok mapType ->
  mapType <> 1 ->
  Buf.readUInt32LE buf (fpa + 1) = Ok pageStart ->
  exists pages : list Z,
    parseUsedPagesMap config file buf = Ok pages
    /\ forall p : Z,
         p ∈ pages <->
         exists (i : nat) (b : Z) (j : nat),
           buf !! (Z.to_nat fpa + 5 + i)%nat = Some b
           /\ (j < 8)%nat /\ Z.testbit b (Z.of_nat j) = true
           /\ p = pageStart + 8 * Z.of_nat i + Z.of_nat j.
Proof.
  intros Hrd Hfpa Hmt Hne Hps.
  exists (readPageBitmap (drop (Z.to_nat fpa + 5) buf) pageStart). split.
  - unfold parseUsedPagesMap. cbv zeta.
    rewrite (usedPagesHeader_ok _ buf fpa mapType Hfpa Hrd Hmt).
    cbn [mbind Res_bind].
    destruct (Z.eqb_spec mapType 1) as [?|_]; [contradiction|].
    unfold P.parse. unfold P.bind at 1. unfold P.uint32le at 1.
    assert (Hps' : Buf.readUInt32LE (drop (Z.to_nat (fpa + 1)) buf) 0 = Ok pageStart).
    { unfold Buf.readUInt32LE. rewrite readLE_drop.
      rewrite Z2Nat.id by lia. exact Hps. }
    rewrite (lift_Ok _ _ _ _ _ Hps').
    unfold P.bind at 1. unfold P.bufferEof at 1. unfold P.ret.
    rewrite subarray_to_end by lia. cbn [mbind Res_bind Z.add].
    rewrite drop_drop. do 3 f_equal. lia.
  - intros p. rewrite readPageBitmap_elem.
    split; intros (i & b & j & Hb & H); exists i, b, j; split; try exact H.
    + by rewrite lookup_drop in Hb.
    + by rewrite lookup_drop.
Qed.

Lemma parseUsedPagesMap_inline_witness :
  exists pages : list Z,
    parseUsedPagesMap sampleConfig sampleFile
      (replicate 14 0 ++ [16; 0] ++ [0] ++ [0; 0; 0; 0] ++ [4]
       ++ replicate (4096 - 22) 0) = Ok pages
    /\ 2 ∈ pages.
Proof.
  destruct (parseUsedPagesMap_inline sampleConfig sampleFile
              (replicate 14 0 ++ [16; 0] ++ [0] ++ [0; 0; 0; 0] ++ [4]
               ++ replicate (4096 - 22) 0) 16 0 0)
    as (pages & Hp & Hin).
  - reflexivity.
  - lia.
  - reflexivity.
  - discriminate.
  - reflexivity.
  - exists pages. split; [exact Hp|].
    apply Hin. exists 0%nat, 4, 2%nat. repeat split. lia.
Defined.

Lemma uint32sEof_inv :
  forall (entries bytes : list Z),
    uint32sEof bytes = Ok entries ->
    length bytes = (4 * length entries)%nat
    /\ forall (idx : nat) (v : Z), entries !! idx = Some v ->
         Buf.readUInt32LE bytes (4 * Z.of_nat idx) = Ok v.
Proof.
  induction entries as [|e entries IH]; intros bytes H.
  - destruct bytes as [|b0 [|b1 [|b2 [|b3 rest]]]]; cbn in H; try discriminate.
    + split; [reflexivity|]. intros idx v Hv. rewrite lookup_nil in Hv. discriminate.
    + destruct (uint32sEof rest); discriminate.
  - destruct bytes as [|b0 [|b1 [|b2 [|b3 rest]]]]; cbn in H; try discriminate.
    destruct (uint32sEof rest) as [vs|] eqn:Hrest; [|discriminate].
    cbn in H. injection H as <- <-.
    destruct (IH rest Hrest) as [Hlen Hnth].
    split; [cbn [length]; lia|].
    intros [|idx] v Hv; cbn in Hv.
    + injection Hv as <-. reflexivity.
    + apply Hnth in Hv. rewrite <- Hv.
      unfold Buf.readUInt32LE.
      replace (4 * Z.of_nat idx) with (Z.of_nat (4 * idx)) by lia.
      replace (4 * Z.of_nat (S idx)) with (Z.of_nat (4 + 4 * idx)) by lia.
      rewrite <- !readLE_drop. by rewrite <- drop_drop.
Qed.

Lemma uint32sEof_outcome (bytes : list Z) :
  if (length bytes mod 4 =? 0)%nat
  then exists entries, uint32sEof bytes = Ok entries
  else uint32sEof bytes = Throw RangeError.
Proof.
  remember (length bytes) as n eqn:Hn. revert bytes Hn.
  induction n as [n IH] using lt_wf_ind. intros bytes Hn.
  destruct bytes as [|b0 [|b1 [|b2 [|b3 rest]]]]; cbn [length] in Hn; subst n;
    try reflexivity.
  - cbn. eauto.
  - specialize (IH (length rest) ltac:(lia) rest eq_refl).
    replace (S (S (S (S (length rest))))) with (length rest + 1 * 4)%nat by lia.
    rewrite Nat.Div0.mod_add. cbn [uint32sEof].
    destruct (length rest mod 4 =? 0)%nat.
    + destruct IH as [entries ->]. cbn. eauto.
    + rewrite IH. reflexivity.
Qed.

Lemma mapMi_from_total {A B : Type} (f : nat -> A -> Res B) :
  (forall i x, exists y, f i x = Ok y) ->
  forall (l : list A) (i : nat), exists ys, mapMi_from f i l = Ok ys.
Proof.
  intros Hf. induction l as [|x l IH]; intros i; [cbn; eauto|].
  cbn [mapMi_from]. destruct (Hf i x) as [y ->].
  destruct (IH (S i)) as [ys ->]. cbn. eauto.
Qed.

Lemma elem_of_concat (ls : list (list Z)) (p : Z) :
  p ∈ concat ls <-> exists (k : nat) (l : list Z), ls !! k = Some l /\ p ∈ l.
Proof.
  induction ls as [|l ls IH]; cbn [concat].
  - split; [intros H; by apply elem_of_nil in H|].
    intros (k & l & Hk & _). rewrite lookup_nil in Hk. discriminate.
  - rewrite elem_of_app, IH. split.
    + intros [H|(k & l' & Hk & H)]; [by exists 0%nat, l | by exists (S k), l'].
    + intros ([|k] & l' & Hk & H); cbn in Hk.
      * injection Hk as <-. by left.
      * right. eauto.
Qed.

(** X13: the paged used-pages map (map type 1).  The bytes after the map
    type are an array of words; when their number is not a multiple of 4
    the call throws a [RangeError]; otherwise it succeeds, entries equal to
    0 are skipped without a page read, and a non-zero entry [idx] names a
    page whose bytes after the first four are the bitmap of the pages from
    [idx * (pageSize - 4) * 8] on. *)
Theorem parseUsedPagesMap_paged (config : DatabaseConfig) (file buf : list Z)
    (fpa : Z) :
  4 <= pageSize config ->
  Buf.readUInt16LE buf (match version config with JETDB3 => 10 | JETDB4 => 14 end)
    = Ok fpa ->
  0 <= fpa ->
  Buf.readUInt8 buf fpa = Ok 1 ->
  let area := drop (Z.to_nat (fpa + 1)) buf in
  if (length area mod 4 =? 0)%nat then
    exists pages : list Z,
      parseUsedPagesMap config file buf = Ok pages
      /\ forall p : Z,
           p ∈ pages <->
           exists (idx : nat) (pageNumber : Z) (i : nat) (j : nat),
             (4 * idx + 4 <= length area)%nat
             /\ Buf.readUInt32LE buf (fpa + 1 + 4 * Z.of_nat idx) = Ok pageNumber
             /\ 0 < pageNumber
             /\ Z.of_nat i < pageSize config - 4
             /\ (j < 8)%nat
             /\ Z.testbit
                  (default 0
                     (file !! (Z.to_nat (pageSize config * pageNumber) + 4 + i)%nat))
                  (Z.of_nat j) = true
             /\ p = Z.of_nat idx * ((pageSize config - 4) * 8)
                    + 8 * Z.of_nat i + Z.of_nat j
  else parseUsedPagesMap config file buf = Throw RangeError.
Proof.
  intros Hps Hrd Hfpa Hmt area.
  unfold parseUsedPagesMap. cbv zeta.
  rewrite (usedPagesHeader_ok _ buf fpa 1 Hfpa Hrd Hmt).
  cbn [mbind Res_bind Z.eqb Pos.eqb]. fold area.
  pose proof (uint32sEof_outcome area) as Hout.
  destruct (length area mod 4 =? 0)%nat; [|by rewrite Hout].
  destruct Hout as [entries Hentries]. rewrite Hentries. cbn [mbind Res_bind].
  destruct (uint32sEof_inv _ _ Hentries) as [Hlen Hnth].
  set (f := fun (idx : nat) (pageNumber : Z) => _).
  assert (Hf : forall idx pageNumber,
            f idx pageNumber
            = Ok (if 0 <? pageNumber
                  then readPageBitmap
                         (drop 4 (take (Z.to_nat (pageSize config))
                                    (drop (Z.to_nat (pageSize config * pageNumber)) file)
                                  ++ Buf.alloc
                                       (Z.to_nat (pageSize config)
                                        - length (take (Z.to_nat (pageSize config))
                                                    (drop (Z.to_nat (pageSize config * pageNumber)) file)))))
                         (Z.of_nat idx * ((pageSize config - 4) * 8))
                  else [])).
  { intros idx pageNumber. unfold f.
    destruct (Z.ltb_spec 0 pageNumber) as [Hpos|_]; [|reflexivity].
    rewrite readBuffer_nonneg by nia.
    cbn [mbind Res_bind]. rewrite parse_bitmap_page. reflexivity. }
  destruct (mapMi_from_total f ltac:(intros; rewrite Hf; eauto) entries 0%nat)
    as [found Hfound].
  unfold mapMi. rewrite Hfound. cbn [mbind Res_bind].
  eexists. split; [reflexivity|].
  destruct (mapMi_from_Ok _ _ _ _ Hfound) as [Hflen Hfnth].
  intros p. rewrite elem_of_concat. split.
  - intros (idx & l & Hl & Hp).
    destruct (Hfnth idx l Hl) as (pageNumber & Hpn & Hfl).
    rewrite Hf in Hfl. injection Hfl as <-.
    destruct (Z.ltb_spec 0 pageNumber) as [Hpos|_];
      [|by apply elem_of_nil in Hp].
    destruct (readBuffer_lookup file (pageSize config) pageNumber
                ltac:(lia) ltac:(lia)) as (pageBuf & Hbuf & Hblen & Hbnth).
    rewrite readBuffer_nonneg in Hbuf by nia.
    injection Hbuf as Hbuf. rewrite Hbuf in Hp.
    apply readPageBitmap_elem in Hp as (i & b & j & Hb & Hj & Hbit & ->).
    rewrite lookup_drop in Hb.
    assert (Hi : Z.of_nat (4 + i) < pageSize config).
    { apply lookup_lt_Some in Hb. lia. }
    rewrite (Hbnth (4 + i)%nat Hi) in Hb. injection Hb as <-.
    exists idx, pageNumber, i, j.
    apply lookup_lt_Some in Hpn as Hidx.
    split; [lia|]. split.
    { replace (fpa + 1 + 4 * Z.of_nat idx)
        with (Z.of_nat (Z.to_nat (fpa + 1) + 4 * idx)) by lia.
      unfold Buf.readUInt32LE. rewrite <- readLE_drop, <- drop_drop. fold area.
      rewrite readLE_drop. replace (Z.of_nat (4 * idx)) with (4 * Z.of_nat idx) by lia.
      by apply Hnth. }
    split; [exact Hpos|]. split; [lia|]. split; [exact Hj|].
    split; [|reflexivity].
    by rewrite <- Nat.add_assoc.
  - intros (idx & pageNumber & i & j & Hidx & Hpn & Hpos & Hi & Hj & Hbit & ->).
    destruct (lookup_lt_is_Some_2 entries idx ltac:(lia)) as [pn' Hpn'].
    assert (pn' = pageNumber) as ->.
    { apply Hnth in Hpn'.
      replace (fpa + 1 + 4 * Z.of_nat idx)
        with (Z.of_nat (Z.to_nat (fpa + 1) + 4 * idx)) in Hpn by lia.
      unfold Buf.readUInt32LE in Hpn, Hpn'.
      rewrite <- readLE_drop, <- drop_drop in Hpn. fold area in Hpn.
      rewrite readLE_drop in Hpn.
      replace (Z.of_nat (4 * idx)) with (4 * Z.of_nat idx) in Hpn by lia.
      congruence. }
    destruct (lookup_lt_is_Some_2 found idx ltac:(lia)) as [l Hl].
    exists idx, l. split; [exact Hl|].
    destruct (Hfnth idx l Hl) as (pn'' & Hpn'' & Hfl).
    assert (pn'' = pageNumber) as -> by congruence.
    rewrite Hf in Hfl. injection Hfl as <-.
    assert ((0 <? pageNumber) = true) as -> by lia.
    destruct (readBuffer_lookup file (pageSize config) pageNumber
                ltac:(lia) ltac:(lia)) as (pageBuf & Hbuf & Hblen & Hbnth).
    rewrite readBuffer_nonneg in Hbuf by nia.
    injection Hbuf as Hbuf. rewrite Hbuf.
    apply readPageBitmap_elem.
    eexists i, _, j. split; [|split; [exact Hj|split; [exact Hbit|reflexivity]]].
    rewrite lookup_drop. rewrite (Hbnth (4 + i)%nat ltac:(lia)).
    by rewrite <- Nat.add_assoc.
Qed.

Lemma parseUsedPagesMap_paged_witness :
  exists pages : list Z,
    parseUsedPagesMap sampleConfig samplePagedFile samplePagedMap = Ok pages
    /\ 2 ∈ pages.
Proof.
  pose proof (parseUsedPagesMap_paged sampleConfig samplePagedFile samplePagedMap 19
                ltac:(cbn; lia) eq_refl ltac:(lia) eq_refl) as H.
  cbv zeta in H.
  assert (E : (length (drop (Z.to_nat (19 + 1)) samplePagedMap) mod 4 =? 0)%nat = true)
    by (vm_compute; reflexivity).
  rewrite E in H. destruct H as (pages & Hp & Hin).
  exists pages. split; [exact Hp|].
  apply Hin. exists 0%nat, 1, 0%nat, 2%nat.
  split; [vm_compute; lia|]. split; [reflexivity|]. split; [lia|].
  split; [cbn; lia|]. split; [lia|]. split; reflexivity.
Defined.

(** ** The catalog filter *)

Lemma toInt32_u32 (x : Z) :
  0 <= x < 2 ^ 32 -> toInt32 x = if x <? 2 ^ 31 then x else x - 2 ^ 32.
Proof. intros Hx. unfold toInt32. by rewrite Z.mod_small by lia. Qed.

Lemma jsAnd_low24 (t : Z) :
  0 <= t < 2 ^ 32 -> jsAnd t 0x00ffffff = Z.land t 0xffffff.
Proof.
  intros Ht. unfold jsAnd. change (toInt32 0xffffff) with (Z.ones 24).
  change 0xffffff with (Z.ones 24). rewrite !Z.land_ones by lia.
  rewrite toInt32_u32 by exact Ht.
  destruct (t <? 2 ^ 31); [reflexivity|].
  replace (t - 2 ^ 32) with (t + (-256) * 2 ^ 24) by lia.
  apply Z_mod_plus_full.
Qed.

Lemma testbit31 (f : Z) :
  0 <= f < 2 ^ 32 -> Z.testbit f 31 = negb (f <? 2 ^ 31).
Proof.
  intros Hf. destruct (Z.ltb_spec f (2 ^ 31)) as [Hlt|Hge]; cbn [negb].
  - apply Z.testbit_false; [lia|]. rewrite Z.div_small by lia. reflexivity.
  - apply Z.testbit_true; [lia|].
    replace (f / 2 ^ 31) with 1; [reflexivity|].
    apply (Z.div_unique f (2 ^ 31) 1 (f - 2 ^ 31)); lia.
Qed.

Lemma jsAnd_flags (f : Z) :
  0 <= f < 2 ^ 32 ->
  (jsAnd f 0x80000002 = 0 <-> Z.land f 0x80000002 = 0).
Proof.
  intros Hf. unfold jsAnd. change (toInt32 0x80000002) with (-2147483646).
  rewrite toInt32_u32 by exact Hf.
  pose proof (testbit31 f Hf) as Hb.
  destruct (Z.ltb_spec f (2 ^ 31)) as [Hlt|Hge]; cbn [negb] in Hb.
  - (* bit 31 and above are clear in f: both masks act as the mask 2 *)
    assert (H1 : Z.land f (-2147483646) = Z.land f 2).
    { change (-2147483646) with (Z.lor 2 (Z.lnot (Z.ones 31))).
      rewrite Z.land_lor_distr_r.
      assert (Z.land f (Z.lnot (Z.ones 31)) = 0) as ->; [|by rewrite Z.lor_0_r].
      apply Z.bits_inj'. intros n Hn.
      rewrite Z.land_spec, Z.bits_0, Z.lnot_spec by lia.
      destruct (Z.ltb_spec n 31) as [Hn31|Hn31].
      - rewrite Z.ones_spec_low by lia. apply andb_false_r.
      - assert (Z.testbit f n = false) as ->; [|reflexivity].
        apply Z.testbit_false; [lia|].
        rewrite Z.div_small; [reflexivity|].
        pose proof (Z.pow_le_mono_r 2 31 n ltac:(lia) Hn31). lia. }
    assert (H2 : Z.land f 0x80000002 = Z.land f 2).
    { change 0x80000002 with (Z.lor 2 (2 ^ 31)).
      rewrite Z.land_lor_distr_r.
      assert (Z.land f (2 ^ 31) = 0) as ->; [|by rewrite Z.lor_0_r].
      apply Z.bits_inj'. intros n Hn. rewrite Z.land_spec, Z.bits_0.
      rewrite Z.pow2_bits_eqb by lia.
      destruct (Z.eqb_spec 31 n) as [<-|_]; [by rewrite Hb | apply andb_false_r]. }
    by rewrite H1, H2.
  - split; intros H; exfalso.
    + assert (Hneg : Z.land (f - 2 ^ 32) (-2147483646) < 0)
        by (apply Z.land_neg; lia).
      lia.
    + assert (Hbit : Z.testbit (Z.land f 0x80000002) 31 = true)
        by (rewrite Z.land_spec, Hb; reflexivity).
      rewrite H in Hbit. by rewrite Z.bits_0 in Hbit.
Qed.

(** X14: the catalog filter on a row whose [Type] and [Flags] are 32-bit
    numbers: JS's signed [&] notwithstanding, the row is a user table
    exactly when the low 24 bits of [Type] are 1 and bits 1 and 31 of
    [Flags] are clear. *)
Theorem isUserTable_bits (doubleToInt32 : Z -> Z) (row : RowData.t) (t f : Z) :
  columnValueNamed "Type" row = Some (VNumber t) ->
  columnValueNamed "Flags" row = Some (VNumber f) ->
  0 <= t < 2 ^ 32 -> 0 <= f < 2 ^ 32 ->
  (isUserTable doubleToInt32 row = true
   <-> Z.land t 0x00FFFFFF = 1 /\ Z.land f 0x80000002 = 0).
Proof.
  intros Hty Hfl Ht Hf. unfold isUserTable. rewrite Hty, Hfl.
  cbn [numberAnd]. rewrite jsAnd_low24 by exact Ht.
  rewrite andb_true_iff, !Z.eqb_eq. by rewrite jsAnd_flags.
Qed.

Lemma isUserTable_bits_witness :
  isUserTable (fun _ => 0)
    (RowData.mk 0
       [ ColumnData.mk 0 [] 4 (codeUnits "Type") false (VNumber 0x05000001);
         ColumnData.mk 1 [] 4 (codeUnits "Flags") false (VNumber 8) ]) = true.
Proof.
  apply (isUserTable_bits (fun _ => 0) _ 0x05000001 8); try reflexivity; try lia.
  split; reflexivity.
Defined.

(** A row without a numeric [Type] or [Flags] is never a user table. *)
Lemma isUserTable_needs_numbers (doubleToInt32 : Z -> Z) (row : RowData.t) :
  isUserTable doubleToInt32 row = true ->
  (exists v, columnValueNamed "Type" row = Some v
             /\ ((exists n, v = VNumber n) \/ exists bits, v = VDouble bits))
  /\ (exists v, columnValueNamed "Flags" row = Some v
                /\ ((exists n, v = VNumber n) \/ exists bits, v = VDouble bits)).
Proof.
  unfold isUserTable.
  destruct (columnValueNamed "Type" row) as [ty|]; [|discriminate].
  destruct (columnValueNamed "Flags" row) as [fl|]; [|discriminate].
  destruct ty, fl; cbn [numberAnd]; try discriminate; intros _;
    split; eexists; (split; [reflexivity|]); eauto.
Qed.

(** ** The facade: table names *)

Lemma mapM_Ok_inv {A B : Type} (f : A -> Res B) :
  forall (l : list A) (ys : list B),
    mapM f l = Ok ys -> Forall2 (fun x y => f x = Ok y) l ys.
Proof.
  induction l as [|x l IH]; intros ys H.
  - cbn in H. injection H as <-. constructor.
  - cbn [mapM] in H. destruct (f x) as [y|e] eqn:Hy; [|discriminate].
    cbn [mbind Res_bind] in H.
    destruct (mapM f l) as [ys'|e] eqn:Hys; [|discriminate].
    cbn in H. injection H as <-. constructor; [exact Hy | by apply IH].
Qed.

(** [findIndex] returns the first position that satisfies the test. *)
Lemma findIndexFrom_first {A : Type} (f : A -> bool) :
  forall (l : list A) (i : Z) (k : nat) (x : A),
    l !! k = Some x -> f x = true ->
    exists (k' : nat) (x' : A),
      findIndexFrom f i l = i + Z.of_nat k' /\ (k' <= k)%nat
      /\ l !! k' = Some x' /\ f x' = true.
Proof.
  induction l as [|y l IH]; intros i k x Hk Hx.
  - rewrite lookup_nil in Hk. discriminate.
  - cbn [findIndexFrom]. destruct (f y) eqn:Hy.
    + exists 0%nat, y. repeat split; [lia | lia | exact Hy].
    + destruct k as [|k]; cbn in Hk; [congruence|].
      destruct (IH (i + 1) k x Hk Hx) as (k' & x' & Hfi & Hle & Hk' & Hx').
      exists (S k'), x'. repeat split; [lia | lia | exact Hk' | exact Hx'].
Qed.

(** X15: every name that [tables()] returns resolves: [tables()] gives one
    name per catalog user row, and for the name at position [i] the lookup
    of [columns]/[rows] finds a row at or before [i] whose [Name] is that
    name; when the handle has a schema entry for every user row,
    [columns(name)] succeeds. *)
Theorem tables_resolve (rt : Runtime) (this : JetDb.t) (names : list (list Z)) :
  tables this = Ok names ->
  length names = length (JetDb.userTables this)
  /\ forall (i : nat) (name : list Z), names !! i = Some name ->
       exists (k : nat) (row : RowData.t),
         tableIndex rt this name = Z.of_nat k /\ (k <= i)%nat
         /\ JetDb.userTables this !! k = Some row
         /\ columnValueNamed "Name" row = Some (VString name)
         /\ ((length (JetDb.userTables this) <= length (JetDb.schema this))%nat ->
             exists tdef : Tdef.t,
               JetDb.schema this !! k = Some tdef
               /\ columns rt this name
                  = Ok (map TdefColumnName.name (Tdef.colNames tdef))).
Proof.
  unfold tables. intros H. apply mapM_Ok_inv in H.
  split; [symmetry; eapply Forall2_length; exact H|].
  intros i name Hname.
  destruct (Forall2_lookup_r _ _ _ _ _ H Hname) as (row & Hrow & Hval).
  assert (Hnm : columnValueNamed "Name" row = Some (VString name)).
  { destruct (columnValueNamed "Name" row) as [[| | | |s]|]; try discriminate.
    by injection Hval as ->. }
  assert (Hmatch : looseEq rt (columnValueNamed "Name" row) name = true).
  { rewrite Hnm. cbn. by apply bool_decide_eq_true_2. }
  destruct (findIndexFrom_first
              (fun p => looseEq rt (columnValueNamed "Name" p) name)
              (JetDb.userTables this) 0 i row Hrow Hmatch)
    as (k & row' & Hfi & Hle & Hk & Hrow').
  cbn beta in Hrow'.
  assert (Hnm' : columnValueNamed "Name" row' = Some (VString name)).
  { destruct (Forall2_lookup_l _ _ _ _ _ H Hk) as (name' & _ & Hval').
    destruct (columnValueNamed "Name" row') as [[| | | |s]|]; try discriminate.
    cbn in Hrow'. apply bool_decide_eq_true in Hrow'. by subst s. }
  exists k, row'. unfold tableIndex, findIndex. rewrite Hfi.
  split; [lia|]. split; [exact Hle|]. split; [exact Hk|]. split; [exact Hnm'|].
  intros Hschema.
  apply lookup_lt_Some in Hk as Hklt.
  destruct (lookup_lt_is_Some_2 (JetDb.schema this) k ltac:(lia)) as [tdef Htdef].
  exists tdef. split; [exact Htdef|].
  unfold columns, tableIndex, findIndex. rewrite Hfi. unfold jsGet.
  destruct (Z.ltb_spec (0 + Z.of_nat k) 0) as [?|_]; [lia|].
  replace (Z.to_nat (0 + Z.of_nat k)) with k by lia.
  by rewrite Htdef.
Qed.

Lemma tables_resolve_witness :
  exists (k : nat) (row : RowData.t),
    tableIndex sampleRuntime sampleHandle (codeUnits "T") = Z.of_nat k
    /\ JetDb.userTables sampleHandle !! k = Some row.
Proof.
  destruct (tables_resolve sampleRuntime sampleHandle [codeUnits "T"])
    as [_ H].
  - reflexivity.
  - destruct (H 0%nat (codeUnits "T") eq_refl) as (k & row & Hi & _ & Hk & _).
    exists k, row. split; assumption.
Defined.

(** X16: [columnsWithType] and [tablesWithRows] against [columns] and
    [tables]: the types are those of the table's descriptors in order, the
    names are those [columns] returns when the tdef has as many names as
    descriptors; [tablesWithRows] lists the names of [tables] and pairs
    the user row at position [i] with the row count of schema entry [i]. *)
Theorem with_type_and_rows (rt : Runtime) (this : JetDb.t) :
  (forall (table : list Z) (l : list (list Z * Z)),
     columnsWithType rt this table = Ok l ->
     exists tdef : Tdef.t,
       jsGet (JetDb.schema this) (tableIndex rt this table) = Some tdef
       /\ map snd l = map TdefColumn.type (Tdef.cols tdef)
       /\ map fst l
          = map TdefColumnName.name
              (take (length (Tdef.cols tdef)) (Tdef.colNames tdef))
       /\ (length (Tdef.colNames tdef) = length (Tdef.cols tdef) ->
           columns rt this table = Ok (map fst l)))
  /\ (forall l : list (list Z * Z),
        tablesWithRows this = Ok l ->
        tables this = Ok (map fst l)
        /\ forall (i : nat) (name : list Z) (n : Z), l !! i = Some (name, n) ->
             exists tdef : Tdef.t,
               JetDb.schema this !! i = Some tdef /\ n = Tdef.numRows tdef).
Proof.
  split.
  - intros table l H. unfold columnsWithType in H.
    destruct (jsGet (JetDb.schema this) (tableIndex rt this table)) as [tdef|] eqn:Ht;
      [|discriminate].
    exists tdef. split; [reflexivity|].
    unfold mapMi in H.
    assert (Hgen : forall (cols : list TdefColumn.t) (i : nat) (l : list (list Z * Z)),
              mapMi_from
                (fun index p =>
                   match Tdef.colNames tdef !! index with
                   | Some colName =>
                       Ok (TdefColumnName.name colName, TdefColumn.type p)
                   | None => Throw (TypeError "name")
                   end) i cols = Ok l ->
              map snd l = map TdefColumn.type cols
              /\ map fst l
                 = map TdefColumnName.name
                     (take (length cols) (drop i (Tdef.colNames tdef)))).
    { induction cols as [|c cols IH]; intros i l' Hl.
      - cbn in Hl. injection Hl as <-. by split.
      - cbn [mapMi_from] in Hl.
        destruct (Tdef.colNames tdef !! i) as [colName|] eqn:Hn; [|discriminate].
        cbn [mbind Res_bind] in Hl.
        destruct (mapMi_from _ (S i) cols) as [l''|] eqn:Hl''; [|discriminate].
        cbn in Hl. injection Hl as <-.
        destruct (IH _ _ Hl'') as [Hs Hf].
        cbn [map fst snd length]. rewrite Hs, Hf.
        split; [reflexivity|].
        rewrite (drop_S _ _ _ Hn). reflexivity. }
    destruct (Hgen _ _ _ H) as [Hs Hf]. rewrite drop_0 in Hf.
    split; [exact Hs|]. split; [exact Hf|].
    intros Hlen. unfold columns. rewrite Ht, Hf, <- Hlen.
    by rewrite firstn_all.
  - intros l H. unfold tablesWithRows, mapMi in H.
    assert (Hgen : forall (rowsl : list RowData.t) (i : nat) (l : list (list Z * Z)),
              mapMi_from
                (fun index p =>
                   match columnValueNamed "Name" p with
                   | Some (VString val) =>
                       match JetDb.schema this !! index with
                       | Some tdef => Ok (val, Tdef.numRows tdef)
                       | None => Throw (TypeError "numRows")
                       end
                   | _ => Throw ErrorInTableNames
                   end) i rowsl = Ok l ->
              mapM (fun p =>
                      match columnValueNamed "Name" p with
                      | Some (VString val) => Ok val
                      | _ => Throw ErrorInTableNames
                      end) rowsl = Ok (map fst l)
              /\ forall (k : nat) (name : list Z) (n : Z), l !! k = Some (name, n) ->
                   exists tdef : Tdef.t,
                     JetDb.schema this !! (i + k)%nat = Some tdef
                     /\ n = Tdef.numRows tdef).
    { induction rowsl as [|p rowsl IH]; intros i l' Hl.
      - cbn in Hl. injection Hl as <-. split; [reflexivity|].
        intros k name n Hk. rewrite lookup_nil in Hk. discriminate.
      - cbn [mapMi_from] in Hl. cbn [mapM].
        destruct (columnValueNamed "Name" p) as [[| | | |val]|]; try discriminate.
        destruct (JetDb.schema this !! i) as [tdef|] eqn:Htdef; [|discriminate].
        cbn [mbind Res_bind] in Hl |- *.
        destruct (mapMi_from _ (S i) rowsl) as [l''|] eqn:Hl''; [|discriminate].
        cbn in Hl. injection Hl as <-.
        destruct (IH _ _ Hl'') as [Hm Hn]. rewrite Hm. split; [reflexivity|].
        intros [|k] name n Hk; cbn in Hk.
        + injection Hk as <- <-. exists tdef. by rewrite Nat.add_0_r.
        + destruct (Hn k name n Hk) as (tdef' & Ht' & ->).
          exists tdef'. split; [|reflexivity].
          by replace (i + S k)%nat with (S i + k)%nat by lia. }
    destruct (Hgen _ _ _ H) as [Hm Hn]. split; [exact Hm|].
    intros i name n Hi. apply (Hn i name n Hi).
Qed.

Lemma with_type_and_rows_witness :
  columns sampleRuntime sampleHandle (codeUnits "T")
  = Ok (map fst [(codeUnits "A", 4); (codeUnits "B", 10)]).
Proof.
  destruct (with_type_and_rows sampleRuntime sampleHandle) as [Hc _].
  destruct (Hc (codeUnits "T") [(codeUnits "A", 4); (codeUnits "B", 10)] eq_refl)
    as (tdef & Ht & _ & _ & Hcols).
  apply Hcols. vm_compute in Ht. injection Ht as <-. reflexivity.
Defined.

(** ** Streaming *)

Lemma chunksOf_lookup (size : nat) :
  (0 < size)%nat ->
  forall (fuel : nat) (file : list Z) (k : nat),
    (length file <= fuel)%nat ->
    (k * size < length file)%nat ->
    chunksOf fuel size file !! k = Some (take size (drop (k * size) file)).
Proof.
  intros Hsize. induction fuel as [|fuel IH]; intros file k Hfuel Hk; [lia|].
  destruct file as [|b file]; [cbn in Hk; lia|].
  cbn [chunksOf]. destruct k as [|k].
  - cbn [lookup list_lookup]. by rewrite Nat.mul_0_l, drop_0.
  - cbn [lookup list_lookup].
    rewrite IH.
    + by rewrite drop_drop.
    + rewrite length_drop. cbn [length] in *. lia.
    + rewrite length_drop. cbn [length] in *. lia.
Qed.

Lemma chunksOf_length_le (size : nat) :
  (0 < size)%nat ->
  forall (fuel : nat) (file : list Z),
    (length (chunksOf fuel size file) * size < length file + size)%nat.
Proof.
  intros Hsize. induction fuel as [|fuel IH]; intros file; [cbn; lia|].
  destruct file as [|b file]; [cbn; lia|].
  cbn [chunksOf]. specialize (IH (drop size (b :: file))).
  rewrite length_drop in IH.
  change (length (take size (b :: file) :: chunksOf fuel size (drop size (b :: file))))
    with (S (length (chunksOf fuel size (drop size (b :: file))))).
  change (length (b :: file)) with (S (length file)) in *.
  rewrite Nat.mul_succ_l.
  destruct (le_lt_dec size (S (length file))) as [Hle|Hlt]; [lia|].
  rewrite (drop_ge (b :: file) size) by (cbn [length]; lia).
  destruct fuel; cbn; lia.
Qed.

(** With a sorted page list whose entries index the chunks still to come,
    [pickPages] pushes on exactly the chunks the list names, in the order
    of the list. *)
Lemma pickPagesFrom_sorted :
  forall (chunks : list (list Z)) (q : Z) (pre pages : list Z),
    Forall (fun p => p < q) pre ->
    StronglySorted Z.lt pages ->
    Forall (fun p => q <= p < q + Z.of_nat (length chunks)) pages ->
    pickPagesFrom (pre ++ pages) q chunks
    = map (fun p => default [] (chunks !! Z.to_nat (p - q))) pages.
Proof.
  induction chunks as [|c chunks IH]; intros q pre pages Hpre Hsort Hbound.
  - destruct pages as [|p pages]; [reflexivity|].
    inversion Hbound; subst. cbn in *. lia.
  - cbn [pickPagesFrom].
    destruct pages as [|p0 pages].
    + rewrite app_nil_r. rewrite bool_decide_eq_false_2.
      * specialize (IH (q + 1) pre [] ltac:(eapply Forall_impl; [exact Hpre|cbn; intros; lia])
                      ltac:(constructor) ltac:(constructor)).
        by rewrite app_nil_r in IH.
      * intros Hin. apply (proj1 (Forall_forall _ _) Hpre) in Hin. lia.
    + apply StronglySorted_cons in Hsort as [Hgt Hsort].
      apply Forall_cons in Hbound as [Hp0 Hbound].
      assert (Hrest : Forall (fun p => q + 1 <= p < q + 1 + Z.of_nat (length chunks)) pages).
      { apply Forall_forall. intros p Hp.
        apply (proj1 (Forall_forall _ _) Hgt) in Hp as Hlt.
        apply (proj1 (Forall_forall _ _) Hbound) in Hp. cbn [length] in Hp. lia. }
      assert (Hshift : map (fun p => default [] (chunks !! Z.to_nat (p - (q + 1)))) pages
                       = map (fun p => default [] ((c :: chunks) !! Z.to_nat (p - q))) pages).
      { apply map_ext_in. intros p Hp. apply list_elem_of_In in Hp.
        apply (proj1 (Forall_forall _ _) Hrest) in Hp.
        replace (Z.to_nat (p - q)) with (S (Z.to_nat (p - (q + 1)))) by lia.
        reflexivity. }
      destruct (decide (p0 = q)) as [->|Hne].
      * rewrite bool_decide_eq_true_2 by (apply elem_of_app; right; left).
        cbn [map]. rewrite Z.sub_diag. cbn [Z.to_nat lookup list_lookup default].
        f_equal. rewrite <- Hshift.
        replace (pre ++ q :: pages) with ((pre ++ [q]) ++ pages)
          by (by rewrite <- app_assoc).
        apply IH; [|exact Hsort|exact Hrest].
        apply Forall_app. split; [|repeat constructor; lia].
        eapply Forall_impl; [exact Hpre|]. cbn. intros; lia.
      * rewrite bool_decide_eq_false_2.
        -- cbn [length] in Hp0.
           specialize (IH (q + 1) pre (p0 :: pages)
                         ltac:(eapply Forall_impl; [exact Hpre|cbn; intros; lia])
                         ltac:(by apply StronglySorted_cons)
                         ltac:(apply Forall_cons; split; [lia|exact Hrest])).
           rewrite IH. cbn [map]. rewrite Hshift. f_equal.
           replace (Z.to_nat (p0 - q)) with (S (Z.to_nat (p0 - (q + 1)))) by lia.
           reflexivity.
        -- intros Hin. apply elem_of_app in Hin as [Hin|Hin].
           ++ apply (proj1 (Forall_forall _ _) Hpre) in Hin. lia.
           ++ apply elem_of_cons in Hin as [?|Hin]; [lia|].
              apply (proj1 (Forall_forall _ _) Hgt) in Hin. lia.
Qed.

Lemma mapM_Forall2 {A B : Type} (f : A -> Res B) :
  forall (l : list A) (ys : list B),
    Forall2 (fun x y => f x = Ok y) l ys -> mapM f l = Ok ys.
Proof.
  induction 1 as [|x y l ys Hxy _ IH]; [reflexivity|].
  cbn [mapM]. rewrite Hxy. cbn [mbind Res_bind]. rewrite IH. reflexivity.
Qed.

(** A page that decodes lies inside the file, and on a file of whole pages
    it is the chunk of that number. *)
Lemma decoded_page_is_chunk (rt : Runtime) (config : DatabaseConfig)
    (file : list Z) (schema : Tdef.t) (n : nat) (p : Z) (buffer : list Z)
    (rows : list RowData.t) :
  4 <= pageSize config ->
  length file = (n * Z.to_nat (pageSize config))%nat ->
  readBuffer file (pageSize config) p = Ok buffer ->
  readRowsForPage rt config file buffer schema = Ok rows ->
  0 <= p
  /\ fileChunks (pageSize config) file !! Z.to_nat p = Some buffer.
Proof.
  intros Hps Hfile Hbuf Hrows.
  assert (Hp : 0 <= p).
  { apply readBuffer_Ok_bounds in Hbuf as Hb. nia. }
  split; [exact Hp|].
  destruct (readBuffer_lookup file (pageSize config) p ltac:(lia) Hp)
    as (buf' & Hbuf' & Hlen & Hnth).
  rewrite Hbuf in Hbuf'. injection Hbuf' as <-.
  set (ps := Z.to_nat (pageSize config)) in *.
  assert (Hoff : Z.to_nat (pageSize config * p) = (Z.to_nat p * ps)%nat)
    by (unfold ps; nia).
  assert (Hin : (Z.to_nat p * ps < length file)%nat).
  { destruct (le_lt_dec (length file) (Z.to_nat p * ps)) as [Hout|]; [|assumption].
    exfalso. specialize (Hnth 0%nat ltac:(lia)).
    rewrite Nat.add_0_r, Hoff, (lookup_ge_None_2 file) in Hnth by lia.
    cbn in Hnth.
    destruct (readRowsForPage_rows _ _ _ _ _ _ Hrows) as (slots & Hslots & _).
    rewrite (parseOffsets_wrong_code config buffer 0 Hnth) in Hslots by lia.
    discriminate. }
  unfold fileChunks. fold ps.
  rewrite (chunksOf_lookup ps ltac:(unfold ps; lia) _ _ _ (le_n _) Hin).
  f_equal. rewrite readBuffer_nonneg in Hbuf by nia.
  injection Hbuf as <-. rewrite Hoff. fold ps.
  assert (Hfull : length (take ps (drop (Z.to_nat p * ps) file)) = ps).
  { rewrite length_take, length_drop.
    assert (Z.to_nat p < n)%nat by nia.
    assert (Z.to_nat p * ps + ps <= n * ps)%nat by nia.
    lia. }
  rewrite Hfull, Nat.sub_diag. cbn. by rewrite app_nil_r.
Qed.

(** X17: streaming agrees with reading.  On a file made of whole pages
    (page size at least 4), whenever [rows(table)] succeeds,
    [streamRows(table)] succeeds too, and the arrays of rows it delivers,
    concatenated in order, are the rows of [rows(table)]. *)
Theorem streamRows_agrees (rt : Runtime) (this : JetDb.t) (table : list Z)
    (rs : list RowData.t) (n : nat) :
  4 <= pageSize (JetDb.config this) ->
  length (JetDb.reader this) = (n * Z.to_nat (pageSize (JetDb.config this)))%nat ->
  rows rt this table = Ok rs ->
  exists events : list (list RowData.t),
    streamRows rt this table = Ok events /\ concat events = rs.
Proof.
  intros Hps Hfile Hrows. unfold rows in Hrows. unfold streamRows.
  destruct (jsGet (JetDb.schema this) (tableIndex rt this table)) as [tdef|];
    [|discriminate].
  destruct (readBuffer (JetDb.reader this) (pageSize (JetDb.config this))
              (Tdef.usedPagesPage tdef)) as [buf|]; [|discriminate].
  cbn [mbind Res_bind] in *.
  destruct (parseUsedPagesMap (JetDb.config this) (JetDb.reader this) buf)
    as [upm|] eqn:Hupm; [|discriminate].
  cbn [mbind Res_bind] in *.
  unfold readRows in Hrows.
  destruct (mapM _ upm) as [pagesRows|] eqn:Hpages; [|discriminate].
  cbn [mbind Res_bind] in Hrows. injection Hrows as <-.
  exists pagesRows. split; [|reflexivity].
  apply mapM_Ok_inv in Hpages.
  set (chunks := fileChunks (pageSize (JetDb.config this)) (JetDb.reader this)).
  assert (Hall : Forall2
                   (fun p rows_p =>
                      0 <= p
                      /\ exists buffer,
                           chunks !! Z.to_nat p = Some buffer
                           /\ readRowsForPage rt (JetDb.config this)
                                (JetDb.reader this) buffer tdef = Ok rows_p)
                   upm pagesRows).
  { eapply Forall2_impl; [exact Hpages|]. cbn beta. intros p rows_p Hg.
    destruct (readBuffer (JetDb.reader this) (pageSize (JetDb.config this)) p)
      as [buffer|] eqn:Hb; [|discriminate].
    cbn [mbind Res_bind] in Hg.
    destruct (decoded_page_is_chunk rt _ _ tdef n p buffer rows_p Hps Hfile Hb Hg)
      as [Hp Hc].
    split; [exact Hp|]. exists buffer. by split. }
  unfold transformPages, pickPages. fold chunks.
  change (pickPagesFrom upm 0 chunks) with (pickPagesFrom ([] ++ upm) 0 chunks).
  rewrite (pickPagesFrom_sorted chunks 0 [] upm).
  - apply mapM_Forall2. apply Forall2_fmap_l.
    eapply Forall2_impl; [exact Hall|]. cbn beta.
    intros p rows_p (Hp & buffer & Hc & Hr).
    unfold compose. replace (p - 0) with p by lia. rewrite Hc. exact Hr.
  - constructor.
  - eapply parseUsedPagesMap_increasing; eassumption.
  - apply Forall_forall. intros p Hp.
    apply list_elem_of_lookup in Hp as [i Hi].
    destruct (Forall2_lookup_l _ _ _ _ _ Hall Hi) as (rows_p & _ & Hp0 & buffer & Hc & _).
    apply lookup_lt_Some in Hc. lia.
Qed.

Lemma streamRows_agrees_witness :
  exists events : list (list RowData.t),
    streamRows sampleRuntime sampleHandle (codeUnits "T") = Ok events
    /\ length (concat events) = 1%nat.
Proof.
  destruct (streamRows_agrees sampleRuntime sampleHandle (codeUnits "T")
              [ RowData.mk 0
                  [ ColumnData.mk 0 [7; 0; 0; 0] 4 [65] true (VNumber 7);
                    ColumnData.mk 1 [255; 254; 104; 105] 10 [66] false
                      (VString [104; 105]) ] ] 3)
    as (events & He & Hc).
  - cbn. lia.
  - vm_compute. reflexivity.
  - vm_compute. reflexivity.
  - exists events. split; [exact He|]. by rewrite Hc.
Defined.

(** ** Uncompressed text *)

Lemma toUtf16le_utf16leBytes (s : list Z) :
  Buf.toUtf16le (utf16leBytes s) = s.
Proof.
  induction s as [|c s IH]; [reflexivity|].
  cbn [utf16leBytes flat_map app Buf.toUtf16le].
  fold (utf16leBytes s). rewrite IH. f_equal.
  pose proof (Z.div_mod c 256 ltac:(lia)). lia.
Qed.

(** X18: uncompressed JET4 text round-trips.  A string whose first code
    unit is not U+FEFF, stored as plain UTF-16LE, is read back by
    [parseText] unchanged. *)
Theorem parseText_uncompressed_roundtrip (config : DatabaseConfig)
    (s : list Z) :
  version config = JETDB4 ->
  s !! 0%nat <> Some 0xfeff ->
  parseText config (utf16leBytes s) = s.
Proof.
  intros Hv Hs. unfold parseText. rewrite Hv.
  destruct (bool_decide (utf16leBytes s !! 0%nat = Some 255)
            && bool_decide (utf16leBytes s !! 1%nat = Some 254)) eqn:Hmark.
  - exfalso. apply andb_prop in Hmark as [H0 H1].
    apply bool_decide_eq_true_1 in H0. apply bool_decide_eq_true_1 in H1.
    destruct s as [|c s]; [discriminate|].
    cbn in H0, H1. injection H0 as H0. injection H1 as H1.
    apply Hs. cbn. f_equal.
    pose proof (Z.div_mod c 256 ltac:(lia)). lia.
  - apply toUtf16le_utf16leBytes.
Qed.

Lemma parseText_uncompressed_roundtrip_witness :
  parseText (mkConfig 4096 JETDB4) (utf16leBytes (codeUnits "hi"))
  = codeUnits "hi".
Proof.
  apply parseText_uncompressed_roundtrip; [reflexivity | cbn; discriminate].
Defined.
